(** * viewhtmlmail: splitting a mail message into files and rewriting its HTML

    A shallow embedding of [viewhtmlmail.py]: the helpers
    [find_first_maildir_file] and [sanitize_filename], the function
    [view_html_message] (message loading, extraction of the MIME parts,
    rewriting of the [cid:] references of the HTML parts, dispatch of the
    remaining attachments), [delayed_browser], and the block that runs the
    script as a program.

    Conventions of the model.
    - A Python [str] is a [string]; each [ascii] stands for the code point of
      the same number, so the texts covered are those of U+0000..U+00FF.
      [bytes] values are [string]s too.
    - What the script does to the outside world is recorded as a trace of
      [event]s; an uncaught Python exception ends the run with [Raise].
    - Library code the script calls but does not contain (the [email] parser,
      the [mimetypes] table, the text codecs, [re] outside the patterns
      modelled here, the state of the file system and of the installed
      programs) is gathered in the record [platform]. *)

From Stdlib Require Import String Ascii NArith List Lia DecimalString Decimal DecimalNat.
From stdpp Require Import gmap strings list.

Open Scope string_scope.

(** ** Characters and strings, as the Python built-ins see them *)

Module Py.

Definition code (c : ascii) : N := N_of_ascii c.

Definition in_range (lo hi : N) (c : ascii) : bool :=
  ((lo <=? code c) && (code c <=? hi))%N.

(** [str.isalpha] on one character (the letters), for U+0000..U+00FF:
    A-Z, a-z, U+00AA, U+00B5, U+00BA, U+00C0..U+00D6, U+00D8..U+00F6,
    U+00F8..U+00FF. *)
Definition isalpha (c : ascii) : bool :=
  in_range 65 90 c || in_range 97 122 c
  || (code c =? 170)%N || (code c =? 181)%N || (code c =? 186)%N
  || in_range 192 214 c || in_range 216 246 c || in_range 248 255 c.

(** [str.isdigit] on one character: 0-9 and the superscripts U+00B2, U+00B3,
    U+00B9. *)
Definition isdigit (c : ascii) : bool :=
  in_range 48 57 c || in_range 178 179 c || (code c =? 185)%N.

(** [str.lower] on one character: A-Z, U+00C0..U+00D6 and U+00D8..U+00DE
    move up by 32; nothing else changes in this range. *)
Definition lower_char (c : ascii) : ascii :=
  if in_range 65 90 c || in_range 192 214 c || in_range 216 222 c
  then ascii_of_N (code c + 32) else c.

Fixpoint lower (s : string) : string :=
  match s with
  | EmptyString => EmptyString
  | String c s' => String (lower_char c) (lower s')
  end.

(** [x in s] for a one-character [x]. *)
Fixpoint char_in (x : ascii) (s : string) : bool :=
  match s with
  | EmptyString => false
  | String c s' => Ascii.eqb x c || char_in x s'
  end.

(** [s.startswith(p)] *)
Fixpoint startswith (s p : string) : bool :=
  match p, s with
  | EmptyString, _ => true
  | String _ _, EmptyString => false
  | String a p', String b s' => Ascii.eqb a b && startswith s' p'
  end.

(** [s[n:]] *)
Fixpoint drop (n : nat) (s : string) : string :=
  match n, s with
  | O, _ => s
  | S _, EmptyString => EmptyString
  | S n', String _ s' => drop n' s'
  end.

(** [s[:n]] *)
Fixpoint take (n : nat) (s : string) : string :=
  match n, s with
  | O, _ => EmptyString
  | S _, EmptyString => EmptyString
  | S n', String c s' => String c (take n' s')
  end.

(** [s.endswith(p)] *)
Definition endswith (s p : string) : bool :=
  (String.length p <=? String.length s)%nat
  && String.eqb (drop (String.length s - String.length p) s) p.

(** [s[1:-1]] *)
Definition slice_1_m1 (s : string) : string :=
  take (String.length s - 2) (drop 1 s).

(** [p in s] for strings: [p] occurs in [s]. *)
Fixpoint contains (s p : string) : bool :=
  startswith s p
  || match s with
     | EmptyString => false
     | String _ s' => contains s' p
     end.

(** Truth value of a [str] or [None]: only a non-empty string is true. *)
Definition truthy (o : option string) : bool :=
  match o with
  | Some (String _ _) => true
  | _ => false
  end.

(** ['%d' % n] for a non-negative [n]. *)
Definition fmt_d (n : nat) : string := NilEmpty.string_of_uint (Nat.to_uint n).

Fixpoint zeros (n : nat) : string :=
  match n with
  | O => EmptyString
  | S n' => String "0" (zeros n')
  end.

(** ['%0wd' % n] for a non-negative [n]: zeros on the left up to width [w]. *)
Definition fmt_0d (w n : nat) : string :=
  zeros (w - String.length (fmt_d n)) +:+ fmt_d n.

(** [s.rfind(c)] for a one-character [c], as the option of the index. *)
Fixpoint rfind (c : ascii) (s : string) : option nat :=
  match s with
  | EmptyString => None
  | String a s' =>
      match rfind c s' with
      | Some i => Some (S i)
      | None => if Ascii.eqb a c then Some O else None
      end
  end.

End Py.

(** ** [posixpath] *)

Module PosixPath.

Definition sep : ascii := "/"%char.
Definition extsep : ascii := "."%char.

(** [os.path.join(a, b)] *)
Definition join (a b : string) : string :=
  if Py.startswith b (String sep EmptyString) then b
  else if String.eqb a EmptyString || Py.endswith a (String sep EmptyString)
       then a +:+ b
       else a +:+ String sep EmptyString +:+ b.

(** The loop of [genericpath._splitext] that skips the leading dots of the
    last component: true when a character other than the dot lies in
    [p[filenameIndex:dotIndex]]. *)
Fixpoint non_dot_before (p : string) (filenameIndex dotIndex : nat) : bool :=
  match p with
  | EmptyString => false
  | String c p' =>
      match dotIndex with
      | O => false
      | S d =>
          match filenameIndex with
          | S f => non_dot_before p' f d
          | O => negb (Ascii.eqb c extsep) || non_dot_before p' O d
          end
      end
  end.

(** [os.path.splitext(p)] *)
Definition splitext (p : string) : string * string :=
  let filenameIndex :=
    match Py.rfind sep p with Some i => S i | None => O end in
  match Py.rfind extsep p with
  | Some dotIndex =>
      if (filenameIndex <=? dotIndex)%nat && non_dot_before p filenameIndex dotIndex
      then (Py.take dotIndex p, Py.drop dotIndex p)
      else (p, EmptyString)
  | None => (p, EmptyString)
  end.

End PosixPath.

(** ** The two helpers of the script *)

(** The test of the comprehension in [sanitize_filename]. *)
Definition allowed_char (x : ascii) : bool :=
  Py.isalpha x || Py.isdigit x || Py.char_in x "-_.".

(** [''.join([x for x in badstr if x.isalpha() or x.isdigit() or x in '-_.'])] *)
Fixpoint sanitize_filename (badstr : string) : string :=
  match badstr with
  | EmptyString => EmptyString
  | String x rest =>
      if allowed_char x then String x (sanitize_filename rest)
      else sanitize_filename rest
  end.

(** ** The fragment of [re] that the script's patterns fall in

    The script builds the pattern ['cid: ?' + sf_cid] from a Content-ID and
    hands it to [re.sub] with [re.IGNORECASE]. The model covers the patterns
    made of ordinary characters, the dot, and a greedy [?] after one of them.
    Any other pattern (a Content-ID holding one of [\ ^ $ | * + ( ) [ ] { }],
    or a [?] that does not follow a plain character) is outside this
    fragment: [parse] answers [None] for it, and what [re] does with it is
    asked of the platform. *)

Module Re.

Inductive atom : Type :=
| Lit (c : ascii)      (* an ordinary character *)
| AnyChar.             (* the dot *)

Inductive item : Type :=
| One (a : atom)       (* a *)
| Opt (a : atom).      (* a? *)

Definition regex : Type := list item.

Definition special (c : ascii) : bool := Py.char_in c "\^$.|?*+()[]{}".

Definition atom_of (c : ascii) : option atom :=
  if Ascii.eqb c "." then Some AnyChar
  else if special c then None
  else Some (Lit c).

Fixpoint parse (pattern : string) : option regex :=
  match pattern with
  | EmptyString => Some []
  | String c rest =>
      match atom_of c with
      | None => None
      | Some a =>
          match rest with
          | String "?" rest' => cons (Opt a) <$> parse rest'
          | _ => cons (One a) <$> parse rest
          end
      end
  end.

(** One character against one atom, under [re.IGNORECASE] and without
    [re.DOTALL]: letters are compared through their lower case, the dot
    takes anything but the newline. *)
Definition atom_match (a : atom) (c : ascii) : bool :=
  match a with
  | Lit p => Ascii.eqb (Py.lower_char c) (Py.lower_char p)
  | AnyChar => negb (Ascii.eqb c "010")
  end.

(** The match of [r] at the start of [s], as the number of characters it
    takes: the first success of the backtracking search, which tries to take
    an optional character before it tries to leave it. *)
Fixpoint match_len (r : regex) (s : string) : option nat :=
  match r with
  | [] => Some O
  | One a :: r' =>
      match s with
      | String c s' => if atom_match a c then S <$> match_len r' s' else None
      | EmptyString => None
      end
  | Opt a :: r' =>
      match
        match s with
        | String c s' => if atom_match a c then S <$> match_len r' s' else None
        | EmptyString => None
        end
      with
      | Some n => Some n
      | None => match_len r' s
      end
  end.

(** The scan of [re.sub]: [skip] characters of [s] belong to a match that
    has already been replaced. A match is replaced where it starts; an empty
    match is replaced too and the character after it is kept (the behaviour
    since Python 3.7). *)
Fixpoint sub_from (r : regex) (repl s : string) (skip : nat) {struct s} : string :=
  match skip with
  | S k =>
      match s with
      | String _ s' => sub_from r repl s' k
      | EmptyString => EmptyString
      end
  | O =>
      match match_len r s with
      | Some (S n) =>
          repl +:+ match s with
                   | String _ s' => sub_from r repl s' n
                   | EmptyString => EmptyString
                   end
      | Some O =>
          repl +:+ match s with
                   | String c s' => String c (sub_from r repl s' O)
                   | EmptyString => EmptyString
                   end
      | None =>
          match s with
          | String c s' => String c (sub_from r repl s' O)
          | EmptyString => EmptyString
          end
      end
  end.

(** [re.sub(pattern, repl, text, flags=re.IGNORECASE)] inside the fragment.
    A replacement that holds a backslash is a template with escapes, which
    lies outside the fragment as well. *)
Definition sub_ignorecase (pattern repl text : string) : option string :=
  match parse pattern with
  | None => None
  | Some r =>
      if Py.char_in "\" repl then None
      else Some (sub_from r repl text O)
  end.

End Re.

(** ** Effects: what a run does, and how it ends *)

(** The exceptions the script can let escape. *)
Inductive exn : Type :=
| OSError          (* a file or a program that cannot be opened, written, started *)
| TypeError        (* open(None) *)
| AttributeError   (* None.walk() *)
| NameError        (* a name that was never bound *)
| UnicodeDecodeError   (* bytes that the text codec cannot decode *)
| UnicodeEncodeError   (* text that the text codec cannot encode *)
| ReError.         (* re.error: a pattern or a replacement that re rejects *)

Inductive event : Type :=
| Ev_open (path : string)         (* open(path, 'wb'): the file is created or emptied *)
| Ev_write (path data : string)   (* fp.write(data) on the file opened at path *)
| Ev_call (argv : list string)    (* subprocess.call(argv), waited for *)
| Ev_popen (argv : list string).  (* subprocess.Popen(argv), not waited for *)

Inductive outcome (A : Type) : Type :=
| Return (a : A)
| Raise (e : exn).    (* an uncaught exception: the run stops here *)

Arguments Return {A} a.
Arguments Raise {A} e.

(** A computation: the events performed, in order, and the way it ends. *)
Definition io (A : Type) : Type := (list event * outcome A)%type.

Definition ret {A} (a : A) : io A := ([], Return a).
Definition raise {A} (e : exn) : io A := ([], Raise e).
Definition emit (ev : event) : io unit := ([ev], Return tt).

Definition bind {A B} (m : io A) (k : A -> io B) : io B :=
  match m with
  | (t, Return a) => let '(t', o) := k a in ((t ++ t')%list, o)
  | (t, Raise e) => (t, Raise e)
  end.

Notation "'let*' x ':=' m 'in' k" := (bind m (fun x => k))
  (at level 10, x pattern, m at level 100, k at level 200).
Notation "m '>>' k" := (bind m (fun _ => k))
  (at level 62, k at level 200, right associativity).

(** [for x in l: body], threading the loop's variables as [s]. *)
Fixpoint for_each {A S} (body : S -> A -> io S) (l : list A) (s : S) : io S :=
  match l with
  | [] => ret s
  | x :: l' => let* s' := body s x in for_each body l' s'
  end.

Definition trace {A} (m : io A) : list event := fst m.
Definition result {A} (m : io A) : outcome A := snd m.

(** ** Messages, as the [email] package presents them *)

Module Email.

(** What the accessors of a part answer, apart from its body. *)
Record info : Type := {
  headers : list (string * string);   (* the header lines, in order *)
  maintype : string;                  (* get_content_maintype() *)
  subtype : string;                   (* get_content_subtype() *)
  filename : option string;           (* get_filename() *)
}.

(** A part either carries a payload or is a list of parts. *)
#[warnings="-register-all"] Inductive part : Type :=
| Leaf (i : info) (payload : string)
| Multipart (i : info) (subparts : list part).

Definition info_of (p : part) : info :=
  match p with Leaf i _ | Multipart i _ => i end.

Definition is_multipart (p : part) : bool :=
  match p with Leaf _ _ => false | Multipart _ _ => true end.

Definition keys (p : part) : list string := map fst (headers (info_of p)).

(** [part[name]]: the value of the first header of that name, the case of
    the letters aside. *)
Definition getitem (p : part) (name : string) : option string :=
  snd <$> List.find (fun kv => String.eqb (Py.lower (fst kv)) (Py.lower name))
                    (headers (info_of p)).

Definition get_content_maintype (p : part) : string := maintype (info_of p).
Definition get_content_subtype (p : part) : string := subtype (info_of p).
Definition get_content_type (p : part) : string :=
  get_content_maintype p +:+ "/" +:+ get_content_subtype p.
Definition get_filename (p : part) : option string := filename (info_of p).

(** [get_payload(decode=True)]: the bytes of a leaf, [None] for a list of
    parts. *)
Definition get_payload_decoded (p : part) : option string :=
  match p with Leaf _ b => Some b | Multipart _ _ => None end.

(** [msg.walk()]: the part, then the walk of each of its subparts. *)
Fixpoint walk (p : part) : list part :=
  p :: match p with
       | Leaf _ _ => []
       | Multipart _ ps => flat_map walk ps
       end.

End Email.

(** ** The preferences at the top of the script *)

Module Prefs.

Definition USE_WVHTML_FOR_DOC : bool := false.
Definition UNOCONV_STARTUP_TIME : string := "14".
Definition USE_QUICKBROWSE : bool := false.
Definition USE_QUTEBROWSER : bool := true.

Definition BROWSER : string :=
  if USE_QUTEBROWSER then "qutebrowser"
  else if USE_QUICKBROWSE then "quickbrowse"
  else "firefox".

(** The arguments of the first call of the browser. *)
Definition BROWSER_FIRST_ARGS : list string :=
  if USE_QUTEBROWSER
  then ["--target"; "private-window"; "--basedir"; "/tmp/mailattachments";
        "-s"; "content.dns_prefetch"; "false";
        "-s"; "content.javascript.enabled"; "false"]
  else if USE_QUICKBROWSE then []
  else ["-P"; "Default"; "-private-window"; "-new-instance"].

(** The arguments of the calls that follow. *)
Definition BROWSER_ARGS : list string :=
  if USE_QUTEBROWSER
  then ["--target"; "tab-bg"; "--basedir"; "/tmp/mailattachments"]
  else if USE_QUICKBROWSE then ["--new-tab"]
  else ["-P"; "Default"; "-private-window"].

Definition CONVERT_PDF_TO_HTML : bool :=
  if USE_QUTEBROWSER then true
  else if USE_QUICKBROWSE then false
  else false.

End Prefs.

(** ** The platform: libraries and operating system around the script *)

(** A directory tree, as [os.walk] sees it: anything that is not a directory
    counts as a file. *)
#[warnings="-register-all"] Inductive dirent : Type :=
| File (name : string)
| Dir (name : string) (entries : list dirent).

Record platform : Type := {
  (* libraries *)
  message_from_string : string -> Email.part;   (* email.message_from_string *)
  bytes_parser_parse : string -> Email.part;    (* BytesParser(policy=default_policy).parse *)
  guess_extension : string -> option string;    (* mimetypes.guess_extension *)
  bytes_decode : string -> string;              (* bytes.decode(errors="replace") *)
  str_encode : string -> string;                (* str.encode() *)
  text_decode : string -> option string;        (* the bytes of a file read in text mode, as text; None: UnicodeDecodeError *)
  re_sub : string -> string -> string -> option string;
    (* re.sub(pattern, repl, text, flags=re.IGNORECASE) outside the fragment of [Re]; None: re.error *)
  (* operating system *)
  stdin_text : option string;                   (* sys.stdin.read(); None: UnicodeDecodeError *)
  directory : string -> option (list dirent);   (* the entries, when the path is a directory *)
  file_content : string -> option string;       (* the bytes of the file at the path; None: it cannot be opened *)
  open_wb_ok : string -> bool;                  (* open(path, 'wb') succeeds *)
  write_ok : string -> bool;                    (* writing to the file at path succeeds *)
  spawn_ok : string -> bool;                    (* the program can be started *)
}.

Module Os.

Definition name_of (e : dirent) : string :=
  match e with File n | Dir n _ => n end.

Definition is_dir (e : dirent) : bool :=
  match e with File _ => false | Dir _ _ => true end.

Definition dirs_of (es : list dirent) : list string :=
  map name_of (List.filter is_dir es).

Definition files_of (es : list dirent) : list string :=
  map name_of (List.filter (fun e => negb (is_dir e)) es).

(** The triples [(root, dirs, files)] that [os.walk] yields below the entry
    [e] of the directory [top], top-down. *)
Fixpoint walk_below (top : string) (e : dirent)
  : list (string * list string * list string) :=
  match e with
  | File _ => []
  | Dir name es =>
      let root := PosixPath.join top name in
      (root, dirs_of es, files_of es) :: flat_map (walk_below root) es
  end.

(** [os.walk(top)]; nothing is yielded when [top] is not a directory. *)
Definition walk (P : platform) (top : string)
  : list (string * list string * list string) :=
  match directory P top with
  | Some es => (top, dirs_of es, files_of es) :: flat_map (walk_below top) es
  | None => []
  end.

Definition isdir (P : platform) (path : string) : bool :=
  match directory P path with Some _ => true | None => false end.

(** [os.listdir(path)] of a directory. *)
Definition listdir (P : platform) (path : string) : list string :=
  match directory P path with Some es => map name_of es | None => [] end.

End Os.

(** [open(path, 'wb')] *)
Definition open_wb (P : platform) (path : string) : io unit :=
  if open_wb_ok P path then emit (Ev_open path) else raise OSError.

(** [fp.write(data)] *)
Definition fp_write (P : platform) (path data : string) : io unit :=
  if write_ok P path then emit (Ev_write path data) else raise OSError.

(** The class [mysubprocess]; [DEBUG] is off. The exit status that
    [subprocess.call] returns is dropped by the script. *)
Module mysubprocess.

Definition program (arr : list string) : string :=
  match arr with a :: _ => a | [] => EmptyString end.

Definition call (P : platform) (arr : list string) : io unit :=
  if spawn_ok P (program arr) then emit (Ev_call arr) else raise OSError.

Definition call_bg (P : platform) (arr : list string) : io unit :=
  if spawn_ok P (program arr) then emit (Ev_popen arr) else raise OSError.

End mysubprocess.

(** ** [find_first_maildir_file] *)

(** The inner loop: the first name of [files] that does not start with a dot. *)
Definition first_non_dotfile (files : list string) : option string :=
  List.find (fun f => negb (Py.startswith f ".")) files.

(** The outer loop over the triples of the walk. *)
Fixpoint first_in_walk (w : list (string * list string * list string))
  : option string :=
  match w with
  | [] => None
  | (root, _, files) :: w' =>
      match first_non_dotfile files with
      | Some f => Some (PosixPath.join root f)
      | None => first_in_walk w'
      end
  end.

Definition find_first_maildir_file (P : platform) (maildir : string)
  : option string :=
  first_in_walk (Os.walk P maildir).

(** ** [view_html_message]: loading the message *)

(** The first statement of [view_html_message]: [msg] is the parsed message,
    or still [None] when the loop over an empty directory never ran. *)
Definition load_message (P : platform) (f : string) : io (option Email.part) :=
  if negb (String.eqb f EmptyString) then
    if Os.isdir P f then
      match Os.listdir P f with
      | [] => ret None
      | _ :: _ =>
          (* the first turn of the loop ends in [break] *)
          match find_first_maildir_file P f with
          | None => raise TypeError
          | Some path =>
              (* [open(path)] is in text mode: [fp.read()] decodes *)
              match file_content P path with
              | None => raise OSError
              | Some data =>
                  match text_decode P data with
                  | None => raise UnicodeDecodeError
                  | Some text => ret (Some (message_from_string P text))
                  end
              end
          end
      end
    else
      match file_content P f with
      | None => raise OSError
      | Some data => ret (Some (bytes_parser_parse P data))
      end
  else
    match stdin_text P with
    | None => raise UnicodeDecodeError
    | Some text => ret (Some (message_from_string P text))
    end.

(** ** [view_html_message]: saving the parts *)

(** [subfiles], a dict from content-id to [[filename, part]]: the keys keep
    the order in which they were first set. *)
Definition subfiles_t : Type := list (string * (string * Email.part)).

(** [subfiles[k] = v] *)
Fixpoint dict_set (k : string) (v : string * Email.part) (d : subfiles_t)
  : subfiles_t :=
  match d with
  | [] => [(k, v)]
  | (k', v') :: d' =>
      if String.eqb k' k then (k, v) :: d' else (k', v') :: dict_set k v d'
  end.

(** The variables of the loop over [msg.walk()]. *)
Record extractor : Type := {
  counter : nat;
  filenames : gset string;
  subfiles : subfiles_t;
  html_parts : list Email.part;
}.

Definition extractor_init : extractor :=
  {| counter := 1; filenames := ∅; subfiles := []; html_parts := [] |}.

(** [part.get_content_type == 'message/rfc822']: the script compares the
    method itself, not what it returns, with the string; a method is never
    equal to a string. *)
Definition get_content_type_method_eq (part : Email.part) (s : string) : bool :=
  false.

(** Angle brackets removed, if present. *)
Definition strip_angle_brackets (content_id : string) : string :=
  if Py.startswith content_id "<" && Py.endswith content_id ">"
  then Py.slice_1_m1 content_id
  else content_id.

(** The first key that is [content-id] once in lower case. *)
Definition content_id_key (part : Email.part) : option string :=
  List.find (fun k => String.eqb (Py.lower k) "content-id") (Email.keys part).

(** [ext]: the guess of [mimetypes], or the bag-of-bits extension. *)
Definition extension_for (P : platform) (part : Email.part) : string :=
  match guess_extension P (Email.get_content_type part) with
  | Some (String c e) => String c e
  | _ => ".bin"
  end.

(** "Use the filename provided if possible, otherwise make one up." *)
Definition derive_filename (P : platform) (part : Email.part)
    (content_id : option string) (counter : nat) : string :=
  match Email.get_filename part with
  | Some (String c fn) => sanitize_filename (String c fn)
  | _ =>
      let ext := extension_for P part in
      match content_id with
      | Some (String c cid) =>
          sanitize_filename ("cid" +:+ String c cid +:+ ext)
      | _ => "part-" +:+ Py.fmt_0d 3 counter +:+ ext
      end
  end.

(** ["%s-%d%s" % (orig_basename, counter, orig_ext)] *)
Definition numbered (orig_basename : string) (counter : nat) (orig_ext : string)
  : string :=
  orig_basename +:+ "-" +:+ Py.fmt_d counter +:+ orig_ext.

(** [while filename in filenames: counter += 1; filename = ...], with the
    number of tests of the condition bounded by [fuel]. *)
Fixpoint uniquify_loop (fuel : nat) (filenames : gset string)
    (orig_basename orig_ext : string) (counter : nat) (filename : string)
  : nat * string :=
  match fuel with
  | O => (counter, filename)
  | S fuel' =>
      if bool_decide (filename ∈ filenames)
      then uniquify_loop fuel' filenames orig_basename orig_ext (S counter)
             (numbered orig_basename (S counter) orig_ext)
      else (counter, filename)
  end.

(** "Check whether we have to uniquify the names": the new values of
    [counter] and [filename]. The set is finite, so the loop tests its
    condition [size filenames + 2] times at most ([uniquify_fresh] below). *)
Definition uniquify (filenames : gset string) (counter : nat) (filename : string)
  : nat * string :=
  if bool_decide (filename ∈ filenames)
  then
    let '(orig_basename, orig_ext) := PosixPath.splitext filename in
    uniquify_loop (size filenames + 2) filenames orig_basename orig_ext O filename
  else (counter, filename).

(** "Get the content id": the value of the header found, brackets removed.
    The key comes from [part.keys()], so [part[k]] is never [None]
    ([getitem_content_id_key] below). *)
Definition content_id_of (part : Email.part) : option string :=
  match content_id_key part with
  | Some k => strip_angle_brackets <$> Email.getitem part k
  | None => None
  end.

(** [counter += 1], done when the header is found. *)
Definition counter_after_id (part : Email.part) (counter : nat) : nat :=
  match content_id_key part with
  | Some _ => S counter
  | None => counter
  end.

(** The name given to a part, from "Get the content id" down to
    [filenames.add(filename)]: the new [counter] and the [filename]. *)
Definition assign_filename (P : platform) (st : extractor) (part : Email.part)
  : nat * string :=
  uniquify (filenames st) (counter_after_id part (counter st))
    (derive_filename P part (content_id_of part)
       (counter_after_id part (counter st))).

(** [os.path.join(tmpdir, filename)], the file the part is saved to. *)
Definition part_path (P : platform) (tmpdir : string) (st : extractor)
    (part : Email.part) : string :=
  PosixPath.join tmpdir (snd (assign_filename P st part)).

(** The loop's variables after the part, if saving it succeeds. *)
Definition extractor_after (P : platform) (tmpdir : string) (st : extractor)
    (part : Email.part) : extractor :=
  let '(counter2, filename) := assign_filename P st part in
  {| counter := counter2;
     filenames := filenames st ∪ {[ filename ]};
     subfiles :=
       match content_id_of part with
       | Some (String c cid) =>
           dict_set (String c cid) (PosixPath.join tmpdir filename, part)
             (subfiles st)
       | _ => subfiles st
       end;
     html_parts :=
       if String.eqb (Email.get_content_subtype part) "html"
       then (html_parts st ++ [part])%list else html_parts st |}.

(** The body of the loop over [msg.walk()]. *)
Definition extract_part (P : platform) (tmpdir : string)
    (st : extractor) (part : Email.part) : io extractor :=
  if Email.is_multipart part || get_content_type_method_eq part "message/rfc822"
  then ret st
  else
    let path := part_path P tmpdir st part in
    open_wb P path >>
    match Email.get_payload_decoded part with
    | Some data => fp_write P path data
    | None => raise TypeError
    end >>
    ret (extractor_after P tmpdir st part).

Definition extract_parts (P : platform) (tmpdir : string) (msg : Email.part)
  : io extractor :=
  for_each (extract_part P tmpdir) (Email.walk msg) extractor_init.

(** ** [view_html_message]: rewriting and showing the HTML parts *)

(** [re.sub(pattern, repl, text, flags=re.IGNORECASE)]: the fragment of
    [Re] where the pattern and the replacement lie in it, the platform's
    answer elsewhere. *)
Definition re_sub_ignorecase (P : platform) (pattern repl text : string)
  : io string :=
  match Re.sub_ignorecase pattern repl text with
  | Some newtext => ret newtext
  | None =>
      match re_sub P pattern repl text with
      | Some newtext => ret newtext
      | None => raise ReError
      end
  end.

(** One turn of "substitute all the filenames for content_ids", on the pair
    of [htmlsrc] and [embedded_parts]. *)
Definition substitute_cid (P : platform) (s : string * list string)
    (entry : string * (string * Email.part)) : io (string * list string) :=
  let '(htmlsrc, embedded_parts) := s in
  let '(sf_cid, (path, _)) := entry in
  let* newhtmlsrc :=
    re_sub_ignorecase P ("cid: ?" +:+ sf_cid) ("file://" +:+ path) htmlsrc in
  ret (newhtmlsrc,
       if negb (bool_decide (sf_cid ∈ embedded_parts))
          && negb (String.eqb newhtmlsrc htmlsrc)
       then (embedded_parts ++ [sf_cid])%list
       else embedded_parts).

Definition rewrite_html (P : platform) (subfiles : subfiles_t) (htmlsrc : string)
    (embedded_parts : list string) : io (string * list string) :=
  for_each (substitute_cid P) subfiles (htmlsrc, embedded_parts).

(** ["viewhtml%02d.html" % i] in [tmpdir] *)
Definition htmlfile_name (tmpdir : string) (i : nat) : string :=
  PosixPath.join tmpdir ("viewhtml" +:+ Py.fmt_0d 2 i +:+ ".html").

(** The variables of the loop over [enumerate(html_parts)]. *)
Record rewriter : Type := {
  next_index : nat;             (* i *)
  embedded_parts : list string;
  first_browser : bool;
}.

Definition rewriter_init : rewriter :=
  {| next_index := 0; embedded_parts := []; first_browser := true |}.

Definition show_html_part (P : platform) (tmpdir : string) (subfiles : subfiles_t)
    (st : rewriter) (html_part : Email.part) : io rewriter :=
  let htmlfile := htmlfile_name tmpdir (next_index st) in
  open_wb P htmlfile >>
  let* htmlsrc :=
    match Email.get_payload_decoded html_part with
    | Some data => ret (bytes_decode P data)
    | None => raise AttributeError
    end in
  let* (htmlsrc', embedded') := rewrite_html P subfiles htmlsrc (embedded_parts st) in
  fp_write P htmlfile (str_encode P htmlsrc') >>
  let cmd :=
    ([Prefs.BROWSER]
     ++ (if first_browser st then Prefs.BROWSER_FIRST_ARGS else Prefs.BROWSER_ARGS)
     ++ ["file://" +:+ htmlfile])%list in
  mysubprocess.call_bg P cmd >>
  ret {| next_index := S (next_index st); embedded_parts := embedded';
         first_browser := false |}.

Definition show_html_parts (P : platform) (tmpdir : string) (subfiles : subfiles_t)
    (html_parts : list Email.part) : io rewriter :=
  for_each (show_html_part P tmpdir subfiles) html_parts rewriter_init.

(** ** [delayed_browser] and the parts that are not embedded *)

Definition delayed_browser (P : platform) (htmlfile : string) : io unit :=
  mysubprocess.call_bg P
    ([Prefs.BROWSER] ++ Prefs.BROWSER_ARGS ++ ["file://" +:+ htmlfile])%list.

(** "Try converting to PDF instead": the new value of [partfile]. *)
Definition convert_presentation (P : platform) (fileparts : string * string)
    (partfile subtype : string) : io string :=
  if String.eqb subtype "vnd.ms-powerpoint"
     || String.eqb subtype
          "vnd.openxmlformats-officedocument.presentationml.presentation"
  then
    let pdffile := fst fileparts +:+ ".pdf" in
    mysubprocess.call P ["unoconv"; "-f"; "pdf"; "-o"; pdffile; partfile] >>
    ret pdffile
  else ret partfile.

(** The last test of the branch. The name [pdf] in [partfile.endswith(pdf)]
    is bound nowhere in the script: evaluating it raises [NameError], which
    happens as soon as the subtype is not ["pdf"]. *)
Definition show_pdf (P : platform) (fileparts : string * string)
    (partfile subtype : string) : io unit :=
  let* is_pdf :=
    if String.eqb subtype "pdf" then ret true else raise NameError in
  if (is_pdf : bool) then
    if Prefs.CONVERT_PDF_TO_HTML then
      mysubprocess.call P ["pdftohtml"; "-s"; partfile] >>
      delayed_browser P (fst fileparts +:+ "-html.html")
    else delayed_browser P partfile
  else ret tt.

(** The branch [part.get_content_maintype() == "application"]. *)
Definition handle_application (P : platform) (partfile : string)
    (part : Email.part) : io unit :=
  let fileparts := PosixPath.splitext partfile in
  let subtype := Email.get_content_subtype part in
  let htmlfilename := fst fileparts +:+ ".html" in
  if String.eqb subtype "msword" && Prefs.USE_WVHTML_FOR_DOC then
    mysubprocess.call P ["wvHtml"; partfile; htmlfilename] >>
    delayed_browser P htmlfilename
  else if String.eqb subtype
            "vnd.openxmlformats-officedocument.wordprocessingml.document"
          || String.eqb subtype "msword"
          || String.eqb subtype "vnd.oasis.opendocument.text" then
    mysubprocess.call P ["unoconv"; "-f"; "html";
                         "-T"; Prefs.UNOCONV_STARTUP_TIME;
                         "-o"; htmlfilename; partfile] >>
    delayed_browser P htmlfilename
  else
    let* partfile' := convert_presentation P fileparts partfile subtype in
    show_pdf P fileparts partfile' subtype.

(** The body of the loop [for sfid in subfiles]. *)
Definition dispatch_part (P : platform) (embedded_parts : list string)
    (_ : unit) (entry : string * (string * Email.part)) : io unit :=
  let '(sfid, (partfile, part)) := entry in
  if bool_decide (sfid ∈ embedded_parts) then ret tt
  else if String.eqb (Email.get_content_maintype part) "application"
       then handle_application P partfile part
       else ret tt.

Definition dispatch_parts (P : platform) (embedded_parts : list string)
    (subfiles : subfiles_t) : io unit :=
  for_each (dispatch_part P embedded_parts) subfiles tt.

(** ** [view_html_message] *)

(** Everything after the message has been read. *)
Definition view_message (P : platform) (tmpdir : string) (msg : option Email.part)
  : io unit :=
  let* msg' :=
    match msg with
    | Some m => ret m
    | None => raise AttributeError
    end in
  let* ex := extract_parts P tmpdir msg' in
  let* rw := show_html_parts P tmpdir (subfiles ex) (html_parts ex) in
  dispatch_parts P (embedded_parts rw) (subfiles ex).

Definition view_html_message (P : platform) (f tmpdir : string) : io unit :=
  let* msg := load_message P f in
  view_message P tmpdir msg.

(** * Vocabulary for the properties *)

(** ** Reading a trace *)

(** The files opened for writing, in order. *)
Definition opened (t : list event) : list string :=
  omap (fun ev => match ev with Ev_open p => Some p | _ => None end) t.

(** What was written, and where. *)
Definition written (t : list event) : list (string * string) :=
  omap (fun ev => match ev with Ev_write p d => Some (p, d) | _ => None end) t.

(** The command lines started without waiting: the calls of the viewer. *)
Definition popens (t : list event) : list (list string) :=
  omap (fun ev => match ev with Ev_popen a => Some a | _ => None end) t.

(** The computation ends normally. *)
Definition completes {A} (m : io A) : bool :=
  match result m with Return _ => true | _ => false end.

(** The files of the working directory after the events of a trace. *)
Definition apply_event (disk : gmap string string) (ev : event)
  : gmap string string :=
  match ev with
  | Ev_open p => <[p := EmptyString]> disk
  | Ev_write p d => alter (fun old => old +:+ d) p disk
  | _ => disk
  end.

Definition disk_after (t : list event) : gmap string string :=
  foldl apply_event ∅ t.

(** The two events of saving [pd.2] to the file [pd.1]. *)
Definition save_events (pd : string * string) : list event :=
  [Ev_open pd.1; Ev_write pd.1 pd.2].

(** The command line of a call of the browser on [file]. *)
Definition browser_cmd (first : bool) (file : string) : list string :=
  ([Prefs.BROWSER]
   ++ (if first then Prefs.BROWSER_FIRST_ARGS else Prefs.BROWSER_ARGS)
   ++ ["file://" +:+ file])%list.

(** [argv] calls the browser with the argument set [args] on some file. *)
Definition uses_args (args : list string) (argv : list string) : Prop :=
  exists file, argv = ([Prefs.BROWSER] ++ args ++ ["file://" +:+ file])%list.

(** ** Reading a message *)

(** The parts that are not containers, in the order of the walk. *)
Definition leaves (msg : Email.part) : list Email.part :=
  List.filter (fun p => negb (Email.is_multipart p)) (Email.walk msg).

(** Their payloads. *)
Definition payloads (msg : Email.part) : list string :=
  omap Email.get_payload_decoded (Email.walk msg).

Definition is_html_leaf (p : Email.part) : bool :=
  negb (Email.is_multipart p) && String.eqb (Email.get_content_subtype p) "html".

(** What the parsers of the [email] package guarantee: a part whose main type
    is [message] has been parsed into a list holding the enclosed message, so
    it answers true to [is_multipart()]. *)
Definition well_parsed (msg : Email.part) : bool :=
  forallb (fun p => implb (String.eqb (Email.get_content_maintype p) "message")
                          (Email.is_multipart p))
          (Email.walk msg).

(** The first header line named Content-ID, whatever the case of its
    letters. *)
Definition content_id_header (part : Email.part) : option (string * string) :=
  List.find (fun kv => String.eqb (Py.lower (fst kv)) "content-id")
    (Email.headers (Email.info_of part)).

(** No file whose name does not start with a dot, at any depth. *)
Fixpoint all_hidden (e : dirent) : bool :=
  match e with
  | File n => Py.startswith n "."
  | Dir _ es => forallb all_hidden es
  end.

(** ** Reading a pattern *)






(** The entries of the index that the last loop acts on. *)
Definition to_handle (embedded : list string)
    (entry : string * (string * Email.part)) : bool :=
  negb (bool_decide (entry.1 ∈ embedded))
  && String.eqb (Email.get_content_maintype entry.2.2) "application".

(** * The specification's own words, for comparison with the script *)

(** The identifier of a part: the value of the content-identifier header,
    looked up without regard to case, one pair of surrounding angle brackets
    removed. *)
Definition normalized_identifier (part : Email.part) : option string :=
  match content_id_header part with
  | Some (_, v) => Some (strip_angle_brackets v)
  | None => None
  end.

(** The extension: guessed from the media type, [.bin] when none is known. *)
Definition policy_extension (P : platform) (part : Email.part) : string :=
  if Py.truthy (guess_extension P (Email.get_content_type part))
  then default EmptyString (guess_extension P (Email.get_content_type part))
  else ".bin".

(** The naming policy as the specification words it: the declared filename,
    sanitized; else "cid" + identifier + extension; else "part-" + zero-padded
    sequence number + extension. *)
Definition policy_filename_as_stated (declared identifier : option string)
    (extension : string) (sequence : nat) : string :=
  if Py.truthy declared then sanitize_filename (default EmptyString declared)
  else if Py.truthy identifier
       then "cid" +:+ default EmptyString identifier +:+ extension
       else "part-" +:+ Py.fmt_0d 3 sequence +:+ extension.

(** The same policy with its second rule amended: the name made from the
    identifier is sanitized as well. *)
Definition policy_filename (declared identifier : option string)
    (extension : string) (sequence : nat) : string :=
  if Py.truthy declared then sanitize_filename (default EmptyString declared)
  else if Py.truthy identifier
       then sanitize_filename
              ("cid" +:+ default EmptyString identifier +:+ extension)
       else "part-" +:+ Py.fmt_0d 3 sequence +:+ extension.

(** The sequence number that the third rule uses for a part met in the state
    [st]: the counter, moved by one when the part has a Content-ID header. *)
Definition policy_sequence (st : extractor) (part : Email.part) : nat :=
  match content_id_header part with
  | Some _ => S (counter st)
  | None => counter st
  end.

(** The naming rule as stated, for one part. *)
Definition stated_filename_policy (P : platform) (st : extractor)
    (part : Email.part) : Prop :=
  derive_filename P part (content_id_of part)
    (counter_after_id part (counter st))
  = policy_filename_as_stated (Email.get_filename part)
      (normalized_identifier part) (policy_extension P part)
      (policy_sequence st part).

(** The rewriting rule as stated: if an HTML part refers to an identifier of
    the index as [cid:ID], letters in any case and a space allowed after the
    colon, the HTML text written for that part holds [file://] followed by
    the path recorded for the identifier. *)
Definition stated_cid_rewrite (P : platform) (tmpdir : string)
    (msg : Email.part) : Prop :=
  forall t1 ex, extract_parts P tmpdir msg = (t1, Return ex) ->
  forall sf_cid path part i html_part data pre k sp id' post,
    (sf_cid, (path, part)) ∈ subfiles ex ->
    html_parts ex !! i = Some html_part ->
    Email.get_payload_decoded html_part = Some data ->
    bytes_decode P data = pre +:+ k +:+ sp +:+ id' +:+ post ->
    Py.lower k = "cid:" ->
    sp = "" \/ sp = " " ->
    Py.lower id' = Py.lower sf_cid ->
    exists text,
      Ev_write (htmlfile_name tmpdir i) (str_encode P text)
      ∈ trace (view_message P tmpdir (Some msg))
      /\ Py.contains text ("file://" +:+ path) = true.

(** The dispatch rule as stated, for the parts without identifier: such a
    part of main type [application] reaches the conversion and dispatch
    policy, so what the policy does for its file is part of the run. *)
Definition stated_dispatch_without_identifier (P : platform) (tmpdir : string)
    (msg : Email.part) : Prop :=
  forall part,
    part ∈ Email.walk msg ->
    Email.is_multipart part = false ->
    content_id_of part = None ->
    Email.get_content_maintype part = "application" ->
    exists partfile,
      forall ev, ev ∈ trace (handle_application P partfile part) ->
                 ev ∈ trace (view_message P tmpdir (Some msg)).

(** The loading rule as stated, for a maildir without visible file: no
    exception escapes, and nothing is extracted. *)
Definition stated_maildir_not_found (P : platform) (f tmpdir : string) : Prop :=
  (forall e, result (view_html_message P f tmpdir) <> Raise e)
  /\ trace (view_html_message P f tmpdir) = [].

(** The failure rule as stated: when saving one part fails, no exception
    escapes and the parts after it are still saved. *)
Definition stated_write_failure_is_local (P : platform) (tmpdir : string)
    (msg : Email.part) : Prop :=
  forall pre part post t st,
    Email.walk msg = (pre ++ part :: post)%list ->
    for_each (extract_part P tmpdir) pre extractor_init = (t, Return st) ->
    Email.is_multipart part = false ->
    open_wb_ok P (part_path P tmpdir st part) = false
    \/ write_ok P (part_path P tmpdir st part) = false ->
    (forall e, result (view_message P tmpdir (Some msg)) <> Raise e)
    /\ forall p, p ∈ post -> Email.is_multipart p = false ->
         exists st', Ev_open (part_path P tmpdir st' p)
                     ∈ trace (view_message P tmpdir (Some msg)).

(** The argument rule as stated: the first call of the viewer in a run has
    the first-call arguments, every later one the same-session arguments. *)
Definition stated_first_dispatch (P : platform) (tmpdir : string)
    (msg : Email.part) : Prop :=
  forall i argv,
    popens (trace (view_message P tmpdir (Some msg))) !! i = Some argv ->
    uses_args (if (i =? 0)%nat then Prefs.BROWSER_FIRST_ARGS
               else Prefs.BROWSER_ARGS) argv.

(** * Sample messages and platforms *)

Module Samples.

(** A few lines of the table of [mimetypes]. *)
Definition mime_types (type : string) : option string :=
  if String.eqb type "text/html" then Some ".html"
  else if String.eqb type "text/plain" then Some ".txt"
  else if String.eqb type "image/png" then Some ".png"
  else if String.eqb type "application/pdf" then Some ".pdf"
  else if String.eqb type "application/msword" then Some ".doc"
  else None.

(** A platform on which everything succeeds, the parsers answer [msg], the
    payloads are ASCII text, there is no directory, and [re] rejects what
    lies outside the fragment. *)
Definition quiet (msg : Email.part) : platform :=
  {| message_from_string := fun _ => msg;
     bytes_parser_parse := fun _ => msg;
     guess_extension := mime_types;
     bytes_decode := fun b => b;
     str_encode := fun s => s;
     text_decode := fun b => Some b;
     re_sub := fun _ _ _ => None;
     stdin_text := Some EmptyString;
     directory := fun _ => None;
     file_content := fun _ => Some EmptyString;
     open_wb_ok := fun _ => true;
     write_ok := fun _ => true;
     spawn_ok := fun _ => true |}.

(** The same, except that [bad] cannot be opened for writing. *)
Definition read_only (bad : string) (msg : Email.part) : platform :=
  {| message_from_string := fun _ => msg;
     bytes_parser_parse := fun _ => msg;
     guess_extension := mime_types;
     bytes_decode := fun b => b;
     str_encode := fun s => s;
     text_decode := fun b => Some b;
     re_sub := fun _ _ _ => None;
     stdin_text := Some EmptyString;
     directory := fun _ => None;
     file_content := fun _ => Some EmptyString;
     open_wb_ok := fun p => negb (String.eqb p bad);
     write_ok := fun _ => true;
     spawn_ok := fun _ => true |}.

(** A maildir as mutt leaves it, holding a hidden file only. *)
Definition hidden_maildir (msg : Email.part) : platform :=
  {| message_from_string := fun _ => msg;
     bytes_parser_parse := fun _ => msg;
     guess_extension := mime_types;
     bytes_decode := fun b => b;
     str_encode := fun s => s;
     text_decode := fun b => Some b;
     re_sub := fun _ _ _ => None;
     stdin_text := Some EmptyString;
     directory := fun p =>
       if String.eqb p "/tmp/mutttmpbox"
       then Some [Dir "cur" [File ".keep"]; Dir "new" []]
       else None;
     file_content := fun _ => Some EmptyString;
     open_wb_ok := fun _ => true;
     write_ok := fun _ => true;
     spawn_ok := fun _ => true |}.

Definition info (h : list (string * string)) (maintype subtype : string)
    (filename : option string) : Email.info :=
  {| Email.headers := h; Email.maintype := maintype;
     Email.subtype := subtype; Email.filename := filename |}.

Definition html_img10 : Email.part :=
  Email.Leaf (info [("Content-Type", "text/html")] "text" "html" None)
    "<img src='cid:img10'>".

Definition png1 : Email.part :=
  Email.Leaf (info [("Content-ID", "<img1>")] "image" "png" None) "PNG1".

Definition png10 : Email.part :=
  Email.Leaf (info [("content-id", "<img10>")] "image" "png" None) "PNG10".

(** The identifier [img1] enters the index before [img10]. *)
Definition msg_prefix : Email.part :=
  Email.Multipart (info [] "multipart" "related" None) [html_img10; png1; png10].

(** The identifier [img10] enters the index before [img1]. *)
Definition msg_embedded : Email.part :=
  Email.Multipart (info [] "multipart" "related" None) [html_img10; png10; png1].

(** A Word attachment without Content-ID. *)
Definition word_attachment : Email.part :=
  Email.Leaf (info [("Content-Type", "application/msword")]
                "application" "msword" (Some "report.doc")) "DOC".

(** A PDF attachment with a Content-ID, in a message without HTML. *)
Definition pdf_with_id : Email.part :=
  Email.Leaf (info [("Content-Id", "<doc@x>")] "application" "pdf"
                (Some "paper.pdf")) "PDF".

(** An archive and then a PDF, both with a Content-ID, in a message without
    HTML. *)
Definition msg_archive_pdf : Email.part :=
  Email.Multipart (info [] "multipart" "mixed" None)
    [Email.Leaf (info [("Content-ID", "<z@x>")] "application" "zip"
                   (Some "files.zip")) "ZIP";
     pdf_with_id].

(** A message that is a single HTML body. *)
Definition single_html : Email.part :=
  Email.Leaf (info [("Content-Type", "text/html")] "text" "html" None)
    "<p>hello</p>".

(** Two attachments that declare the same filename. *)
Definition two_images : Email.part :=
  Email.Multipart (info [] "multipart" "mixed" None)
    [Email.Leaf (info [] "image" "png" (Some "image.png")) "A";
     Email.Leaf (info [] "image" "png" (Some "image.png")) "B"].

(** A forwarded message: a [message/rfc822] part holding a text. *)
Definition forwarded : Email.part :=
  Email.Multipart (info [] "multipart" "mixed" None)
    [Email.Multipart (info [] "message" "rfc822" None)
       [Email.Leaf (info [] "text" "plain" None) "hi"]].

(** An image whose Content-ID holds a character that is not allowed in a
    filename. *)
Definition png_at : Email.part :=
  Email.Leaf (info [("Content-ID", "<a@b>")] "image" "png" None) "PNG".

(** A part whose declared filename holds no allowed character. *)
Definition odd_name : Email.part :=
  Email.Leaf (info [] "text" "plain" (Some "???")) "text".

(** Two text attachments. *)
Definition text_a : Email.part :=
  Email.Leaf (info [] "text" "plain" (Some "a.txt")) "A".

Definition text_b : Email.part :=
  Email.Leaf (info [] "text" "plain" (Some "b.txt")) "B".

Definition two_texts : Email.part :=
  Email.Multipart (info [] "multipart" "mixed" None) [text_a; text_b].

End Samples.

(** * The script run as a program *)

(** The platform once the file at [path] has been written with [data]: the
    path is a file that holds [data]; everything else is as before. *)
Definition with_file (P : platform) (path data : string) : platform :=
  {| message_from_string := message_from_string P;
     bytes_parser_parse := bytes_parser_parse P;
     guess_extension := guess_extension P;
     bytes_decode := bytes_decode P;
     str_encode := str_encode P;
     text_decode := text_decode P;
     re_sub := re_sub P;
     stdin_text := stdin_text P;
     directory := fun p => if String.eqb p path then None else directory P p;
     file_content :=
       fun p => if String.eqb p path then Some data else file_content P p;
     open_wb_ok := open_wb_ok P;
     write_ok := write_ok P;
     spawn_ok := spawn_ok P |}.

(** The platform once [sys.stdin.read()] has run: the standard input is at
    its end, a second read gives the empty string. *)
Definition stdin_consumed (P : platform) : platform :=
  {| message_from_string := message_from_string P;
     bytes_parser_parse := bytes_parser_parse P;
     guess_extension := guess_extension P;
     bytes_decode := bytes_decode P;
     str_encode := str_encode P;
     text_decode := text_decode P;
     re_sub := re_sub P;
     stdin_text := Some EmptyString;
     directory := directory P;
     file_content := file_content P;
     open_wb_ok := open_wb_ok P;
     write_ok := write_ok P;
     spawn_ok := spawn_ok P |}.

(** One turn of [for f in sys.argv[1:]: view_html_message(f, tmpdir)]. The
    platform is the loop's state: an empty [f] makes [view_html_message] read
    the standard input. The message files are taken as the platform gives
    them: they do not lie in the fresh [tmpdir] that the run writes to. *)
Definition view_argument (tmpdir : string) (P : platform) (f : string)
  : io platform :=
  view_html_message P f tmpdir >>
  ret (if String.eqb f EmptyString then stdin_consumed P else P).

(** The block under [if __name__ == '__main__']. [tmpdir] is what
    [tempfile.mkdtemp()] answered, [argv] is [sys.argv], and [text_encode] is
    the encoding of a file opened in text mode, which answers [None] for a
    text that it cannot encode. In the second branch the copy of the
    standard input is opened with [open(stdin, 'w')], which creates or
    empties the file as ['wb'] does; then the standard input is read, as
    text, and written to the copy, as text; then the copy is read back. *)
Definition main (P : platform) (text_encode : string -> option string)
    (tmpdir : string) (argv : list string) : io unit :=
  if (1 <? length argv)%nat then
    for_each (view_argument tmpdir) (skipn 1 argv) P >> ret tt
  else
    let stdin := tmpdir +:+ "/.stdin" in
    open_wb P stdin >>
    match stdin_text P with
    | None => raise UnicodeDecodeError
    | Some text =>
        match text_encode text with
        | None => raise UnicodeEncodeError
        | Some data =>
            fp_write P stdin data >>
            view_html_message (with_file (stdin_consumed P) stdin data)
              stdin tmpdir
        end
    end.

(** * More vocabulary *)

(** [subfiles[k]], when the key is there. *)
Definition dict_get (k : string) (d : subfiles_t) : option (string * Email.part) :=
  snd <$> List.find (fun kv => String.eqb (fst kv) k) d.

(** A name without path separator: a single component. *)
Definition single_component (name : string) : bool :=
  negb (Py.char_in PosixPath.sep name).

(** The subtypes that the script converts with [unoconv -f html]. *)
Definition is_word_subtype (subtype : string) : bool :=
  String.eqb subtype "vnd.openxmlformats-officedocument.wordprocessingml.document"
  || String.eqb subtype "msword"
  || String.eqb subtype "vnd.oasis.opendocument.text".

(** The subtypes that the script converts with [unoconv -f pdf]. *)
Definition is_presentation_subtype (subtype : string) : bool :=
  String.eqb subtype "vnd.ms-powerpoint"
  || String.eqb subtype
       "vnd.openxmlformats-officedocument.presentationml.presentation".

(** A part that the run can show: an HTML part, or a part of main type
    [application] that enters the index. *)
Definition can_be_shown (p : Email.part) : bool :=
  String.eqb (Email.get_content_subtype p) "html"
  || (String.eqb (Email.get_content_maintype p) "application"
      && Py.truthy (content_id_of p)).

(** The names that name no entry of the directory they are joined to: the
    empty name, the directory itself and its parent. *)
Definition names_no_entry (name : string) : bool :=
  String.eqb name "" || String.eqb name "." || String.eqb name "..".

(** The extension chosen for the part holds no path separator. *)
Definition extension_is_plain (P : platform) (p : Email.part) : bool :=
  single_component (extension_for P p).

(** The commands waited for, in order: the conversions. *)
Definition calls (t : list event) : list (list string) :=
  omap (fun ev => match ev with Ev_call a => Some a | _ => None end) t.

(** The full names of the files of a directory tree whose name does not start
    with a dot, the files of a directory before those of its
    subdirectories. *)
Definition visible_in (root : string) (es : list dirent) : list string :=
  map (PosixPath.join root)
      (List.filter (fun f => negb (Py.startswith f ".")) (Os.files_of es)).

Fixpoint visible_below (top : string) (e : dirent) : list string :=
  match e with
  | File _ => []
  | Dir name es =>
      (visible_in (PosixPath.join top name) es
       ++ flat_map (visible_below (PosixPath.join top name)) es)%list
  end.

Definition visible_files (P : platform) (top : string) : list string :=
  match directory P top with
  | Some es => (visible_in top es ++ flat_map (visible_below top) es)%list
  | None => []
  end.

(** * More sample messages and platforms *)

Module MoreSamples.

(** A part that declares the name of the parent directory. *)
Definition dotdot : Email.part :=
  Email.Leaf (Samples.info [] "text" "plain" (Some "..")) "text".

(** An image with an empty Content-ID. *)
Definition png_empty_id : Email.part :=
  Email.Leaf (Samples.info [("Content-ID", "<>")] "image" "png" None) "PNG".

(** An archive with a Content-ID. *)
Definition zip_with_id : Email.part :=
  Email.Leaf (Samples.info [("Content-ID", "<z@x>")] "application" "zip"
                (Some "files.zip")) "ZIP".

(** Slides with a Content-ID. *)
Definition slides_with_id : Email.part :=
  Email.Leaf (Samples.info [("Content-ID", "<s@x>")] "application"
                "vnd.ms-powerpoint" (Some "talk.ppt")) "PPT".

(** Two images under the same Content-ID. *)
Definition logo_old : Email.part :=
  Email.Leaf (Samples.info [("Content-ID", "<logo>")] "image" "png" None) "OLD".

Definition logo_new : Email.part :=
  Email.Leaf (Samples.info [("Content-ID", "<logo>")] "image" "png" None) "NEW".

(** An HTML body and an attachment that declares the name of the rewritten
    page. *)
Definition page_attachment : Email.part :=
  Email.Leaf (Samples.info [] "text" "plain" (Some "viewhtml00.html")) "mine".

Definition msg_page_clash : Email.part :=
  Email.Multipart (Samples.info [] "multipart" "mixed" None)
    [Samples.single_html; page_attachment].

(** A plain text with an image attached. *)
Definition text_and_image : Email.part :=
  Email.Multipart (Samples.info [] "multipart" "mixed" None)
    [Samples.text_a; Samples.png1].

(** An HTML body with a Word document and a PDF, both with a Content-ID. *)
Definition msg_documents : Email.part :=
  Email.Multipart (Samples.info [] "multipart" "mixed" None)
    [Samples.single_html;
     Email.Leaf (Samples.info [("Content-ID", "<w@x>")] "application" "msword"
                   (Some "report.doc")) "DOC";
     Samples.pdf_with_id].

(** A maildir with a file in a directory of dotted name, listed before the
    directory [cur]. *)
Definition dotted_maildir (msg : Email.part) : platform :=
  {| message_from_string := fun _ => msg;
     bytes_parser_parse := fun _ => msg;
     guess_extension := Samples.mime_types;
     bytes_decode := fun b => b;
     str_encode := fun s => s;
     text_decode := fun b => Some b;
     re_sub := fun _ _ _ => None;
     stdin_text := Some EmptyString;
     directory := fun p =>
       if String.eqb p "/tmp/mutttmpbox"
       then Some [Dir ".cache" [File "1"]; Dir "cur" [File "2"]]
       else None;
     file_content := fun _ => Some EmptyString;
     open_wb_ok := fun _ => true;
     write_ok := fun _ => true;
     spawn_ok := fun _ => true |}.

(** A platform whose standard input holds bytes that are no text. *)
Definition binary_stdin (msg : Email.part) : platform :=
  {| message_from_string := fun _ => msg;
     bytes_parser_parse := fun _ => msg;
     guess_extension := Samples.mime_types;
     bytes_decode := fun b => b;
     str_encode := fun s => s;
     text_decode := fun b => Some b;
     re_sub := fun _ _ _ => None;
     stdin_text := None;
     directory := fun _ => None;
     file_content := fun _ => Some EmptyString;
     open_wb_ok := fun _ => true;
     write_ok := fun _ => true;
     spawn_ok := fun _ => true |}.

(** A platform on which the viewer is not installed. *)
Definition no_viewer (msg : Email.part) : platform :=
  {| message_from_string := fun _ => msg;
     bytes_parser_parse := fun _ => msg;
     guess_extension := Samples.mime_types;
     bytes_decode := fun b => b;
     str_encode := fun s => s;
     text_decode := fun b => Some b;
     re_sub := fun _ _ _ => None;
     stdin_text := Some EmptyString;
     directory := fun _ => None;
     file_content := fun _ => Some EmptyString;
     open_wb_ok := fun _ => true;
     write_ok := fun _ => true;
     spawn_ok := fun program => negb (String.eqb program Prefs.BROWSER) |}.

End MoreSamples.

#[local] Arguments String.append !s1 s2 : simpl nomatch.

(** * Properties *)

(** ** Sanitized filenames *)

Lemma char_in_sanitize c s :
  Py.char_in c (sanitize_filename s) = true ->
  allowed_char c = true /\ Py.char_in c s = true.
Proof.
  induction s as [|x s IH]; simpl; [discriminate|].
  destruct (allowed_char x) eqn:Hx; simpl.
  - destruct (Ascii.eqb c x) eqn:E; simpl.
    + apply Ascii.eqb_eq in E. subst. auto.
    + intros H. destruct (IH H). split; auto.
  - intros H. destruct (IH H) as [? ->]. split; auto. apply orb_true_r.
Qed.

Lemma sanitize_allowed_id s :
  (forall c, Py.char_in c s = true -> allowed_char c = true) ->
  sanitize_filename s = s.
Proof.
  induction s as [|x s IH]; simpl; intros H; [reflexivity|].
  rewrite (H x) by (rewrite Ascii.eqb_refl; reflexivity).
  f_equal. apply IH. intros c Hc. apply H. rewrite Hc. apply orb_true_r.
Qed.

Lemma sanitize_filename_idempotent s :
  sanitize_filename (sanitize_filename s) = sanitize_filename s.
Proof.
  apply sanitize_allowed_id. intros c Hc. apply (char_in_sanitize c s Hc).
Qed.

Lemma startswith_char_in s p c :
  Py.startswith s p = true -> Py.char_in c p = true -> Py.char_in c s = true.
Proof.
  revert s. induction p as [|a p IH]; intros s; simpl; [discriminate|].
  destruct s as [|b s]; [discriminate|]. simpl.
  intros H Hc. apply andb_true_iff in H. destruct H as [Hab Hs].
  apply Ascii.eqb_eq in Hab. subst b.
  destruct (Ascii.eqb c a); simpl in *; [reflexivity|]. eauto.
Qed.

Lemma contains_char_in s p c :
  Py.contains s p = true -> Py.char_in c p = true -> Py.char_in c s = true.
Proof.
  induction s as [|x s IH]; simpl; intros H Hc.
  - rewrite orb_false_r in H. destruct p; [discriminate|discriminate].
  - apply orb_true_iff in H. destruct H as [H|H].
    + apply (startswith_char_in (String x s) p c H Hc).
    + rewrite (IH H Hc). apply orb_true_r.
Qed.

Lemma allowed_char_cases c :
  allowed_char c = true ->
  Py.isalpha c = true \/ Py.isdigit c = true
  \/ c = "-"%char \/ c = "_"%char \/ c = "."%char.
Proof.
  unfold allowed_char. intros H.
  destruct (Py.isalpha c); [auto|]. destruct (Py.isdigit c); [auto|].
  simpl in H. right; right.
  destruct (Ascii.eqb_spec c "-"); [auto|].
  destruct (Ascii.eqb_spec c "_"); [auto|].
  destruct (Ascii.eqb_spec c "."); [auto|]. discriminate.
Qed.

(** C8. For every input string, every character of the output of
    [sanitize_filename] is a letter, a digit, [-], [_] or [.]; the output
    therefore holds no path separator, hence neither [../] nor [/..]; its
    characters all come from the input; and sanitizing it again changes
    nothing. *)
Theorem sanitize_filename_safe badstr :
  (forall c, Py.char_in c (sanitize_filename badstr) = true ->
     Py.isalpha c = true \/ Py.isdigit c = true
     \/ c = "-"%char \/ c = "_"%char \/ c = "."%char)
  /\ Py.char_in "/" (sanitize_filename badstr) = false
  /\ Py.contains (sanitize_filename badstr) "../" = false
  /\ Py.contains (sanitize_filename badstr) "/.." = false
  /\ (forall c, Py.char_in c (sanitize_filename badstr) = true ->
        Py.char_in c badstr = true)
  /\ sanitize_filename (sanitize_filename badstr) = sanitize_filename badstr.
Proof.
  assert (Hsep : Py.char_in "/" (sanitize_filename badstr) = false).
  { destruct (Py.char_in "/" (sanitize_filename badstr)) eqn:E; [|reflexivity].
    apply char_in_sanitize in E. destruct E as [E _]. vm_compute in E. discriminate. }
  repeat split.
  - intros c Hc. apply allowed_char_cases. apply (char_in_sanitize c badstr Hc).
  - exact Hsep.
  - destruct (Py.contains _ "../") eqn:E; [|reflexivity].
    rewrite (contains_char_in _ "../" "/" E eq_refl) in Hsep. discriminate.
  - destruct (Py.contains _ "/..") eqn:E; [|reflexivity].
    rewrite (contains_char_in _ "/.." "/" E eq_refl) in Hsep. discriminate.
  - intros c Hc. apply (char_in_sanitize c badstr Hc).
  - apply sanitize_filename_idempotent.
Qed.

(** ** Strings, and the numbering of names in use *)

Lemma str_app_assoc (a b c : string) : (a +:+ b) +:+ c = a +:+ (b +:+ c).
Proof. induction a; simpl; congruence. Qed.

Lemma str_app_nil_r (a : string) : a +:+ "" = a.
Proof. induction a; simpl; congruence. Qed.

Lemma str_length_app (a b : string) :
  String.length (a +:+ b) = String.length a + String.length b.
Proof. induction a; simpl; congruence. Qed.

Lemma str_app_inv_head (a b c : string) : a +:+ b = a +:+ c -> b = c.
Proof. induction a; simpl; intros H; [exact H|]. injection H. auto. Qed.

Lemma str_app_inv_tail (a b c : string) : a +:+ c = b +:+ c -> a = b.
Proof.
  revert b. induction a as [|x a IH]; intros [|y b] H; simpl in *.
  - reflexivity.
  - apply (f_equal String.length) in H. simpl in H. rewrite str_length_app in H. lia.
  - apply (f_equal String.length) in H. simpl in H. rewrite str_length_app in H. lia.
  - injection H as -> H. f_equal. auto.
Qed.

Lemma fmt_d_inj (a b : nat) : Py.fmt_d a = Py.fmt_d b -> a = b.
Proof.
  unfold Py.fmt_d. intros H.
  apply (f_equal NilEmpty.uint_of_string) in H.
  rewrite !NilEmpty.usu in H. injection H as H.
  apply (f_equal Nat.of_uint) in H. rewrite !Unsigned.of_to in H. exact H.
Qed.

Lemma numbered_inj base ext (a b : nat) :
  numbered base a ext = numbered base b ext -> a = b.
Proof.
  unfold numbered. intros H.
  apply str_app_inv_head in H. apply str_app_inv_head in H.
  apply str_app_inv_tail in H. apply fmt_d_inj. exact H.
Qed.

(** Pigeon-hole: the first [m] numbered names cannot all be in use when the
    set has fewer than [m] elements. *)
Lemma numbered_in_use_bound (fs : gset string) base ext m :
  (forall k, 1 <= k <= m -> numbered base k ext ∈ fs) -> m <= size fs.
Proof.
  intros H.
  set (l := (fun k => numbered base k ext) <$> seq 1 m).
  assert (Hnd : NoDup l).
  { apply NoDup_fmap_2; [|apply NoDup_seq].
    intros a b. apply numbered_inj. }
  assert (Hsub : (list_to_set l : gset string) ⊆ fs).
  { intros x Hx. apply elem_of_list_to_set in Hx.
    apply list_elem_of_fmap in Hx. destruct Hx as (k & -> & Hk).
    apply elem_of_seq in Hk. apply H. lia. }
  apply subseteq_size in Hsub. rewrite size_list_to_set in Hsub by exact Hnd.
  unfold l in Hsub. rewrite length_fmap, length_seq in Hsub. exact Hsub.
Qed.

Lemma uniquify_loop_spec fuel (fs : gset string) base ext c :
  1 <= c ->
  (forall k, 1 <= k < c -> numbered base k ext ∈ fs) ->
  size fs + 2 <= fuel + c ->
  exists n, c <= n
    /\ uniquify_loop fuel fs base ext c (numbered base c ext)
       = (n, numbered base n ext)
    /\ (numbered base n ext ∉ fs)
    /\ (forall k, 1 <= k < n -> numbered base k ext ∈ fs).
Proof.
  revert c. induction fuel as [|fuel IH]; intros c Hc Hused Hfuel.
  - exfalso.
    assert (c - 1 <= size fs).
    { apply (numbered_in_use_bound fs base ext). intros k Hk. apply Hused. lia. }
    lia.
  - simpl. case_bool_decide as Hin.
    + destruct (IH (S c)) as (n & Hn & Heq & Hfresh & Hall); [lia| |lia|].
      { intros k Hk. destruct (decide (k = c)) as [->|]; [exact Hin|apply Hused; lia]. }
      exists n. split; [lia|]. auto.
    + exists c. auto.
Qed.

(** The loop of [uniquify] always leaves through its condition: the name it
    returns is not in use. *)
Lemma uniquify_fresh (fs : gset string) counter filename :
  snd (uniquify fs counter filename) ∉ fs.
Proof.
  unfold uniquify. case_bool_decide as Hin; [|exact Hin].
  destruct (PosixPath.splitext filename) as [base ext].
  replace (size fs + 2) with (S (size fs + 1)) by lia. simpl.
  rewrite bool_decide_true by exact Hin.
  destruct (uniquify_loop_spec (size fs + 1) fs base ext 1) as (n & _ & -> & Hn & _);
    [lia | intros; lia | lia | exact Hn].
Qed.

Lemma uniquify_spec (fs : gset string) counter filename :
  ((filename ∉ fs) /\ uniquify fs counter filename = (counter, filename))
  \/ (filename ∈ fs /\
      exists n, 1 <= n
        /\ uniquify fs counter filename
           = (n, numbered (fst (PosixPath.splitext filename)) n
                   (snd (PosixPath.splitext filename)))
        /\ (forall k, 1 <= k < n ->
              numbered (fst (PosixPath.splitext filename)) k
                (snd (PosixPath.splitext filename)) ∈ fs)).
Proof.
  unfold uniquify. case_bool_decide as Hin; [right|left; auto].
  split; [exact Hin|].
  destruct (PosixPath.splitext filename) as [base ext]. simpl.
  replace (size fs + 2) with (S (size fs + 1)) by lia. simpl.
  rewrite bool_decide_true by exact Hin.
  destruct (uniquify_loop_spec (size fs + 1) fs base ext 1) as (n & Hn & -> & _ & Hall);
    [lia | intros; lia | lia |].
  exists n. auto.
Qed.

(** ** The monad of effects *)

Lemma bind_Return_inv {A B} (m : io A) (k : A -> io B) t b :
  bind m k = (t, Return b) ->
  exists t1 a t2, m = (t1, Return a) /\ k a = (t2, Return b) /\ t = (t1 ++ t2)%list.
Proof.
  destruct m as [t1 [a|e]]; simpl; [|discriminate..].
  destruct (k a) as [t2 o] eqn:Hk. intros [= <- ->]. eauto 6.
Qed.

Lemma bind_ret_l {A B} (a : A) (k : A -> io B) : bind (ret a) k = k a.
Proof. unfold bind, ret. destruct (k a). reflexivity. Qed.

Lemma bind_assoc {A B C} (m : io A) (k : A -> io B) (h : B -> io C) :
  bind (bind m k) h = bind m (fun a => bind (k a) h).
Proof.
  destruct m as [t1 [a|e]]; simpl; [|reflexivity..].
  destruct (k a) as [t2 [b|e]]; simpl; [|reflexivity..].
  destruct (h b) as [t3 o]. rewrite app_assoc. reflexivity.
Qed.

Lemma for_each_app {A S} (body : S -> A -> io S) l1 l2 s :
  for_each body (l1 ++ l2)%list s
  = bind (for_each body l1 s) (for_each body l2).
Proof.
  revert s. induction l1 as [|x l1 IH]; intros s.
  - symmetry. apply bind_ret_l.
  - simpl. destruct (body s x) as [t1 [s1|e]]; simpl; try reflexivity.
    rewrite IH. destruct (for_each body l1 s1) as [t2 [s2|e]]; simpl; try reflexivity.
    destruct (for_each body l2 s2) as [t3 o]. rewrite app_assoc. reflexivity.
Qed.

Lemma for_each_cons_inv {A S} (body : S -> A -> io S) x l s t s2 :
  for_each body (x :: l) s = (t, Return s2) ->
  exists t1 s1 t2, body s x = (t1, Return s1)
    /\ for_each body l s1 = (t2, Return s2) /\ t = (t1 ++ t2)%list.
Proof. simpl. apply bind_Return_inv. Qed.

(** ** Names and paths *)

Lemma join_relative tmpdir name :
  Py.startswith name "/" = false ->
  PosixPath.join tmpdir name
  = (if String.eqb tmpdir "" || Py.endswith tmpdir "/" then tmpdir
     else tmpdir +:+ "/") +:+ name.
Proof.
  intros H. unfold PosixPath.join, PosixPath.sep. rewrite H.
  destruct (_ || _); [reflexivity|]. rewrite str_app_assoc. reflexivity.
Qed.

Lemma join_inj tmpdir a b :
  Py.startswith a "/" = false -> Py.startswith b "/" = false ->
  PosixPath.join tmpdir a = PosixPath.join tmpdir b -> a = b.
Proof.
  intros Ha Hb. rewrite !join_relative by assumption. apply str_app_inv_head.
Qed.

Lemma sanitize_not_absolute s : Py.startswith (sanitize_filename s) "/" = false.
Proof.
  destruct (sanitize_filename s) as [|c r] eqn:E; [reflexivity|].
  cbn [Py.startswith]. destruct (Ascii.eqb_spec "/"%char c) as [<-|]; [|reflexivity].
  assert (H : Py.char_in "/" (sanitize_filename s) = true)
    by (rewrite E; reflexivity).
  apply char_in_sanitize in H. destruct H as [H _]. vm_compute in H. discriminate.
Qed.

Lemma derive_filename_not_absolute P part cid counter :
  Py.startswith (derive_filename P part cid counter) "/" = false.
Proof.
  unfold derive_filename.
  destruct (Email.get_filename part) as [[|c fn]|];
    try apply sanitize_not_absolute;
    destruct cid as [[|c' cid]|]; try apply sanitize_not_absolute; reflexivity.
Qed.

Lemma startswith_nil s : Py.startswith s "" = true.
Proof. destruct s; reflexivity. Qed.

Lemma startswith_take_app s k rest :
  Py.startswith s "/" = false ->
  Py.startswith (Py.take k s +:+ "-" +:+ rest) "/" = false.
Proof.
  destruct k, s; try reflexivity.
  cbn [Py.take String.append Py.startswith]. rewrite !startswith_nil. auto.
Qed.

Lemma splitext_fst p :
  exists k, fst (PosixPath.splitext p) = Py.take k p.
Proof.
  unfold PosixPath.splitext.
  assert (Hall : Py.take (String.length p) p = p).
  { induction p; simpl; congruence. }
  destruct (Py.rfind PosixPath.extsep p) as [d|]; [|eauto].
  destruct (_ && _); simpl; eauto.
Qed.

Lemma uniquify_not_absolute (fs : gset string) counter filename :
  Py.startswith filename "/" = false ->
  Py.startswith (snd (uniquify fs counter filename)) "/" = false.
Proof.
  intros H.
  destruct (uniquify_spec fs counter filename) as [[_ ->]|(_ & n & _ & -> & _)];
    [exact H|].
  simpl. destruct (splitext_fst filename) as [k ->].
  unfold numbered. apply startswith_take_app. exact H.
Qed.

Lemma assign_filename_fresh P st part :
  snd (assign_filename P st part) ∉ filenames st.
Proof. apply uniquify_fresh. Qed.

Lemma assign_filename_not_absolute P st part :
  Py.startswith (snd (assign_filename P st part)) "/" = false.
Proof. apply uniquify_not_absolute, derive_filename_not_absolute. Qed.

(** ** The extraction loop *)

Lemma extract_part_container P tmpdir st part :
  Email.is_multipart part = true -> extract_part P tmpdir st part = ret st.
Proof. unfold extract_part. intros ->. reflexivity. Qed.

Lemma extract_part_leaf P tmpdir st i data :
  extract_part P tmpdir st (Email.Leaf i data)
  = (open_wb P (part_path P tmpdir st (Email.Leaf i data)) >>
     fp_write P (part_path P tmpdir st (Email.Leaf i data)) data >>
     ret (extractor_after P tmpdir st (Email.Leaf i data))).
Proof. reflexivity. Qed.

Lemma extract_part_leaf_Return P tmpdir st i data t st' :
  extract_part P tmpdir st (Email.Leaf i data) = (t, Return st') ->
  t = [Ev_open (part_path P tmpdir st (Email.Leaf i data));
       Ev_write (part_path P tmpdir st (Email.Leaf i data)) data]
  /\ st' = extractor_after P tmpdir st (Email.Leaf i data).
Proof.
  rewrite extract_part_leaf. unfold open_wb, fp_write.
  destruct (open_wb_ok P _); [|discriminate].
  destruct (write_ok P _); [|discriminate].
  cbn. intros [= <- <-]. auto.
Qed.

Lemma filenames_after P tmpdir st part :
  filenames (extractor_after P tmpdir st part)
  = filenames st ∪ {[ snd (assign_filename P st part) ]}.
Proof.
  unfold extractor_after. destruct (assign_filename P st part). reflexivity.
Qed.

Lemma opened_saved p d t :
  opened ([Ev_open p; Ev_write p d] ++ t)%list = p :: opened t.
Proof. reflexivity. Qed.

Lemma written_saved p d t :
  written ([Ev_open p; Ev_write p d] ++ t)%list = (p, d) :: written t.
Proof. reflexivity. Qed.

Lemma extract_run_inv P tmpdir parts : forall st t st',
  for_each (extract_part P tmpdir) parts st = (t, Return st') ->
  (forall n, n ∈ filenames st -> Py.startswith n "/" = false) ->
  (forall n, n ∈ filenames st' -> Py.startswith n "/" = false)
  /\ filenames st ⊆ filenames st'
  /\ NoDup (opened t)
  /\ (forall p, p ∈ opened t ->
        exists n, p = PosixPath.join tmpdir n
                  /\ n ∈ filenames st' /\ (n ∉ filenames st))
  /\ written t = zip (opened t) (omap Email.get_payload_decoded parts)
  /\ length (opened t) = length (omap Email.get_payload_decoded parts).
Proof.
  induction parts as [|part parts IH]; intros st t st' Hrun Hst.
  - cbn in Hrun. injection Hrun as <- <-.
    repeat split; auto; try constructor. intros p Hp. inversion Hp.
  - apply for_each_cons_inv in Hrun.
    destruct Hrun as (t1 & st1 & t2 & Hstep & Hrest & ->).
    destruct part as [i data|i ps].
    + apply extract_part_leaf_Return in Hstep. destruct Hstep as [-> ->].
      set (part := Email.Leaf i data) in *.
      pose proof (assign_filename_fresh P st part) as Hfresh.
      pose proof (assign_filename_not_absolute P st part) as Hrel.
      specialize (IH _ _ _ Hrest).
      rewrite filenames_after in IH.
      destruct IH as (Hst' & Hsub & Hnd & Hpaths & Hwr & Hlen).
      { intros n Hn. apply elem_of_union in Hn. destruct Hn as [Hn|Hn]; [auto|].
        apply elem_of_singleton in Hn. subst n. exact Hrel. }
      rewrite opened_saved, written_saved.
      repeat split.
      * exact Hst'.
      * set_solver.
      * constructor; [|exact Hnd].
        intros Hin. destruct (Hpaths _ Hin) as (n & Hp & Hn' & Hn).
        unfold part_path in Hp. apply join_inj in Hp; [|exact Hrel|auto].
        set_solver.
      * intros p Hp. apply elem_of_cons in Hp. destruct Hp as [->|Hp].
        -- exists (snd (assign_filename P st part)). split; [reflexivity|].
           split; [set_solver|exact Hfresh].
        -- destruct (Hpaths _ Hp) as (n & -> & Hn' & Hn).
           exists n. split; [reflexivity|]. split; [exact Hn'|set_solver].
      * rewrite Hwr. reflexivity.
      * cbn. rewrite Hlen. reflexivity.
    + rewrite extract_part_container in Hstep by reflexivity.
      injection Hstep as <- <-. cbn. apply IH; assumption.
Qed.

Lemma extract_run_saves P tmpdir parts : forall st t st',
  for_each (extract_part P tmpdir) parts st = (t, Return st') ->
  t = flat_map save_events (written t).
Proof.
  induction parts as [|part parts IH]; intros st t st' Hrun.
  - cbn in Hrun. injection Hrun as <- <-. reflexivity.
  - apply for_each_cons_inv in Hrun.
    destruct Hrun as (t1 & st1 & t2 & Hstep & Hrest & ->).
    destruct part as [i data|i ps].
    + apply extract_part_leaf_Return in Hstep. destruct Hstep as [-> ->].
      rewrite written_saved. cbn [flat_map save_events fst snd].
      rewrite <- (IH _ _ _ Hrest). reflexivity.
    + rewrite extract_part_container in Hstep by reflexivity.
      injection Hstep as <- <-. apply (IH _ _ _ Hrest).
Qed.

Lemma foldl_saves_other (l : list (string * string)) : forall disk p,
  p ∉ l.*1 ->
  foldl apply_event disk (flat_map save_events l) !! p = disk !! p.
Proof.
  induction l as [|[q d] l IH]; intros disk p Hp; [reflexivity|].
  cbn [flat_map save_events fst snd app foldl apply_event].
  rewrite fmap_cons in Hp. apply not_elem_of_cons in Hp. destruct Hp as [Hne Hp].
  assert (Hqp : q ≠ p) by (intros ->; apply Hne; reflexivity).
  rewrite IH by exact Hp.
  rewrite lookup_alter_ne by exact Hqp. rewrite lookup_insert_ne by exact Hqp.
  reflexivity.
Qed.

Lemma foldl_saves_lookup (l : list (string * string)) : forall disk p d,
  NoDup l.*1 -> (p, d) ∈ l ->
  foldl apply_event disk (flat_map save_events l) !! p = Some d.
Proof.
  induction l as [|[q e] l IH]; intros disk p d Hnd Hin; [inversion Hin|].
  rewrite fmap_cons in Hnd. apply NoDup_cons in Hnd. destruct Hnd as [Hq Hnd].
  cbn [flat_map save_events fst snd app foldl apply_event].
  apply elem_of_cons in Hin. destruct Hin as [[= -> ->]|Hin].
  - rewrite foldl_saves_other by exact Hq.
    rewrite lookup_alter_eq, lookup_insert_eq. reflexivity.
  - apply IH; assumption.
Qed.

Lemma completes_inv {A} (m : io A) :
  completes m = true -> exists a, m = (trace m, Return a).
Proof.
  destruct m as [t [a|e]]; cbn; intros H; try discriminate. eauto.
Qed.


(** C7. The names given to the parts of a run never collide: a derived name
    that is in use is replaced by the first unused name among base-1.ext,
    base-2.ext, ... (base and ext as [os.path.splitext] gives them), and the
    loop always ends on an unused name. So, in a run whose extraction
    completes, the files opened are pairwise distinct, one per leaf part, and
    once extraction is over each of them holds the payload of its own part:
    none has overwritten another. *)
Theorem colliding_filenames_get_distinct_files P tmpdir msg :
  completes (extract_parts P tmpdir msg) = true ->
  let t := trace (extract_parts P tmpdir msg) in
  (forall st part,
     let name0 := derive_filename P part (content_id_of part)
                    (counter_after_id part (counter st)) in
     let name := snd (assign_filename P st part) in
     let base := fst (PosixPath.splitext name0) in
     let ext := snd (PosixPath.splitext name0) in
     (name ∉ filenames st)
     /\ (((name0 ∉ filenames st) /\ name = name0)
         \/ (name0 ∈ filenames st /\
             exists n, 1 <= n /\ name = numbered base n ext
               /\ forall k, 1 <= k < n -> numbered base k ext ∈ filenames st)))
  /\ NoDup (opened t)
  /\ written t = zip (opened t) (payloads msg)
  /\ length (opened t) = length (payloads msg)
  /\ forall p d, (p, d) ∈ written t -> disk_after t !! p = Some d.
Proof.
  intros Hc t. apply completes_inv in Hc. destruct Hc as [ex Hrun]. fold t in Hrun.
  split.
  { intros st part name0 name base ext. split; [apply assign_filename_fresh|].
    subst name. unfold assign_filename. fold name0.
    destruct (uniquify_spec (filenames st) (counter_after_id part (counter st)) name0)
      as [[Hn ->]|(Hin & n & Hn & -> & Hall)]; [left; auto|right].
    split; [exact Hin|]. exists n. auto. }
  pose proof (extract_run_inv P tmpdir _ _ _ _ Hrun) as Hinv.
  destruct Hinv as (_ & _ & Hnd & _ & Hwr & Hlen); [set_solver|].
  pose proof (extract_run_saves P tmpdir _ _ _ _ Hrun) as Hsaves.
  fold (payloads msg) in Hwr, Hlen.
  assert (Hfst : (written t).*1 = opened t).
  { rewrite Hwr. apply fst_zip. lia. }
  repeat split; auto.
  intros p d Hin. unfold disk_after. rewrite Hsaves.
  apply foldl_saves_lookup; [rewrite Hfst; exact Hnd|exact Hin].
Qed.

(** An instance. *)
Lemma colliding_filenames_witness :
  NoDup (opened (trace (extract_parts (Samples.quiet Samples.two_images) "/tmp/w"
                          Samples.two_images)))
  /\ written (trace (extract_parts (Samples.quiet Samples.two_images) "/tmp/w"
                       Samples.two_images))
     = [("/tmp/w/image.png", "A"); ("/tmp/w/image-1.png", "B")].
Proof.
  split.
  - apply (colliding_filenames_get_distinct_files (Samples.quiet Samples.two_images)
             "/tmp/w" Samples.two_images).
    vm_compute. reflexivity.
  - vm_compute. reflexivity.
Defined.

(** ** The name derived for a part *)

Lemma find_map_fst {A B} (f : A -> bool) (l : list (A * B)) :
  List.find f (map fst l) = fst <$> List.find (fun kv => f (fst kv)) l.
Proof.
  induction l as [|[a b] l IH]; [reflexivity|]. cbn.
  destruct (f a); [reflexivity|exact IH].
Qed.

Lemma content_id_key_header part :
  content_id_key part = fst <$> content_id_header part.
Proof.
  unfold content_id_key, Email.keys, content_id_header.
  rewrite find_map_fst. reflexivity.
Qed.

(** [part[k]] for the key [k] that the loop over [part.keys()] stops at is
    the value of that very header line. *)
Lemma getitem_content_id_key part k :
  content_id_key part = Some k ->
  Email.getitem part k = snd <$> content_id_header part.
Proof.
  intros Hk. unfold Email.getitem, content_id_header.
  assert (Hlow : Py.lower k = "content-id").
  { unfold content_id_key in Hk. apply find_some in Hk. destruct Hk as [_ Hk].
    apply String.eqb_eq in Hk. exact Hk. }
  rewrite Hlow. reflexivity.
Qed.

Lemma content_id_of_header part :
  content_id_of part = (fun kv => strip_angle_brackets (snd kv)) <$> content_id_header part.
Proof.
  unfold content_id_of. destruct (content_id_key part) as [k|] eqn:Hk.
  - rewrite (getitem_content_id_key _ _ Hk).
    destruct (content_id_header part); reflexivity.
  - rewrite content_id_key_header in Hk.
    destruct (content_id_header part); [discriminate|reflexivity].
Qed.

Lemma counter_after_id_header part n :
  counter_after_id part n
  = match content_id_header part with Some _ => S n | None => n end.
Proof.
  unfold counter_after_id. rewrite content_id_key_header.
  destruct (content_id_header part); reflexivity.
Qed.





(** C6, amended. The name derived for a leaf part follows the priority order:
    (a) the declared filename, sanitized, when it is not empty; otherwise
    (b) "cid" + identifier + extension, sanitized as well, when the identifier
    is not empty; otherwise (c) "part-" + the counter padded with zeros to
    three digits + extension; the extension is the guess of [mimetypes], and
    [.bin] when there is none. When that name is not in use, the part is
    saved under it in the working directory. *)
Theorem derived_filename_follows_policy P tmpdir st part :
  Email.is_multipart part = false ->
  let name := policy_filename (Email.get_filename part) (normalized_identifier part)
                (policy_extension P part) (policy_sequence st part) in
  derive_filename P part (content_id_of part) (counter_after_id part (counter st)) = name
  /\ ((name ∉ filenames st) ->
      part_path P tmpdir st part = PosixPath.join tmpdir name
      /\ exists data,
           Email.get_payload_decoded part = Some data
           /\ extract_part P tmpdir st part
              = (open_wb P (PosixPath.join tmpdir name) >>
                 fp_write P (PosixPath.join tmpdir name) data >>
                 ret (extractor_after P tmpdir st part))).
Proof.
  intros Hleaf name.
  assert (Hname : derive_filename P part (content_id_of part)
                    (counter_after_id part (counter st)) = name).
  { subst name. unfold policy_sequence. rewrite counter_after_id_header, content_id_of_header.
    unfold derive_filename, policy_filename, normalized_identifier,
      policy_extension, extension_for.
    destruct (Email.get_filename part) as [[|c fn]|]; cbn [Py.truthy default];
      try reflexivity;
      destruct (content_id_header part) as [[k v]|]; cbn [fmap option_fmap option_map snd Py.truthy default];
      try (destruct (strip_angle_brackets v) as [|c' cid]; cbn [Py.truthy default]);
      destruct (guess_extension P (Email.get_content_type part)) as [[|e1 e]|];
      reflexivity. }
  split; [exact Hname|]. intros Hfree.
  assert (Hpath : part_path P tmpdir st part = PosixPath.join tmpdir name).
  { unfold part_path, assign_filename. rewrite Hname. unfold uniquify.
    rewrite bool_decide_false by exact Hfree. reflexivity. }
  split; [exact Hpath|].
  destruct part as [i data|i ps]; [|discriminate].
  exists data. split; [reflexivity|]. rewrite extract_part_leaf, Hpath. reflexivity.
Qed.

(** An instance. *)
Lemma derived_filename_witness :
  derive_filename (Samples.quiet Samples.png1) Samples.png1
    (content_id_of Samples.png1) (counter_after_id Samples.png1 1)
  = "cidimg1.png".
Proof.
  apply (derived_filename_follows_policy (Samples.quiet Samples.png1) "/tmp/w"
           extractor_init Samples.png1).
  reflexivity.
Defined.

(** The rule as stated fails for a Content-ID that holds [@]: the name is
    [cidab.png], not [cida@b.png]. *)
Lemma stated_filename_policy_fails :
  derive_filename (Samples.quiet Samples.png_at) Samples.png_at
    (content_id_of Samples.png_at) (counter_after_id Samples.png_at 1)
  = "cidab.png"
  /\ policy_filename_as_stated (Email.get_filename Samples.png_at)
       (normalized_identifier Samples.png_at)
       (policy_extension (Samples.quiet Samples.png_at) Samples.png_at)
       (policy_sequence extractor_init Samples.png_at)
     = "cida@b.png"
  /\ ~ stated_filename_policy (Samples.quiet Samples.png_at) extractor_init
        Samples.png_at.
Proof.
  split; [reflexivity|]. split; [reflexivity|].
  unfold stated_filename_policy. vm_compute. discriminate.
Qed.

Lemma part_path_unused P tmpdir st part :
  derive_filename P part (content_id_of part) (counter_after_id part (counter st))
    ∉ filenames st ->
  part_path P tmpdir st part
  = PosixPath.join tmpdir
      (derive_filename P part (content_id_of part)
         (counter_after_id part (counter st))).
Proof.
  intros Hfree. unfold part_path, assign_filename, uniquify.
  rewrite bool_decide_false by exact Hfree. reflexivity.
Qed.

Lemma sanitize_none_allowed s :
  (forall c, Py.char_in c s = true -> allowed_char c = false) ->
  sanitize_filename s = "".
Proof.
  induction s as [|x s IH]; intros H; [reflexivity|]. cbn.
  rewrite (H x) by (cbn; rewrite Ascii.eqb_refl; reflexivity).
  apply IH. intros c Hc. apply H. cbn. rewrite Hc. apply orb_true_r.
Qed.

Lemma join_empty tmpdir :
  PosixPath.join tmpdir "" = tmpdir \/ PosixPath.join tmpdir "" = tmpdir +:+ "/".
Proof.
  unfold PosixPath.join. cbn [Py.startswith].
  destruct (_ || _); [left; apply str_app_nil_r|right].
  rewrite str_app_nil_r. reflexivity.
Qed.

(** C10. A declared filename that is not empty but holds no allowed character
    is sanitized to the empty string; no fallback name is derived; and when
    the empty name is not in use yet, the part is saved to
    [os.path.join(tmpdir, "")], which is the working directory itself, with
    a separator at its end. *)
Theorem unsanitizable_filename_targets_workdir P tmpdir st i data fn :
  Email.filename i = Some fn ->
  fn <> "" ->
  (forall c, Py.char_in c fn = true -> allowed_char c = false) ->
  "" ∉ filenames st ->
  sanitize_filename fn = ""
  /\ (forall content_id counter,
        derive_filename P (Email.Leaf i data) content_id counter = "")
  /\ part_path P tmpdir st (Email.Leaf i data) = PosixPath.join tmpdir ""
  /\ (PosixPath.join tmpdir "" = tmpdir
      \/ PosixPath.join tmpdir "" = tmpdir +:+ "/")
  /\ extract_part P tmpdir st (Email.Leaf i data)
     = (open_wb P (PosixPath.join tmpdir "") >>
        fp_write P (PosixPath.join tmpdir "") data >>
        ret (extractor_after P tmpdir st (Email.Leaf i data))).
Proof.
  intros Hfn Hne Hbad Hfree.
  assert (Hsan : sanitize_filename fn = "") by (apply sanitize_none_allowed, Hbad).
  assert (Hder : forall content_id counter,
             derive_filename P (Email.Leaf i data) content_id counter = "").
  { intros cid n. unfold derive_filename, Email.get_filename. cbn [Email.info_of].
    rewrite Hfn. destruct fn as [|c fn]; [congruence|exact Hsan]. }
  assert (Hpath : part_path P tmpdir st (Email.Leaf i data) = PosixPath.join tmpdir "").
  { rewrite part_path_unused; rewrite Hder; [reflexivity|exact Hfree]. }
  split; [exact Hsan|]. split; [exact Hder|]. split; [exact Hpath|].
  split; [apply join_empty|].
  rewrite extract_part_leaf, Hpath. reflexivity.
Qed.

(** An instance. *)
Lemma unsanitizable_filename_witness :
  part_path (Samples.quiet Samples.odd_name) "/tmp/w" extractor_init
    Samples.odd_name = "/tmp/w/".
Proof.
  apply (unsanitizable_filename_targets_workdir (Samples.quiet Samples.odd_name)
           "/tmp/w" extractor_init
           (Samples.info [] "text" "plain" (Some "???")) "text" "???").
  - reflexivity.
  - discriminate.
  - intros c Hc. cbn in Hc. rewrite !orb_false_r, !orb_diag in Hc.
    apply Ascii.eqb_eq in Hc. subst c. reflexivity.
  - apply not_elem_of_empty.
Defined.

(** ** Containers *)


Lemma content_type_rfc822 part :
  Email.get_content_type part = "message/rfc822" ->
  Email.get_content_maintype part = "message".
Proof.
  unfold Email.get_content_type. generalize (Email.get_content_maintype part) as m.
  generalize (Email.get_content_subtype part) as s. intros s m H.
  do 7 (destruct m as [|? m]; [cbn in H; discriminate H|
        cbn in H; injection H as -> H]).
  destruct m as [|? m]; [reflexivity|]. cbn in H. injection H as -> H.
  exfalso. clear -H. 
  repeat (destruct m as [|? m]; [cbn in H; discriminate H|
        cbn in H; injection H as -> H]).
  destruct m; cbn in H; discriminate H.
Qed.

Lemma extract_events_from_leaves P tmpdir parts : forall st ev,
  ev ∈ trace (for_each (extract_part P tmpdir) parts st) ->
  exists part st0,
    part ∈ parts /\ Email.is_multipart part = false
    /\ (ev = Ev_open (part_path P tmpdir st0 part)
        \/ exists data, Email.get_payload_decoded part = Some data
                        /\ ev = Ev_write (part_path P tmpdir st0 part) data).
Proof.
  induction parts as [|part parts IH]; intros st ev Hev.
  - cbn in Hev. inversion Hev.
  - cbn [for_each] in Hev. destruct part as [i data|i ps].
    + rewrite extract_part_leaf in Hev.
      set (part := Email.Leaf i data) in *.
      assert (Hhere : forall e, e = Ev_open (part_path P tmpdir st part)
                 \/ e = Ev_write (part_path P tmpdir st part) data ->
                 exists part0 st0, part0 ∈ part :: parts
                   /\ Email.is_multipart part0 = false
                   /\ (e = Ev_open (part_path P tmpdir st0 part0)
                       \/ exists d, Email.get_payload_decoded part0 = Some d
                            /\ e = Ev_write (part_path P tmpdir st0 part0) d)).
      { intros e [ -> | -> ]; exists part, st; (split; [left|split; [reflexivity|]]); eauto. }
      unfold open_wb, fp_write in Hev.
      destruct (open_wb_ok P _); [|cbn in Hev; inversion Hev].
      destruct (write_ok P _).
      * cbn in Hev.
        destruct (for_each (extract_part P tmpdir) parts
                    (extractor_after P tmpdir st part)) as [t2 o] eqn:Hrest.
        cbn in Hev.
        apply elem_of_cons in Hev. destruct Hev as [->|Hev]; [apply Hhere; auto|].
        apply elem_of_cons in Hev. destruct Hev as [->|Hev]; [apply Hhere; auto|].
        destruct (IH (extractor_after P tmpdir st part) ev) as (p0 & st0 & Hp0 & H0);
          [rewrite Hrest; exact Hev|].
        exists p0, st0. split; [right; exact Hp0|exact H0].
      * cbn in Hev. apply elem_of_cons in Hev.
        destruct Hev as [->|Hev]; [apply Hhere; auto|inversion Hev].
    + rewrite extract_part_container, bind_ret_l in Hev by reflexivity.
      destruct (IH st ev Hev) as (p0 & st0 & Hp0 & H0).
      exists p0, st0. split; [right; exact Hp0|exact H0].
Qed.

Lemma for_each_skip_containers P tmpdir parts : forall st,
  for_each (extract_part P tmpdir) parts st
  = for_each (extract_part P tmpdir)
      (List.filter (fun p => negb (Email.is_multipart p)) parts) st.
Proof.
  induction parts as [|part parts IH]; intros st; [reflexivity|].
  cbn [List.filter]. destruct (Email.is_multipart part) eqn:Hm; cbn [negb for_each].
  - rewrite extract_part_container, bind_ret_l by exact Hm. apply IH.
  - destruct (extract_part P tmpdir st part) as [t1 [st1|e]]; cbn; try reflexivity.
    rewrite IH. reflexivity.
Qed.

(** C5. For a message as the parsers build it, a part that is a container,
    multipart or message/rfc822, is skipped by the extraction loop without
    any effect; the extraction is that of the leaf parts alone; and every
    file event of the extraction comes from a leaf part that is not of type
    message/rfc822. *)
Theorem containers_are_never_persisted P tmpdir msg :
  well_parsed msg = true ->
  (forall part st,
     part ∈ Email.walk msg ->
     Email.is_multipart part = true
     \/ Email.get_content_type part = "message/rfc822" ->
     extract_part P tmpdir st part = ret st)
  /\ extract_parts P tmpdir msg
     = for_each (extract_part P tmpdir) (leaves msg) extractor_init
  /\ (forall ev,
        ev ∈ trace (extract_parts P tmpdir msg) ->
        exists part st,
          part ∈ Email.walk msg
          /\ Email.is_multipart part = false
          /\ Email.get_content_type part <> "message/rfc822"
          /\ (ev = Ev_open (part_path P tmpdir st part)
              \/ exists data, Email.get_payload_decoded part = Some data
                   /\ ev = Ev_write (part_path P tmpdir st part) data)).
Proof.
  intros Hwf.
  assert (Hmsg : forall part, part ∈ Email.walk msg ->
            Email.get_content_type part = "message/rfc822" ->
            Email.is_multipart part = true).
  { intros part Hin Hty. unfold well_parsed in Hwf.
    rewrite forallb_forall in Hwf. apply list_elem_of_In in Hin.
    specialize (Hwf _ Hin). rewrite (content_type_rfc822 _ Hty) in Hwf.
    exact Hwf. }
  split; [|split].
  - intros part st Hin [Hm|Hty]; apply extract_part_container; auto.
  - apply for_each_skip_containers.
  - intros ev Hev. apply extract_events_from_leaves in Hev.
    destruct Hev as (part & st & Hin & Hleaf & Hev).
    exists part, st. split; [exact Hin|]. split; [exact Hleaf|]. split; [|exact Hev].
    intros Hty. rewrite (Hmsg _ Hin Hty) in Hleaf. discriminate.
Qed.

(** An instance. *)
Lemma containers_witness :
  extract_parts (Samples.quiet Samples.forwarded) "/tmp/w" Samples.forwarded
  = for_each (extract_part (Samples.quiet Samples.forwarded) "/tmp/w")
      (leaves Samples.forwarded) extractor_init.
Proof.
  apply (containers_are_never_persisted (Samples.quiet Samples.forwarded)
           "/tmp/w" Samples.forwarded).
  reflexivity.
Defined.

(** ** Loading from a maildir *)

Lemma dirent_nested_ind (Q : dirent -> Prop) :
  (forall n, Q (File n)) ->
  (forall n es, Forall Q es -> Q (Dir n es)) ->
  forall e, Q e.
Proof.
  intros HF HD. fix IH 1. intros [n|n es]; [apply HF|].
  apply HD. induction es as [|e es IHes]; constructor; [apply IH|exact IHes].
Qed.

Lemma first_in_walk_app w1 w2 :
  first_in_walk (w1 ++ w2)%list
  = match first_in_walk w1 with
    | Some p => Some p
    | None => first_in_walk w2
    end.
Proof.
  induction w1 as [|[[root ds] fs] w1 IH]; [reflexivity|]. cbn.
  destruct (first_non_dotfile fs); [reflexivity|exact IH].
Qed.

Lemma first_non_dotfile_hidden es :
  forallb all_hidden es = true -> first_non_dotfile (Os.files_of es) = None.
Proof.
  induction es as [|e es IH]; [reflexivity|]. cbn [forallb].
  intros H. apply andb_true_iff in H. destruct H as [He Hes].
  unfold Os.files_of in *. cbn [List.filter].
  destruct e as [n|n ds]; cbn [Os.is_dir negb]; [|apply IH, Hes].
  cbn [map Os.name_of]. unfold first_non_dotfile in *. cbn [List.find].
  cbn in He. rewrite He. cbn [negb]. apply IH, Hes.
Qed.

Lemma walk_below_hidden e :
  forall top, all_hidden e = true -> first_in_walk (Os.walk_below top e) = None.
Proof.
  induction e as [n|n es IH] using dirent_nested_ind; intros top H; [reflexivity|].
  cbn [Os.walk_below first_in_walk]. cbn [all_hidden] in H.
  rewrite (first_non_dotfile_hidden es H).
  generalize (PosixPath.join top n) as root. intros root.
  induction es as [|e es IHes]; [reflexivity|].
  cbn [forallb] in H. apply andb_true_iff in H. destruct H as [He Hes].
  apply Forall_cons in IH. destruct IH as [IHe IH].
  cbn [flat_map]. rewrite first_in_walk_app, (IHe root He). apply IHes; assumption.
Qed.

Lemma find_first_maildir_file_hidden P maildir es :
  directory P maildir = Some es -> forallb all_hidden es = true ->
  find_first_maildir_file P maildir = None.
Proof.
  intros Hdir H. unfold find_first_maildir_file, Os.walk. rewrite Hdir.
  cbn [first_in_walk]. rewrite (first_non_dotfile_hidden es H).
  clear Hdir. induction es as [|e es IH]; [reflexivity|].
  cbn [forallb] in H. apply andb_true_iff in H. destruct H as [He Hes].
  cbn [flat_map]. rewrite first_in_walk_app, (walk_below_hidden e maildir He).
  apply IH, Hes.
Qed.

(** C3, amended. For a maildir directory that holds, at any depth, no file
    whose name does not start with a dot, [find_first_maildir_file] answers
    [None], and [view_html_message] ends with an uncaught exception,
    [TypeError] from [open(None)], or [AttributeError] from [None.walk()]
    when the directory has no entry at all, before anything is extracted. *)
Theorem maildir_without_visible_file_aborts P f tmpdir es :
  f <> "" ->
  directory P f = Some es ->
  forallb all_hidden es = true ->
  find_first_maildir_file P f = None
  /\ view_html_message P f tmpdir
     = ([], Raise (match es with [] => AttributeError | _ :: _ => TypeError end)).
Proof.
  intros Hf Hdir Hhid.
  pose proof (find_first_maildir_file_hidden P f es Hdir Hhid) as Hnone.
  split; [exact Hnone|].
  unfold view_html_message, load_message, Os.isdir, Os.listdir.
  destruct (String.eqb_spec f ""); [contradiction|]. cbn [negb].
  rewrite Hdir, Hnone. destruct es; reflexivity.
Qed.

(** An instance. *)
Lemma maildir_without_visible_file_witness :
  find_first_maildir_file (Samples.hidden_maildir Samples.single_html)
    "/tmp/mutttmpbox" = None
  /\ view_html_message (Samples.hidden_maildir Samples.single_html)
       "/tmp/mutttmpbox" "/tmp/w" = ([], Raise TypeError).
Proof.
  apply (maildir_without_visible_file_aborts
           (Samples.hidden_maildir Samples.single_html)
           "/tmp/mutttmpbox" "/tmp/w" [Dir "cur" [File ".keep"]; Dir "new" []]).
  - discriminate.
  - reflexivity.
  - reflexivity.
Defined.

(** The rule as stated fails for a maildir with a hidden file only: the run
    ends with [TypeError]. *)
Lemma stated_maildir_not_found_fails :
  view_html_message (Samples.hidden_maildir Samples.single_html)
    "/tmp/mutttmpbox" "/tmp/w" = ([], Raise TypeError)
  /\ ~ stated_maildir_not_found (Samples.hidden_maildir Samples.single_html)
        "/tmp/mutttmpbox" "/tmp/w".
Proof.
  split; [vm_compute; reflexivity|].
  intros [H _]. apply (H TypeError). vm_compute. reflexivity.
Qed.

(** ** Failures while saving *)

Lemma extract_part_cannot_save P tmpdir st part :
  Email.is_multipart part = false ->
  open_wb_ok P (part_path P tmpdir st part) = false
  \/ write_ok P (part_path P tmpdir st part) = false ->
  exists t1, extract_part P tmpdir st part = (t1, Raise OSError)
    /\ (t1 = [] \/ t1 = [Ev_open (part_path P tmpdir st part)]).
Proof.
  intros Hleaf Hfail. destruct part as [i data|]; [|discriminate].
  rewrite extract_part_leaf. unfold open_wb, fp_write.
  destruct (open_wb_ok P _) eqn:Hopen.
  - destruct Hfail as [|Hw]; [discriminate|]. rewrite Hw.
    eexists. split; [reflexivity|]. right. reflexivity.
  - eexists. split; [reflexivity|]. left. reflexivity.
Qed.

Lemma bind_Return_l {A B} t (a : A) (k : A -> io B) :
  bind (t, Return a) k = ((t ++ trace (k a))%list, result (k a)).
Proof. cbn. destruct (k a). reflexivity. Qed.

(** C4, amended. When the file of a part cannot be opened or written, the
    [OSError] escapes: the run ends there, after the events of the parts
    before it and at most the opening of the failing file. The parts after it
    are not extracted, no HTML is written and nothing is dispatched. *)
Theorem write_failure_aborts_the_run P tmpdir msg pre part post t st :
  Email.walk msg = (pre ++ part :: post)%list ->
  for_each (extract_part P tmpdir) pre extractor_init = (t, Return st) ->
  Email.is_multipart part = false ->
  open_wb_ok P (part_path P tmpdir st part) = false
  \/ write_ok P (part_path P tmpdir st part) = false ->
  exists t1,
    view_message P tmpdir (Some msg) = ((t ++ t1)%list, Raise OSError)
    /\ (t1 = [] \/ t1 = [Ev_open (part_path P tmpdir st part)]).
Proof.
  intros Hwalk Hpre Hleaf Hfail.
  destruct (extract_part_cannot_save P tmpdir st part Hleaf Hfail) as (t1 & Hstep & Ht1).
  exists t1. split; [|exact Ht1].
  unfold view_message. rewrite bind_ret_l.
  unfold extract_parts. rewrite Hwalk, for_each_app, Hpre, bind_Return_l.
  cbn [for_each]. rewrite Hstep. reflexivity.
Qed.

(** An instance. *)
Lemma write_failure_witness :
  exists t1,
    view_message (Samples.read_only "/tmp/w/a.txt" Samples.two_texts) "/tmp/w"
      (Some Samples.two_texts) = (([] ++ t1)%list, Raise OSError)
    /\ (t1 = []
        \/ t1 = [Ev_open (part_path (Samples.read_only "/tmp/w/a.txt" Samples.two_texts)
                            "/tmp/w" extractor_init Samples.text_a)]).
Proof.
  apply (write_failure_aborts_the_run
           (Samples.read_only "/tmp/w/a.txt" Samples.two_texts) "/tmp/w"
           Samples.two_texts [Samples.two_texts] Samples.text_a [Samples.text_b]
           [] extractor_init).
  - reflexivity.
  - reflexivity.
  - reflexivity.
  - left. vm_compute. reflexivity.
Defined.

(** The rule as stated fails when the first of two attachments cannot be
    saved: the run ends with [OSError]. *)
Lemma stated_write_failure_is_local_fails :
  view_message (Samples.read_only "/tmp/w/a.txt" Samples.two_texts) "/tmp/w"
    (Some Samples.two_texts) = ([], Raise OSError)
  /\ ~ stated_write_failure_is_local
        (Samples.read_only "/tmp/w/a.txt" Samples.two_texts) "/tmp/w"
        Samples.two_texts.
Proof.
  split; [vm_compute; reflexivity|].
  intros H.
  destruct (H [Samples.two_texts] Samples.text_a [Samples.text_b] []
              extractor_init) as [Hraise _].
  - reflexivity.
  - reflexivity.
  - reflexivity.
  - left. vm_compute. reflexivity.
  - apply (Hraise OSError). vm_compute. reflexivity.
Qed.

(** ** The calls of the viewer *)

Lemma trace_bind {A B} (m : io A) (k : A -> io B) :
  trace (bind m k)
  = (trace m ++ match result m with Return a => trace (k a) | _ => [] end)%list.
Proof.
  destruct m as [t [a|e]]; cbn; rewrite ?app_nil_r; try reflexivity.
  destruct (k a). reflexivity.
Qed.

Lemma result_bind {A B} (m : io A) (k : A -> io B) :
  result (bind m k)
  = match result m with
    | Return a => result (k a)
    | Raise e => Raise e
    end.
Proof.
  destruct m as [t [a|e]]; cbn; try reflexivity. destruct (k a). reflexivity.
Qed.

Lemma popens_app t1 t2 : popens (t1 ++ t2) = (popens t1 ++ popens t2)%list.
Proof. apply omap_app. Qed.

Lemma opened_app t1 t2 : opened (t1 ++ t2) = (opened t1 ++ opened t2)%list.
Proof. apply omap_app. Qed.


Lemma re_sub_ignorecase_trace P pattern repl text :
  trace (re_sub_ignorecase P pattern repl text) = [].
Proof.
  unfold re_sub_ignorecase. destruct (Re.sub_ignorecase _ _ _); [reflexivity|].
  destruct (re_sub P _ _ _); reflexivity.
Qed.

Lemma substitute_cid_trace P s entry : trace (substitute_cid P s entry) = [].
Proof.
  destruct s as [h e], entry as [c [p q]]. unfold substitute_cid.
  rewrite trace_bind, re_sub_ignorecase_trace.
  destruct (result _); reflexivity.
Qed.

Lemma rewrite_html_trace P sf : forall h e, trace (rewrite_html P sf h e) = [].
Proof.
  unfold rewrite_html. induction sf as [|entry sf IH]; intros h e; [reflexivity|].
  cbn [for_each]. rewrite trace_bind, substitute_cid_trace.
  destruct (result (substitute_cid P (h, e) entry)) as [[h' e']|];
    [apply IH|reflexivity..].
Qed.

Lemma show_html_part_popens P tmpdir sf rw part :
  (popens (trace (show_html_part P tmpdir sf rw part)) = []
   /\ forall rw', result (show_html_part P tmpdir sf rw part) <> Return rw')
  \/ (popens (trace (show_html_part P tmpdir sf rw part))
      = [browser_cmd (first_browser rw) (htmlfile_name tmpdir (next_index rw))]
      /\ opened (trace (show_html_part P tmpdir sf rw part))
         = [htmlfile_name tmpdir (next_index rw)]
      /\ exists rw', result (show_html_part P tmpdir sf rw part) = Return rw'
           /\ first_browser rw' = false /\ next_index rw' = S (next_index rw)).
Proof.
  unfold show_html_part, open_wb, fp_write, mysubprocess.call_bg.
  destruct (open_wb_ok P _); [|left; split; [reflexivity|discriminate]].
  destruct (Email.get_payload_decoded part) as [data|];
    [|left; split; [reflexivity|discriminate]].
  rewrite bind_ret_l.
  pose proof (rewrite_html_trace P sf (bytes_decode P data) (embedded_parts rw)) as Ht.
  destruct (rewrite_html P sf (bytes_decode P data) (embedded_parts rw))
    as [t [[h e]|x]]; cbn in Ht; subst t;
    [|left; split; [reflexivity|discriminate]..].
  destruct (write_ok P _); [|left; split; [reflexivity|discriminate]].
  cbn [mysubprocess.program app].
  destruct (spawn_ok P _); [|left; split; [reflexivity|discriminate]].
  right. cbn. split; [reflexivity|]. split; [reflexivity|]. eauto.
Qed.


Lemma call_popens P arr : popens (trace (mysubprocess.call P arr)) = [].
Proof. unfold mysubprocess.call. destruct (spawn_ok P _); reflexivity. Qed.

Lemma convert_presentation_popens P fileparts partfile subtype :
  popens (trace (convert_presentation P fileparts partfile subtype)) = [].
Proof.
  unfold convert_presentation. destruct (_ || _); [|reflexivity].
  rewrite trace_bind, popens_app, call_popens. destruct (result _); reflexivity.
Qed.

Lemma extract_popens P tmpdir parts st :
  popens (trace (for_each (extract_part P tmpdir) parts st)) = [].
Proof.
  pose proof (extract_events_from_leaves P tmpdir parts st) as H.
  induction (trace (for_each (extract_part P tmpdir) parts st)) as [|ev t IH];
    [reflexivity|].
  destruct (H ev) as (p & s & _ & _ & [->|(d & _ & ->)]); [left|..];
    cbn; apply IH; intros e He; apply H; right; exact He.
Qed.


Lemma html_parts_after P tmpdir st part :
  html_parts (extractor_after P tmpdir st part)
  = if String.eqb (Email.get_content_subtype part) "html"
    then (html_parts st ++ [part])%list else html_parts st.
Proof. unfold extractor_after. destruct (assign_filename P st part). reflexivity. Qed.

Lemma extract_html_parts P tmpdir parts : forall st t st',
  for_each (extract_part P tmpdir) parts st = (t, Return st') ->
  html_parts st' = (html_parts st ++ List.filter is_html_leaf parts)%list.
Proof.
  induction parts as [|part parts IH]; intros st t st' Hrun.
  - cbn in Hrun. injection Hrun as <- <-. rewrite app_nil_r. reflexivity.
  - apply for_each_cons_inv in Hrun.
    destruct Hrun as (t1 & st1 & t2 & Hstep & Hrest & ->).
    rewrite (IH _ _ _ Hrest). cbn [List.filter]. unfold is_html_leaf at 2.
    destruct part as [i data|i ps].
    + apply extract_part_leaf_Return in Hstep. destruct Hstep as [_ ->].
      rewrite html_parts_after. cbn [Email.is_multipart negb andb].
      destruct (String.eqb _ "html"); [rewrite <- app_assoc|]; reflexivity.
    + rewrite extract_part_container in Hstep by reflexivity.
      injection Hstep as <- <-. reflexivity.
Qed.

Lemma existsb_filter_nil {A} (f : A -> bool) l :
  existsb f l = false <-> List.filter f l = [].
Proof.
  induction l as [|x l IH]; [tauto|]. cbn. destruct (f x); cbn; [|exact IH].
  split; discriminate.
Qed.

Lemma view_message_Some P tmpdir msg :
  view_message P tmpdir (Some msg)
  = (let* ex := extract_parts P tmpdir msg in
     let* rw := show_html_parts P tmpdir (subfiles ex) (html_parts ex) in
     dispatch_parts P (embedded_parts rw) (subfiles ex)).
Proof. unfold view_message. rewrite bind_ret_l. reflexivity. Qed.

(** C9. The rule does not hold of the script: [delayed_browser] always uses
    the same-session arguments. For a message without HTML part and with a
    PDF attachment, the first call of the viewer in the run, which opens its
    first window, has the same-session arguments. *)
Lemma stated_first_dispatch_fails :
  view_message (Samples.quiet Samples.pdf_with_id) "/tmp/w"
    (Some Samples.pdf_with_id)
  = ([Ev_open "/tmp/w/paper.pdf"; Ev_write "/tmp/w/paper.pdf" "PDF";
      Ev_call ["pdftohtml"; "-s"; "/tmp/w/paper.pdf"];
      Ev_popen (browser_cmd false "/tmp/w/paper-html.html")],
     Return tt)
  /\ ~ stated_first_dispatch (Samples.quiet Samples.pdf_with_id) "/tmp/w"
        Samples.pdf_with_id.
Proof.
  split; [vm_compute; reflexivity|].
  intros H.
  eassert (Hp : popens (trace (view_message (Samples.quiet Samples.pdf_with_id)
                                 "/tmp/w" (Some Samples.pdf_with_id))) !! 0
                = Some _) by (vm_compute; reflexivity).
  destruct (H 0 _ Hp) as [file Hfile]. vm_compute in Hfile. discriminate Hfile.
Qed.

(** ** The references rewritten in an HTML part *)



Lemma str_take_app_length pre rest : Py.take (String.length pre) (pre +:+ rest) = pre.
Proof. induction pre as [|c pre IH]; [reflexivity|]. cbn. rewrite IH. reflexivity. Qed.



(** C1. The rule does not hold of the script, which uses each identifier of
    the index, unescaped, as a regular expression, one identifier after the
    other. When an identifier of the index is a prefix of another one that
    enters the index after it, the reference [cid:img10] is rewritten with
    the path of [img1] followed by [0], and the page holds the path of
    [img10] nowhere. *)
Lemma stated_cid_rewrite_fails :
  view_message (Samples.quiet Samples.msg_prefix) "/tmp/w"
    (Some Samples.msg_prefix)
  = ([Ev_open "/tmp/w/part-001.html";
      Ev_write "/tmp/w/part-001.html" "<img src='cid:img10'>";
      Ev_open "/tmp/w/cidimg1.png"; Ev_write "/tmp/w/cidimg1.png" "PNG1";
      Ev_open "/tmp/w/cidimg10.png"; Ev_write "/tmp/w/cidimg10.png" "PNG10";
      Ev_open "/tmp/w/viewhtml00.html";
      Ev_write "/tmp/w/viewhtml00.html"
        "<img src='file:///tmp/w/cidimg1.png0'>";
      Ev_popen (browser_cmd true "/tmp/w/viewhtml00.html")],
     Return tt)
  /\ ~ stated_cid_rewrite (Samples.quiet Samples.msg_prefix) "/tmp/w"
        Samples.msg_prefix.
Proof.
  split; [vm_compute; reflexivity|].
  intros H.
  eassert (Hex : extract_parts (Samples.quiet Samples.msg_prefix) "/tmp/w"
                   Samples.msg_prefix = (_, Return _))
    by (vm_compute; reflexivity).
  specialize (H _ _ Hex "img10" "/tmp/w/cidimg10.png" Samples.png10 0
                Samples.html_img10 "<img src='cid:img10'>"
                "<img src='" "cid:" "" "img10" "'>").
  destruct H as (text & Hin & Hc).
  - cbn [subfiles]. apply list_elem_of_In. right. left. reflexivity.
  - reflexivity.
  - reflexivity.
  - reflexivity.
  - reflexivity.
  - left. reflexivity.
  - reflexivity.
  - eassert (Htr : trace (view_message (Samples.quiet Samples.msg_prefix) "/tmp/w"
                            (Some Samples.msg_prefix)) = _)
      by (vm_compute; reflexivity).
    rewrite Htr in Hin. clear Htr.
    change (str_encode (Samples.quiet Samples.msg_prefix) text) with text in Hin.
    change (htmlfile_name "/tmp/w" 0) with "/tmp/w/viewhtml00.html" in Hin.
    repeat (apply elem_of_cons in Hin; destruct Hin as [Hin|Hin];
            [try discriminate Hin|]).
    + injection Hin as ->. vm_compute in Hc. discriminate Hc.
    + inversion Hin.
Qed.

(** ** The parts embedded, and the others *)

Lemma substitute_cid_Return P h (e : list string) c p q h1 e1 t :
  substitute_cid P (h, e) (c, (p, q)) = (t, Return (h1, e1)) ->
  re_sub_ignorecase P ("cid: ?" +:+ c) ("file://" +:+ p) h = ret h1
  /\ e1 = (if negb (bool_decide (c ∈ e)) && negb (String.eqb h1 h)
           then e ++ [c] else e)%list
  /\ t = [].
Proof.
  unfold substitute_cid.
  pose proof (re_sub_ignorecase_trace P ("cid: ?" +:+ c) ("file://" +:+ p) h) as Ht.
  destruct (re_sub_ignorecase P _ _ h) as [t0 [new|x]]; cbn in Ht; subst t0;
    [|discriminate].
  cbn. intros [= <- <- <-]. auto.
Qed.

(** The substitutions add to [embedded_parts] identifiers of the index
    only. *)
Lemma rewrite_html_keys P sf : forall h e t h1 e1,
  rewrite_html P sf h e = (t, Return (h1, e1)) ->
  forall x, x ∈ e1 -> x ∈ e \/ x ∈ sf.*1.
Proof.
  unfold rewrite_html.
  induction sf as [|[c [p q]] sf IH]; intros h e t h1 e1 Hrun x Hx.
  - cbn in Hrun. injection Hrun as <- <- <-. auto.
  - apply for_each_cons_inv in Hrun.
    destruct Hrun as (ta & [h2 e2] & tb & Hstep & Hrest & ->).
    apply substitute_cid_Return in Hstep. destruct Hstep as (_ & -> & _).
    rewrite fmap_cons. cbn [fst].
    destruct (IH _ _ _ _ _ Hrest x Hx) as [Hin|Hin]; [|right; right; exact Hin].
    destruct (negb _ && negb _); [|auto].
    apply elem_of_app in Hin. destruct Hin as [Hin|Hin]; [auto|].
    apply list_elem_of_singleton in Hin. subst x. right. left.
Qed.

Lemma show_html_part_Return P tmpdir sf rw part t rw1 :
  show_html_part P tmpdir sf rw part = (t, Return rw1) ->
  exists data T,
    Email.get_payload_decoded part = Some data
    /\ rewrite_html P sf (bytes_decode P data) (embedded_parts rw)
       = ret (T, embedded_parts rw1).
Proof.
  unfold show_html_part, open_wb, fp_write, mysubprocess.call_bg.
  destruct (open_wb_ok P _); [|discriminate].
  destruct (Email.get_payload_decoded part) as [data|]; [|discriminate].
  rewrite bind_ret_l.
  pose proof (rewrite_html_trace P sf (bytes_decode P data) (embedded_parts rw)) as Ht.
  destruct (rewrite_html P sf (bytes_decode P data) (embedded_parts rw))
    as [t0 [[h e]|x]] eqn:Hrw; cbn in Ht; subst t0; [|cbn; discriminate..].
  change (@pair (list event) _ [] (Return (h, e))) with (ret (h, e)).
  rewrite bind_ret_l.
  destruct (write_ok P _); [|cbn; discriminate].
  cbn [mysubprocess.program app].
  destruct (spawn_ok P _); [|cbn; discriminate].
  cbn. intros [= <- <-]. exists data, h. split; [reflexivity|exact Hrw].
Qed.

Lemma show_html_parts_keys P tmpdir sf parts : forall rw t rw',
  for_each (show_html_part P tmpdir sf) parts rw = (t, Return rw') ->
  forall x, x ∈ embedded_parts rw' -> x ∈ embedded_parts rw \/ x ∈ sf.*1.
Proof.
  induction parts as [|part parts IH]; intros rw t rw' Hrun x Hx.
  - cbn in Hrun. injection Hrun as <- <-. auto.
  - apply for_each_cons_inv in Hrun.
    destruct Hrun as (t1 & rw1 & t2 & Hstep & Hrest & ->).
    apply show_html_part_Return in Hstep. destruct Hstep as (data & T & _ & Hrw).
    destruct (IH _ _ _ Hrest x Hx) as [Hin|Hin]; [|auto].
    apply (rewrite_html_keys P sf _ _ _ _ _ Hrw x Hin).
Qed.

Lemma elem_of_dict_set k v d x :
  x ∈ dict_set k v d -> x = (k, v) \/ x ∈ d.
Proof.
  induction d as [|[k' v'] d IH]; cbn [dict_set].
  - intros H. apply list_elem_of_singleton in H. auto.
  - destruct (String.eqb k' k).
    + intros H. apply elem_of_cons in H. destruct H as [H|H]; [auto|].
      right. right. exact H.
    + intros H. apply elem_of_cons in H. destruct H as [->|H]; [right; left|].
      destruct (IH H) as [->|H']; [auto|right; right; exact H'].
Qed.

Lemma subfiles_after P tmpdir st part :
  subfiles (extractor_after P tmpdir st part)
  = match content_id_of part with
    | Some (String c cid) =>
        dict_set (String c cid) (part_path P tmpdir st part, part) (subfiles st)
    | _ => subfiles st
    end.
Proof.
  unfold extractor_after, part_path.
  destruct (assign_filename P st part). reflexivity.
Qed.

(** What the index holds: leaf parts of the message, under their own
    non-empty content-id. *)
Lemma extract_subfiles P tmpdir parts : forall st t st',
  for_each (extract_part P tmpdir) parts st = (t, Return st') ->
  forall sfid partfile part,
    (sfid, (partfile, part)) ∈ subfiles st' ->
    (sfid, (partfile, part)) ∈ subfiles st
    \/ (part ∈ parts /\ Email.is_multipart part = false
        /\ content_id_of part = Some sfid /\ sfid <> "").
Proof.
  induction parts as [|p parts IH]; intros st t st' Hrun sfid partfile part Hin.
  - cbn in Hrun. injection Hrun as <- <-. auto.
  - apply for_each_cons_inv in Hrun.
    destruct Hrun as (t1 & st1 & t2 & Hstep & Hrest & ->).
    destruct (IH _ _ _ Hrest _ _ _ Hin) as [H|(H1 & H2)];
      [|right; split; [right; exact H1|exact H2]].
    destruct p as [i data|i ps].
    + apply extract_part_leaf_Return in Hstep. destruct Hstep as [_ ->].
      rewrite subfiles_after in H.
      destruct (content_id_of (Email.Leaf i data)) as [[|c cid]|] eqn:Hcid; auto.
      apply elem_of_dict_set in H. destruct H as [[= -> -> ->]|H]; [|auto].
      right. split; [left|]. auto.
    + rewrite extract_part_container in Hstep by reflexivity.
      injection Hstep as <- <-. auto.
Qed.


Lemma dispatch_parts_filter P embedded sf :
  dispatch_parts P embedded sf
  = for_each (fun _ entry => handle_application P entry.2.1 entry.2.2)
      (List.filter (to_handle embedded) sf) tt.
Proof.
  unfold dispatch_parts. induction sf as [|[sfid [partfile part]] sf IH]; [reflexivity|].
  cbn [for_each List.filter]. unfold to_handle at 1, dispatch_part at 1. cbn [fst snd].
  case_bool_decide; cbn [negb andb].
  - rewrite bind_ret_l. exact IH.
  - destruct (String.eqb _ "application").
    + cbn [for_each]. cbn [fst snd].
      destruct (handle_application P partfile part) as [t [[]|]]; cbn; try reflexivity.
      rewrite IH. reflexivity.
    + rewrite bind_ret_l. exact IH.
Qed.

(** C2. The rule does not hold of the script: the loop that handles the
    attachments runs over the index, which holds only the parts that have a
    Content-ID. A Word attachment without Content-ID is saved, and neither
    converted nor shown. And the loop ends with [NameError] at the first
    part of main type [application] whose subtype it does not name: for an
    archive followed by a PDF, both with a Content-ID that no HTML text
    refers to, the PDF is neither converted nor shown. *)
Lemma stated_dispatch_without_identifier_fails :
  view_message (Samples.quiet Samples.word_attachment) "/tmp/w"
    (Some Samples.word_attachment)
  = ([Ev_open "/tmp/w/report.doc"; Ev_write "/tmp/w/report.doc" "DOC"],
     Return tt)
  /\ view_message (Samples.quiet Samples.msg_archive_pdf) "/tmp/w"
       (Some Samples.msg_archive_pdf)
     = ([Ev_open "/tmp/w/files.zip"; Ev_write "/tmp/w/files.zip" "ZIP";
         Ev_open "/tmp/w/paper.pdf"; Ev_write "/tmp/w/paper.pdf" "PDF"],
        Raise NameError)
  /\ ~ stated_dispatch_without_identifier
        (Samples.quiet Samples.word_attachment) "/tmp/w"
        Samples.word_attachment.
Proof.
  split; [vm_compute; reflexivity|].
  split; [vm_compute; reflexivity|].
  intros H.
  destruct (H Samples.word_attachment) as [partfile Hev].
  - left.
  - reflexivity.
  - reflexivity.
  - reflexivity.
  - specialize (Hev (Ev_call ["unoconv"; "-f"; "html"; "-T"; "14"; "-o";
                              fst (PosixPath.splitext partfile) +:+ ".html";
                              partfile])).
    eassert (Htr : trace (view_message (Samples.quiet Samples.word_attachment)
                            "/tmp/w" (Some Samples.word_attachment)) = _)
      by (vm_compute; reflexivity).
    rewrite Htr in Hev. clear Htr.
    assert (Hin : Ev_call ["unoconv"; "-f"; "html"; "-T"; "14"; "-o";
                           fst (PosixPath.splitext partfile) +:+ ".html"; partfile]
                  ∈ trace (handle_application
                             (Samples.quiet Samples.word_attachment) partfile
                             Samples.word_attachment)) by left.
    specialize (Hev Hin).
    repeat (apply elem_of_cons in Hev; destruct Hev as [Hev|Hev];
            [discriminate Hev|]).
    inversion Hev.
Qed.

(** * Further properties of the script *)

(** ** More on strings *)

Lemma char_in_app c (a b : string) :
  Py.char_in c (a +:+ b) = Py.char_in c a || Py.char_in c b.
Proof.
  induction a as [|x a IH]; [reflexivity|].
  cbn [String.append Py.char_in]. rewrite IH. apply orb_assoc.
Qed.

Lemma str_take_drop n (s : string) : Py.take n s +:+ Py.drop n s = s.
Proof.
  revert s. induction n as [|n IH]; intros [|c s]; cbn; try reflexivity.
  rewrite IH. reflexivity.
Qed.

Lemma str_drop_app_len (a b : string) : Py.drop (String.length a) (a +:+ b) = b.
Proof. induction a as [|c a IH]; [reflexivity|exact IH]. Qed.

(** ** More on sanitized filenames *)

Lemma sanitize_app (a b : string) :
  sanitize_filename (a +:+ b) = sanitize_filename a +:+ sanitize_filename b.
Proof.
  induction a as [|x a IH]; [reflexivity|].
  cbn [String.append sanitize_filename].
  destruct (allowed_char x); cbn [String.append]; rewrite IH; reflexivity.
Qed.

Lemma sanitize_length s :
  String.length (sanitize_filename s) <= String.length s.
Proof.
  induction s as [|x s IH]; [reflexivity|].
  cbn [sanitize_filename]. destruct (allowed_char x); cbn [String.length]; lia.
Qed.

Lemma sanitize_same_length s :
  String.length (sanitize_filename s) = String.length s ->
  sanitize_filename s = s.
Proof.
  induction s as [|x s IH]; [reflexivity|].
  cbn [sanitize_filename]. destruct (allowed_char x); cbn [String.length]; intros H.
  - f_equal. apply IH. lia.
  - pose proof (sanitize_length s). lia.
Qed.

(** X1. [sanitize_filename] works character by character: the sanitized form
    of a concatenation is the concatenation of the sanitized forms; it is
    never longer than its input, and as long only when nothing was removed.
    So the name made from a Content-ID always starts with [cid]. *)
Theorem sanitize_filename_is_a_filter a b :
  sanitize_filename (a +:+ b) = sanitize_filename a +:+ sanitize_filename b
  /\ String.length (sanitize_filename a) <= String.length a
  /\ (String.length (sanitize_filename a) = String.length a ->
      sanitize_filename a = a)
  /\ sanitize_filename ("cid" +:+ a +:+ b)
     = "cid" +:+ sanitize_filename a +:+ sanitize_filename b.
Proof.
  split; [apply sanitize_app|].
  split; [apply sanitize_length|].
  split; [apply sanitize_same_length|].
  rewrite !sanitize_app. reflexivity.
Qed.

(** X2. A dot is never removed: a declared filename made of dots only, such
    as [..], is kept as it is, and when that name is not in use the part is
    saved under it in the working directory. *)
Theorem dotted_filename_is_kept P tmpdir st i data fn :
  Email.filename i = Some fn ->
  fn <> "" ->
  (forall c, Py.char_in c fn = true -> c = "."%char) ->
  fn ∉ filenames st ->
  sanitize_filename fn = fn
  /\ part_path P tmpdir st (Email.Leaf i data) = PosixPath.join tmpdir fn
  /\ PosixPath.join tmpdir fn
     = (if String.eqb tmpdir "" || Py.endswith tmpdir "/" then tmpdir
        else tmpdir +:+ "/") +:+ fn.
Proof.
  intros Hfn Hne Hdots Hfree.
  assert (Hs : sanitize_filename fn = fn).
  { apply sanitize_allowed_id. intros c Hc. rewrite (Hdots c Hc). reflexivity. }
  assert (Hd : forall content_id counter,
             derive_filename P (Email.Leaf i data) content_id counter = fn).
  { intros content_id counter. unfold derive_filename, Email.get_filename.
    cbn [Email.info_of]. rewrite Hfn. destruct fn as [|c fn]; [congruence|exact Hs]. }
  split; [exact Hs|]. split.
  - rewrite part_path_unused; rewrite Hd; [reflexivity|exact Hfree].
  - apply join_relative. rewrite <- Hs. apply sanitize_not_absolute.
Qed.

(** An instance: the part is saved to the parent of the working directory. *)
Lemma dotted_filename_witness :
  part_path (Samples.quiet MoreSamples.dotdot) "/tmp/w" extractor_init
    MoreSamples.dotdot = "/tmp/w/..".
Proof.
  destruct (dotted_filename_is_kept (Samples.quiet MoreSamples.dotdot) "/tmp/w"
              extractor_init
              (Samples.info [] "text" "plain" (Some "..")) "text" "..")
    as (_ & H & _).
  - reflexivity.
  - discriminate.
  - intros c. cbn [Py.char_in]. rewrite !orb_false_r, orb_diag.
    intros Hc. apply Ascii.eqb_eq in Hc. exact Hc.
  - cbn. set_solver.
  - exact H.
Defined.

(** ** The brackets of a Content-ID *)

Lemma endswith_char (v : string) c :
  Py.endswith v (String c "") = true ->
  v = Py.take (String.length v - 1) v +:+ String c "".
Proof.
  unfold Py.endswith. cbn [String.length]. intros H.
  apply andb_prop in H. destruct H as [_ H]. apply String.eqb_eq in H.
  rewrite <- H. symmetry. apply str_take_drop.
Qed.

Lemma endswith_app_char (s : string) c :
  Py.endswith (s +:+ String c "") (String c "") = true.
Proof.
  unfold Py.endswith. rewrite str_length_app. cbn [String.length].
  apply andb_true_intro. split; [apply Nat.leb_le; lia|].
  replace (String.length s + 1 - 1) with (String.length s) by lia.
  rewrite str_drop_app_len. apply String.eqb_refl.
Qed.

(** X3. Removing the angle brackets of a Content-ID: a value written
    [<s>] gives [s], one pair only; a value that does not both start with
    [<] and end with [>] is left as it is; and there is no other case. *)
Theorem strip_angle_brackets_spec s :
  strip_angle_brackets ("<" +:+ s +:+ ">") = s
  /\ (Py.startswith s "<" = false \/ Py.endswith s ">" = false ->
      strip_angle_brackets s = s)
  /\ (strip_angle_brackets s = s
      \/ s = "<" +:+ strip_angle_brackets s +:+ ">").
Proof.
  split; [|split].
  - change ("<" +:+ s +:+ ">") with (String "<" (s +:+ ">")).
    unfold strip_angle_brackets.
    pose proof (endswith_app_char (String "<" s) ">") as He.
    change (String "<" s +:+ ">") with (String "<" (s +:+ ">")) in He.
    rewrite He.
    cbn [Py.startswith]. rewrite startswith_nil. cbn [andb Ascii.eqb Bool.eqb].
    unfold Py.slice_1_m1.
    cbn [String.length Py.drop]. rewrite str_length_app. cbn [String.length].
    replace (S (String.length s + 1) - 2) with (String.length s) by lia.
    apply str_take_app_length.
  - unfold strip_angle_brackets. intros [-> | ->]; [reflexivity|].
    rewrite andb_false_r. reflexivity.
  - unfold strip_angle_brackets.
    destruct (Py.startswith s "<") eqn:Hs; [|left; reflexivity].
    destruct (Py.endswith s ">") eqn:He; [|left; reflexivity].
    right. cbn [andb]. unfold Py.slice_1_m1.
    destruct s as [|c s]; [discriminate|].
    cbn [Py.startswith] in Hs. rewrite startswith_nil, andb_true_r in Hs.
    apply Ascii.eqb_eq in Hs. subst c.
    apply endswith_char in He. cbn [String.length] in He.
    destruct s as [|c s].
    + cbn in He. discriminate.
    + cbn [String.length] in *.
      replace (S (S (String.length s)) - 1) with (S (String.length s)) in He by lia.
      replace (S (S (String.length s)) - 2) with (String.length s) by lia.
      cbn [Py.take String.append] in He. injection He as He.
      cbn [Py.drop String.append]. f_equal. exact He.
Qed.

(** ** A Content-ID that is empty *)

(** X4. A Content-ID header whose value is empty once the brackets are
    removed counts as a header, so the counter moves, but not as an
    identifier: the part does not enter the index, and without declared
    filename it is named [part-NNN] from the counter that has moved. *)
Theorem empty_content_id_is_no_identifier P tmpdir st part :
  content_id_of part = Some "" ->
  counter_after_id part (counter st) = S (counter st)
  /\ subfiles (extractor_after P tmpdir st part) = subfiles st
  /\ (Py.truthy (Email.get_filename part) = false ->
      derive_filename P part (content_id_of part)
        (counter_after_id part (counter st))
      = "part-" +:+ Py.fmt_0d 3 (S (counter st)) +:+ extension_for P part).
Proof.
  intros Hid.
  assert (Hc : counter_after_id part (counter st) = S (counter st)).
  { rewrite counter_after_id_header. rewrite content_id_of_header in Hid.
    destruct (content_id_header part); [reflexivity|discriminate]. }
  split; [exact Hc|]. split.
  - rewrite subfiles_after, Hid. reflexivity.
  - intros Hfn. rewrite Hc, Hid. unfold derive_filename.
    destruct (Email.get_filename part) as [[|c fn]|]; try reflexivity.
    discriminate.
Qed.

(** An instance, for the header [Content-ID: <>]. *)
Lemma empty_content_id_witness :
  derive_filename (Samples.quiet MoreSamples.png_empty_id) MoreSamples.png_empty_id
    (content_id_of MoreSamples.png_empty_id)
    (counter_after_id MoreSamples.png_empty_id 1)
  = "part-002.png".
Proof.
  destruct (empty_content_id_is_no_identifier
              (Samples.quiet MoreSamples.png_empty_id) "/tmp/w" extractor_init
              MoreSamples.png_empty_id) as (_ & _ & H).
  - reflexivity.
  - change (counter extractor_init) with 1 in H. rewrite H; reflexivity.
Defined.

(** ** The name of a part whose first name is in use *)

Lemma rfind_Some c s i :
  Py.rfind c s = Some i ->
  exists rest, Py.drop i s = String c rest /\ Py.char_in c rest = false.
Proof.
  revert i. induction s as [|a s IH]; intros i; [discriminate|].
  cbn [Py.rfind]. destruct (Py.rfind c s) as [j|] eqn:Hr.
  - intros [= <-]. cbn [Py.drop]. apply IH. reflexivity.
  - destruct (Ascii.eqb_spec a c) as [->|]; [|discriminate].
    intros [= <-]. cbn [Py.drop]. exists s. split; [reflexivity|].
    clear IH. induction s as [|b s IHs]; [reflexivity|].
    cbn [Py.rfind] in Hr. cbn [Py.char_in].
    destruct (Py.rfind c s); [discriminate|].
    destruct (Ascii.eqb_spec b c) as [->|Hne]; [discriminate|].
    rewrite IHs by reflexivity.
    destruct (Ascii.eqb_spec c b); [congruence|reflexivity].
Qed.

Lemma splitext_parts p :
  fst (PosixPath.splitext p) +:+ snd (PosixPath.splitext p) = p
  /\ (snd (PosixPath.splitext p) = ""
      \/ exists rest, snd (PosixPath.splitext p) = String "." rest
                      /\ Py.char_in "." rest = false).
Proof.
  unfold PosixPath.splitext.
  destruct (Py.rfind PosixPath.extsep p) as [d|] eqn:Hd;
    [|split; [apply str_app_nil_r|left; reflexivity]].
  destruct (_ && _); cbn [fst snd];
    [|split; [apply str_app_nil_r|left; reflexivity]].
  split; [apply str_take_drop|]. right.
  apply rfind_Some in Hd. exact Hd.
Qed.

(** X5. When the name derived for a part is in use, the part gets the name
    with [-N] set before its extension, for the first [N >= 1] that is free,
    and the script's counter becomes [N], whatever it was. The extension is
    what follows the last dot of the name, dot included, or nothing. *)
Theorem renamed_part_keeps_its_extension (fs : gset string) counter filename :
  filename ∈ fs ->
  exists base ext n,
    filename = base +:+ ext
    /\ (ext = "" \/ exists rest, ext = String "." rest
                                 /\ Py.char_in "." rest = false)
    /\ 1 <= n
    /\ uniquify fs counter filename = (n, base +:+ "-" +:+ Py.fmt_d n +:+ ext)
    /\ (base +:+ "-" +:+ Py.fmt_d n +:+ ext ∉ fs)
    /\ forall k, 1 <= k < n -> base +:+ "-" +:+ Py.fmt_d k +:+ ext ∈ fs.
Proof.
  intros Hin.
  destruct (uniquify_spec fs counter filename) as [[Hn _]|(_ & n & Hn & Heq & Hall)];
    [contradiction|].
  destruct (splitext_parts filename) as [Hsplit Hext].
  exists (fst (PosixPath.splitext filename)), (snd (PosixPath.splitext filename)), n.
  split; [symmetry; exact Hsplit|]. split; [exact Hext|]. split; [exact Hn|].
  split; [exact Heq|]. split; [|exact Hall].
  pose proof (uniquify_fresh fs counter filename) as Hf. rewrite Heq in Hf. exact Hf.
Qed.

(** An instance: the third part named [image.png]. *)
Lemma renamed_part_witness :
  uniquify {[ "image.png"; "image-1.png" ]} 7 "image.png" = (2, "image-2.png")
  /\ exists base ext n,
       "image.png" = base +:+ ext
       /\ (ext = "" \/ exists rest, ext = String "." rest
                                    /\ Py.char_in "." rest = false)
       /\ 1 <= n
       /\ uniquify {[ "image.png"; "image-1.png" ]} 7 "image.png"
          = (n, base +:+ "-" +:+ Py.fmt_d n +:+ ext)
       /\ (base +:+ "-" +:+ Py.fmt_d n +:+ ext
           ∉ ({[ "image.png"; "image-1.png" ]} : gset string))
       /\ forall k, 1 <= k < n ->
            base +:+ "-" +:+ Py.fmt_d k +:+ ext
            ∈ ({[ "image.png"; "image-1.png" ]} : gset string).
Proof.
  split; [vm_compute; reflexivity|].
  apply (renamed_part_keeps_its_extension
           {[ "image.png"; "image-1.png" ]} 7 "image.png").
  set_solver.
Defined.

(** ** Where the files of a run lie *)

Lemma string_of_uint_no_sep (d : Decimal.uint) :
  Py.char_in "/" (NilEmpty.string_of_uint d) = false.
Proof. induction d; cbn; auto. Qed.

Lemma fmt_d_no_sep n : Py.char_in "/" (Py.fmt_d n) = false.
Proof. apply string_of_uint_no_sep. Qed.

Lemma zeros_no_sep n : Py.char_in "/" (Py.zeros n) = false.
Proof. induction n; cbn; auto. Qed.

Lemma fmt_0d_no_sep w n : Py.char_in "/" (Py.fmt_0d w n) = false.
Proof.
  unfold Py.fmt_0d. rewrite char_in_app, zeros_no_sep, fmt_d_no_sep. reflexivity.
Qed.

Lemma sanitize_no_sep s : Py.char_in "/" (sanitize_filename s) = false.
Proof.
  destruct (Py.char_in "/" (sanitize_filename s)) eqn:E; [|reflexivity].
  apply char_in_sanitize in E. destruct E as [E _]. vm_compute in E. discriminate.
Qed.

Lemma derive_filename_single P part cid counter :
  extension_is_plain P part = true ->
  single_component (derive_filename P part cid counter) = true.
Proof.
  unfold extension_is_plain, single_component, PosixPath.sep. intros Hext.
  apply negb_true_iff in Hext. apply negb_true_iff.
  unfold derive_filename.
  destruct (Email.get_filename part) as [[|c fn]|];
    try apply sanitize_no_sep;
    destruct cid as [[|c' cid]|]; try apply sanitize_no_sep;
    rewrite !char_in_app, fmt_0d_no_sep, Hext; reflexivity.
Qed.

Lemma uniquify_single (fs : gset string) counter filename :
  single_component filename = true ->
  single_component (snd (uniquify fs counter filename)) = true.
Proof.
  intros H.
  destruct (uniquify_spec fs counter filename) as [[_ ->]|(_ & n & _ & -> & _)];
    [exact H|].
  cbn [snd]. unfold single_component, PosixPath.sep in *.
  apply negb_true_iff in H. apply negb_true_iff.
  destruct (splitext_parts filename) as [Hsplit _].
  rewrite <- Hsplit, char_in_app in H. apply orb_false_elim in H.
  destruct H as [Hb He].
  unfold numbered. rewrite !char_in_app, Hb, He, fmt_d_no_sep. reflexivity.
Qed.

Lemma assign_filename_single P st part :
  extension_is_plain P part = true ->
  single_component (snd (assign_filename P st part)) = true.
Proof. intros H. apply uniquify_single, derive_filename_single, H. Qed.

Lemma single_not_absolute name :
  single_component name = true -> Py.startswith name "/" = false.
Proof.
  unfold single_component, PosixPath.sep. intros H. apply negb_true_iff in H.
  destruct name as [|c name]; [reflexivity|].
  cbn [Py.char_in] in H. apply orb_false_elim in H. destruct H as [H _].
  cbn [Py.startswith]. rewrite H. reflexivity.
Qed.

Lemma elem_of_opened p t : p ∈ opened t <-> Ev_open p ∈ t.
Proof.
  unfold opened. rewrite list_elem_of_omap. split.
  - intros (ev & Hev & Hp). destruct ev; try discriminate.
    injection Hp as ->. exact Hev.
  - intros H. exists (Ev_open p). auto.
Qed.

Lemma show_html_part_events P tmpdir sf rw part ev :
  ev ∈ trace (show_html_part P tmpdir sf rw part) ->
  ev = Ev_open (htmlfile_name tmpdir (next_index rw))
  \/ (exists d, ev = Ev_write (htmlfile_name tmpdir (next_index rw)) d)
  \/ ev = Ev_popen (browser_cmd (first_browser rw)
                      (htmlfile_name tmpdir (next_index rw))).
Proof.
  unfold show_html_part. rewrite !trace_bind.
  unfold open_wb, fp_write, mysubprocess.call_bg.
  destruct (open_wb_ok P _); cbn [trace result fst snd emit raise app];
    [|intros H; inversion H].
  destruct (Email.get_payload_decoded part) as [data|];
    cbn [trace result fst snd ret raise app].
  2:{ intros H. apply list_elem_of_singleton in H. auto. }
  pose proof (rewrite_html_trace P sf (bytes_decode P data) (embedded_parts rw)) as Ht.
  destruct (rewrite_html P sf (bytes_decode P data) (embedded_parts rw))
    as [t [[h e]|x]]; cbn [trace fst] in Ht; subst t;
    cbn [trace result fst snd app].
  2: intros H; apply list_elem_of_singleton in H; auto.
  rewrite !trace_bind.
  destruct (write_ok P _); cbn [trace result fst snd emit raise app].
  2:{ intros H. apply list_elem_of_singleton in H. auto. }
  destruct (spawn_ok P _); cbn [trace result fst snd emit raise ret app].
  - intros H. apply elem_of_cons in H. destruct H as [->|H]; [auto|].
    apply elem_of_cons in H. destruct H as [->|H]; [eauto|].
    apply list_elem_of_singleton in H. subst ev. right. right. reflexivity.
  - intros H. apply elem_of_cons in H. destruct H as [->|H]; [auto|].
    apply list_elem_of_singleton in H. eauto.
Qed.

Lemma show_html_parts_opened P tmpdir sf parts : forall rw p,
  p ∈ opened (trace (for_each (show_html_part P tmpdir sf) parts rw)) ->
  exists i, p = htmlfile_name tmpdir i.
Proof.
  induction parts as [|part parts IH]; intros rw p Hp.
  - inversion Hp.
  - cbn [for_each] in Hp. rewrite trace_bind, opened_app in Hp.
    apply elem_of_app in Hp. destruct Hp as [Hp|Hp].
    + apply elem_of_opened in Hp. apply show_html_part_events in Hp.
      destruct Hp as [Hp|[[d Hp]|Hp]]; try discriminate.
      injection Hp as ->. eauto.
    + destruct (result (show_html_part P tmpdir sf rw part)) as [rw1|];
        [eapply IH; exact Hp|inversion Hp].
Qed.

Lemma call_opened P arr : opened (trace (mysubprocess.call P arr)) = [].
Proof. unfold mysubprocess.call. destruct (spawn_ok P _); reflexivity. Qed.

Lemma delayed_browser_opened P file : opened (trace (delayed_browser P file)) = [].
Proof.
  unfold delayed_browser, mysubprocess.call_bg. destruct (spawn_ok P _); reflexivity.
Qed.

Lemma call_then_browser_opened P arr file :
  opened (trace (mysubprocess.call P arr >> delayed_browser P file)) = [].
Proof.
  rewrite trace_bind, opened_app, call_opened.
  destruct (result _); [apply delayed_browser_opened|reflexivity..].
Qed.

Lemma handle_application_opened P partfile part :
  opened (trace (handle_application P partfile part)) = [].
Proof.
  unfold handle_application.
  destruct (_ && _); [apply call_then_browser_opened|].
  destruct (_ || _); [apply call_then_browser_opened|].
  rewrite trace_bind, opened_app.
  assert (Hc : opened (trace (convert_presentation P (PosixPath.splitext partfile)
                                partfile (Email.get_content_subtype part))) = []).
  { unfold convert_presentation. destruct (_ || _); [|reflexivity].
    rewrite trace_bind, opened_app, call_opened.
    destruct (result _); reflexivity. }
  rewrite Hc. destruct (result _) as [pf|]; [|reflexivity].
  unfold show_pdf. rewrite trace_bind, opened_app.
  destruct (String.eqb _ "pdf"); cbn [trace result fst snd ret raise opened omap app];
    [|reflexivity].
  destruct Prefs.CONVERT_PDF_TO_HTML;
    [apply call_then_browser_opened|apply delayed_browser_opened].
Qed.

Lemma dispatch_parts_opened P emb sf : forall u,
  opened (trace (for_each (dispatch_part P emb) sf u)) = [].
Proof.
  induction sf as [|[sfid [partfile part]] sf IH]; intros u; [reflexivity|].
  cbn [for_each]. rewrite trace_bind, opened_app.
  assert (H : opened (trace (dispatch_part P emb u (sfid, (partfile, part)))) = []).
  { unfold dispatch_part. destruct (bool_decide _); [reflexivity|].
    destruct (String.eqb _ _); [apply handle_application_opened|reflexivity]. }
  rewrite H. destruct (result _); [apply IH|reflexivity..].
Qed.

Lemma leaves_elem msg part :
  part ∈ Email.walk msg -> Email.is_multipart part = false -> part ∈ leaves msg.
Proof.
  intros Hin Hleaf. unfold leaves. apply list_elem_of_In, filter_In.
  split; [apply list_elem_of_In, Hin|]. rewrite Hleaf. reflexivity.
Qed.

Lemma dash_names_an_entry name :
  Py.char_in "-" name = true -> names_no_entry name = false.
Proof.
  intros H. unfold names_no_entry.
  destruct (String.eqb_spec name "") as [->|_]; [discriminate H|].
  destruct (String.eqb_spec name ".") as [->|_]; [discriminate H|].
  destruct (String.eqb_spec name "..") as [->|_]; [discriminate H|].
  reflexivity.
Qed.

Lemma numbered_names_an_entry b n e : names_no_entry (numbered b n e) = false.
Proof.
  apply dash_names_an_entry. unfold numbered. rewrite !char_in_app.
  cbn. apply orb_true_r.
Qed.

(** A name that is [""], ["."] or [".."] comes from a declared filename. *)
Lemma assign_filename_no_entry P st part :
  names_no_entry (snd (assign_filename P st part)) = true ->
  exists fn, Email.get_filename part = Some fn
             /\ snd (assign_filename P st part) = sanitize_filename fn.
Proof.
  unfold assign_filename.
  destruct (uniquify_spec (filenames st) (counter_after_id part (counter st))
              (derive_filename P part (content_id_of part)
                 (counter_after_id part (counter st))))
    as [[_ ->]|(_ & n & _ & -> & _)]; cbn [snd].
  - unfold derive_filename.
    destruct (Email.get_filename part) as [[|c fn]|];
      [|intros _; eexists; split; reflexivity|];
      (destruct (content_id_of part) as [[|c' cid]|];
       [|rewrite sanitize_app|]; intros H; discriminate H).
  - rewrite numbered_names_an_entry. discriminate.
Qed.

(** X6. Every file that a run opens for writing, whether the run completes
    or not, has a name without separator, joined to the working directory.
    That name is empty, [.] or [..] only when a part declares a filename
    that [sanitize_filename] turns into it: every other file, so every part
    without declared filename, every renamed part and every rewritten page,
    is an entry of the working directory. This holds as soon as the
    extensions that [mimetypes] gives for the parts hold no separator. *)
Theorem saved_files_lie_in_tmpdir P tmpdir msg :
  forallb (extension_is_plain P) (leaves msg) = true ->
  forall path,
    path ∈ opened (trace (view_message P tmpdir (Some msg))) ->
    exists name,
      single_component name = true
      /\ path = PosixPath.join tmpdir name
      /\ path = (if String.eqb tmpdir "" || Py.endswith tmpdir "/" then tmpdir
                 else tmpdir +:+ "/") +:+ name
      /\ (names_no_entry name = true ->
          exists part fn,
            part ∈ leaves msg
            /\ Email.get_filename part = Some fn
            /\ name = sanitize_filename fn).
Proof.
  intros Hext path Hpath.
  assert (Hname : exists name,
             single_component name = true /\ path = PosixPath.join tmpdir name
             /\ (names_no_entry name = true ->
                 exists part fn,
                   part ∈ leaves msg
                   /\ Email.get_filename part = Some fn
                   /\ name = sanitize_filename fn)).
  { rewrite view_message_Some, trace_bind, opened_app in Hpath.
    apply elem_of_app in Hpath. destruct Hpath as [Hpath|Hpath].
    - apply elem_of_opened in Hpath.
      apply extract_events_from_leaves in Hpath.
      destruct Hpath as (part & st0 & Hin & Hleaf & [Hev|(d & _ & Hev)]);
        [|discriminate].
      injection Hev as ->. exists (snd (assign_filename P st0 part)).
      pose proof (leaves_elem _ _ Hin Hleaf) as Hl.
      split; [|split; [reflexivity|]].
      + apply assign_filename_single.
        rewrite forallb_forall in Hext. apply Hext.
        apply list_elem_of_In, Hl.
      + intros Hno. apply assign_filename_no_entry in Hno.
        destruct Hno as (fn & Hfn & Heq). exists part, fn. auto.
    - destruct (result (extract_parts P tmpdir msg)) as [ex|];
        [|inversion Hpath].
      rewrite trace_bind, opened_app in Hpath.
      apply elem_of_app in Hpath. destruct Hpath as [Hpath|Hpath].
      + apply show_html_parts_opened in Hpath. destruct Hpath as [i ->].
        exists ("viewhtml" +:+ Py.fmt_0d 2 i +:+ ".html").
        split; [|split; [reflexivity|intros H; discriminate H]].
        unfold single_component, PosixPath.sep.
        rewrite !char_in_app, fmt_0d_no_sep. reflexivity.
      + destruct (result _) as [rw|]; [|inversion Hpath].
        unfold dispatch_parts in Hpath. rewrite dispatch_parts_opened in Hpath.
        inversion Hpath. }
  destruct Hname as (name & Hs & -> & Hno). exists name.
  split; [exact Hs|]. split; [reflexivity|].
  split; [apply join_relative, single_not_absolute, Hs|exact Hno].
Qed.

(** An instance: a message whose only part declares the filename [..]; the
    one file of the run is the parent of the working directory. *)
Lemma saved_files_witness :
  opened (trace (view_message (Samples.quiet MoreSamples.dotdot) "/tmp/w"
                   (Some MoreSamples.dotdot)))
  = ["/tmp/w/.."]
  /\ exists name,
       single_component name = true
       /\ "/tmp/w/.." = PosixPath.join "/tmp/w" name
       /\ "/tmp/w/.."
          = (if String.eqb "/tmp/w" "" || Py.endswith "/tmp/w" "/" then "/tmp/w"
             else "/tmp/w" +:+ "/") +:+ name
       /\ (names_no_entry name = true ->
           exists part fn,
             part ∈ leaves MoreSamples.dotdot
             /\ Email.get_filename part = Some fn
             /\ name = sanitize_filename fn).
Proof.
  split; [vm_compute; reflexivity|].
  apply (saved_files_lie_in_tmpdir (Samples.quiet MoreSamples.dotdot) "/tmp/w"
           MoreSamples.dotdot).
  - vm_compute. reflexivity.
  - vm_compute. set_solver.
Defined.

(** ** The index of the parts *)

Lemma dict_set_keys k v (d : subfiles_t) :
  (dict_set k v d).*1 = if bool_decide (k ∈ d.*1) then d.*1 else (d.*1 ++ [k])%list.
Proof.
  induction d as [|[k' v'] d IH]; [reflexivity|].
  cbn [dict_set]. destruct (String.eqb_spec k' k) as [->|Hne].
  - rewrite !fmap_cons. cbn [fst]. rewrite bool_decide_true by left. reflexivity.
  - rewrite !fmap_cons. cbn [fst]. rewrite IH.
    destruct (bool_decide (k ∈ d.*1)) eqn:E.
    + apply bool_decide_eq_true in E. rewrite bool_decide_true by (right; exact E).
      reflexivity.
    + apply bool_decide_eq_false in E.
      rewrite bool_decide_false; [reflexivity|].
      intros H. apply elem_of_cons in H. destruct H as [->|H]; [congruence|auto].
Qed.

Lemma dict_set_NoDup k v (d : subfiles_t) : NoDup d.*1 -> NoDup (dict_set k v d).*1.
Proof.
  intros H. rewrite dict_set_keys. case_bool_decide as Hin; [exact H|].
  apply NoDup_app. split; [exact H|]. split.
  - intros x Hx Hk. apply list_elem_of_singleton in Hk. subst x. auto.
  - apply NoDup_singleton.
Qed.

Lemma dict_get_set_eq k v (d : subfiles_t) : dict_get k (dict_set k v d) = Some v.
Proof.
  unfold dict_get. induction d as [|[k' v'] d IH]; cbn [dict_set find fst].
  - rewrite String.eqb_refl. reflexivity.
  - destruct (String.eqb_spec k' k) as [->|Hne]; cbn [find fst].
    + rewrite String.eqb_refl. reflexivity.
    + destruct (String.eqb_spec k' k); [congruence|exact IH].
Qed.

Lemma dict_get_set_ne k k0 v (d : subfiles_t) :
  k0 <> k -> dict_get k0 (dict_set k v d) = dict_get k0 d.
Proof.
  intros Hne. unfold dict_get.
  induction d as [|[k' v'] d IH]; cbn [dict_set find fst].
  - destruct (String.eqb_spec k k0); [congruence|reflexivity].
  - destruct (String.eqb_spec k' k) as [->|Hne']; cbn [find fst].
    + destruct (String.eqb_spec k k0); [congruence|reflexivity].
    + destruct (String.eqb_spec k' k0); [reflexivity|exact IH].
Qed.

Lemma dict_get_elem k v (d : subfiles_t) : dict_get k d = Some v -> (k, v) ∈ d.
Proof.
  unfold dict_get. destruct (find _ d) as [[k' v']|] eqn:E; [|discriminate].
  intros [= <-]. apply find_some in E. destruct E as [Hin Hk].
  apply String.eqb_eq in Hk. cbn in Hk. subst k'. apply list_elem_of_In, Hin.
Qed.

Lemma extract_part_Return P tmpdir st part t st' :
  extract_part P tmpdir st part = (t, Return st') ->
  (Email.is_multipart part = true /\ t = [] /\ st' = st)
  \/ (Email.is_multipart part = false
      /\ opened t = [part_path P tmpdir st part]
      /\ st' = extractor_after P tmpdir st part).
Proof.
  destruct part as [i data|i ps].
  - intros H. apply extract_part_leaf_Return in H. destruct H as [-> ->].
    right. auto.
  - rewrite extract_part_container by reflexivity. intros [= <- <-]. left. auto.
Qed.

Lemma extract_index_inv P tmpdir parts : forall st t st',
  for_each (extract_part P tmpdir) parts st = (t, Return st') ->
  (NoDup (subfiles st).*1 -> NoDup (subfiles st').*1)
  /\ (forall sfid partfile part,
        (sfid, (partfile, part)) ∈ subfiles st' ->
        (sfid, (partfile, part)) ∈ subfiles st \/ partfile ∈ opened t)
  /\ (forall name, name ∈ filenames st' ->
        name ∈ filenames st \/ PosixPath.join tmpdir name ∈ opened t).
Proof.
  induction parts as [|part parts IH]; intros st t st' Hrun.
  - cbn in Hrun. injection Hrun as <- <-. auto.
  - apply for_each_cons_inv in Hrun.
    destruct Hrun as (t1 & st1 & t2 & Hstep & Hrest & ->).
    destruct (IH _ _ _ Hrest) as (Hnd & Hpath & Hnames).
    apply extract_part_Return in Hstep.
    destruct Hstep as [(_ & -> & ->)|(_ & Ho & ->)]; [auto|].
    rewrite opened_app, Ho.
    split; [|split].
    + intros H. apply Hnd. rewrite subfiles_after.
      destruct (content_id_of part) as [[|c cid]|]; auto using dict_set_NoDup.
    + intros sfid partfile q Hin.
      destruct (Hpath _ _ _ Hin) as [Hin'|Hin'];
        [|right; apply elem_of_app; right; exact Hin'].
      rewrite subfiles_after in Hin'.
      destruct (content_id_of part) as [[|c cid]|]; auto.
      apply elem_of_dict_set in Hin'. destruct Hin' as [[= -> -> ->]|Hin']; [|auto].
      right. left.
    + intros name Hin.
      destruct (Hnames _ Hin) as [Hin'|Hin'];
        [|right; apply elem_of_app; right; exact Hin'].
      rewrite filenames_after in Hin'. apply elem_of_union in Hin'.
      destruct Hin' as [Hin'|Hin']; [auto|].
      apply elem_of_singleton in Hin'. subst name. right. left.
Qed.

Lemma substitute_cid_NoDup P h (e : list string) c p q h1 e1 t :
  substitute_cid P (h, e) (c, (p, q)) = (t, Return (h1, e1)) ->
  NoDup e -> NoDup e1.
Proof.
  intros H Hnd. apply substitute_cid_Return in H. destruct H as (_ & -> & _).
  case_bool_decide as Hin; cbn [negb andb]; [exact Hnd|].
  destruct (negb _); [|exact Hnd].
  apply NoDup_app. split; [exact Hnd|]. split; [|apply NoDup_singleton].
  intros x Hx Hc. apply list_elem_of_singleton in Hc. subst x. auto.
Qed.

Lemma rewrite_html_NoDup P sf : forall h e t h1 e1,
  rewrite_html P sf h e = (t, Return (h1, e1)) -> NoDup e -> NoDup e1.
Proof.
  unfold rewrite_html.
  induction sf as [|[c [p q]] sf IH]; intros h e t h1 e1 Hrun Hnd.
  - cbn in Hrun. injection Hrun as <- <- <-. exact Hnd.
  - apply for_each_cons_inv in Hrun.
    destruct Hrun as (t1 & [h2 e2] & t2 & Hstep & Hrest & ->).
    eapply IH; [exact Hrest|]. eapply substitute_cid_NoDup; eauto.
Qed.

Lemma show_html_parts_NoDup P tmpdir sf parts : forall rw t rw',
  for_each (show_html_part P tmpdir sf) parts rw = (t, Return rw') ->
  NoDup (embedded_parts rw) -> NoDup (embedded_parts rw').
Proof.
  induction parts as [|part parts IH]; intros rw t rw' Hrun Hnd.
  - cbn in Hrun. injection Hrun as <- <-. exact Hnd.
  - apply for_each_cons_inv in Hrun.
    destruct Hrun as (t1 & rw1 & t2 & Hstep & Hrest & ->).
    eapply IH; [exact Hrest|].
    apply show_html_part_Return in Hstep. destruct Hstep as (data & T & _ & Hrw).
    eapply rewrite_html_NoDup; [exact Hrw|exact Hnd].
Qed.

(** X7. After the extraction and the HTML phase of a run: no identifier is
    twice in the index; every file that the index names was opened during
    the extraction; no identifier is twice in [embedded_parts]; and
    [embedded_parts] holds identifiers of the index only. *)
Theorem index_and_embedded_parts_invariants P tmpdir msg t1 ex t2 rw :
  extract_parts P tmpdir msg = (t1, Return ex) ->
  show_html_parts P tmpdir (subfiles ex) (html_parts ex) = (t2, Return rw) ->
  NoDup (subfiles ex).*1
  /\ (forall sfid partfile part,
        (sfid, (partfile, part)) ∈ subfiles ex -> partfile ∈ opened t1)
  /\ NoDup (embedded_parts rw)
  /\ (forall sfid, sfid ∈ embedded_parts rw -> sfid ∈ (subfiles ex).*1)
  /\ length (embedded_parts rw) <= length (subfiles ex).
Proof.
  intros Hex Hrw.
  destruct (extract_index_inv P tmpdir _ _ _ _ Hex) as (Hnd & Hpath & _).
  assert (Hnd1 : NoDup (subfiles ex).*1) by (apply Hnd; constructor).
  assert (Hnd2 : NoDup (embedded_parts rw)).
  { eapply show_html_parts_NoDup; [exact Hrw|constructor]. }
  assert (Hsub : forall sfid, sfid ∈ embedded_parts rw -> sfid ∈ (subfiles ex).*1).
  { intros sfid Hin.
    destruct (show_html_parts_keys P tmpdir _ _ _ _ _ Hrw sfid Hin) as [H|H];
      [inversion H|exact H]. }
  split; [exact Hnd1|]. split.
  { intros sfid partfile part Hin.
    destruct (Hpath _ _ _ Hin) as [H|H]; [inversion H|exact H]. }
  split; [exact Hnd2|]. split; [exact Hsub|].
  rewrite <- (length_fmap fst (subfiles ex)).
  apply submseteq_length, NoDup_submseteq; assumption.
Qed.

(** An instance: the message with two images of which one is embedded. *)
Lemma index_invariants_witness :
  exists t1 ex t2 rw,
    extract_parts (Samples.quiet Samples.msg_embedded) "/tmp/w" Samples.msg_embedded
    = (t1, Return ex)
    /\ show_html_parts (Samples.quiet Samples.msg_embedded) "/tmp/w"
         (subfiles ex) (html_parts ex) = (t2, Return rw)
    /\ (subfiles ex).*1 = ["img10"; "img1"]
    /\ NoDup (embedded_parts rw)
    /\ length (embedded_parts rw) <= length (subfiles ex).
Proof.
  destruct (extract_parts (Samples.quiet Samples.msg_embedded) "/tmp/w"
              Samples.msg_embedded) as [t1 [ex|]] eqn:Hex;
    try (vm_compute in Hex; discriminate).
  destruct (show_html_parts (Samples.quiet Samples.msg_embedded) "/tmp/w"
              (subfiles ex) (html_parts ex)) as [t2 [rw|]] eqn:Hrw;
    try (vm_compute in Hex; injection Hex as <- <-; vm_compute in Hrw; discriminate).
  exists t1, ex, t2, rw.
  split; [reflexivity|]. split; [exact Hrw|].
  split; [vm_compute in Hex; injection Hex as <- <-; reflexivity|].
  destruct (index_and_embedded_parts_invariants _ _ _ _ _ _ _ Hex Hrw)
    as (_ & _ & H1 & _ & H2).
  split; assumption.
Defined.

(** X8. The index keeps, for an identifier, the file of the last part that
    carries it: when no part after [part] in the walk has the identifier of
    [part], the entry of that identifier at the end of the extraction is the
    path under which [part] was saved, with [part]. *)
Theorem last_part_with_an_identifier_is_indexed
    P tmpdir pre part post st0 t st sfid :
  for_each (extract_part P tmpdir) (pre ++ part :: post)%list st0 = (t, Return st) ->
  Email.is_multipart part = false ->
  content_id_of part = Some sfid ->
  sfid <> "" ->
  (forall q, q ∈ post -> Email.is_multipart q = false ->
             content_id_of q <> Some sfid) ->
  exists t1 st1,
    for_each (extract_part P tmpdir) pre st0 = (t1, Return st1)
    /\ dict_get sfid (subfiles st) = Some (part_path P tmpdir st1 part, part)
    /\ (sfid, (part_path P tmpdir st1 part, part)) ∈ subfiles st
    /\ part_path P tmpdir st1 part ∈ opened t.
Proof.
  intros Hrun Hleaf Hid Hne Hpost.
  rewrite for_each_app in Hrun. apply bind_Return_inv in Hrun.
  destruct Hrun as (t1 & st1 & t2 & Hpre & Hrest & ->).
  exists t1, st1. split; [exact Hpre|].
  apply for_each_cons_inv in Hrest.
  destruct Hrest as (t3 & st2 & t4 & Hstep & Hrest & ->).
  apply extract_part_Return in Hstep.
  destruct Hstep as [(Hm & _)|(_ & Ho & ->)]; [congruence|].
  assert (Hget : dict_get sfid (subfiles (extractor_after P tmpdir st1 part))
                 = Some (part_path P tmpdir st1 part, part)).
  { rewrite subfiles_after, Hid. destruct sfid as [|c cid]; [congruence|].
    apply dict_get_set_eq. }
  assert (Hkeep : forall parts sa ta sb,
             for_each (extract_part P tmpdir) parts sa = (ta, Return sb) ->
             (forall q, q ∈ parts -> Email.is_multipart q = false ->
                        content_id_of q <> Some sfid) ->
             dict_get sfid (subfiles sb) = dict_get sfid (subfiles sa)).
  { clear. induction parts as [|q parts IH]; intros sa ta sb Hrun Hq.
    - cbn in Hrun. injection Hrun as <- <-. reflexivity.
    - apply for_each_cons_inv in Hrun.
      destruct Hrun as (ta1 & sa1 & ta2 & Hstep & Hrest & ->).
      rewrite (IH _ _ _ Hrest) by (intros; apply Hq; [right|]; assumption).
      apply extract_part_Return in Hstep.
      destruct Hstep as [(_ & _ & ->)|(Hl & _ & ->)]; [reflexivity|].
      rewrite subfiles_after.
      specialize (Hq q (list_elem_of_here _ _) Hl).
      destruct (content_id_of q) as [[|c cid]|]; try reflexivity.
      apply dict_get_set_ne. congruence. }
  rewrite (Hkeep _ _ _ _ Hrest Hpost), Hget.
  split; [reflexivity|]. split.
  - apply dict_get_elem. rewrite (Hkeep _ _ _ _ Hrest Hpost). exact Hget.
  - rewrite !opened_app, Ho. apply elem_of_app. right. left.
Qed.

(** An instance: two images under the identifier [logo]. *)
Lemma last_part_witness :
  exists t1 st1,
    for_each (extract_part (Samples.quiet MoreSamples.logo_old) "/tmp/w")
      [MoreSamples.logo_old] extractor_init = (t1, Return st1)
    /\ dict_get "logo"
         (subfiles (extractor_after (Samples.quiet MoreSamples.logo_old) "/tmp/w"
                      st1 MoreSamples.logo_new))
       = Some ("/tmp/w/cidlogo-1.png", MoreSamples.logo_new).
Proof.
  destruct (last_part_with_an_identifier_is_indexed
              (Samples.quiet MoreSamples.logo_old) "/tmp/w"
              [MoreSamples.logo_old] MoreSamples.logo_new [] extractor_init
              (trace (for_each (extract_part (Samples.quiet MoreSamples.logo_old) "/tmp/w")
                        [MoreSamples.logo_old; MoreSamples.logo_new] extractor_init))
              (extractor_after (Samples.quiet MoreSamples.logo_old) "/tmp/w"
                 (extractor_after (Samples.quiet MoreSamples.logo_old) "/tmp/w"
                    extractor_init MoreSamples.logo_old)
                 MoreSamples.logo_new)
              "logo")
    as (t1 & st1 & Hpre & Hget & _).
  - vm_compute. reflexivity.
  - reflexivity.
  - vm_compute. reflexivity.
  - discriminate.
  - intros q Hq. inversion Hq.
  - exists t1, st1. split; [exact Hpre|].
    vm_compute in Hpre. injection Hpre as <- <-. vm_compute. reflexivity.
Defined.

(** ** The pages written for the HTML parts *)

Lemma uint_of_string_zeros k s :
  NilEmpty.uint_of_string (Py.zeros k +:+ s)
  = Nat.iter k Decimal.D0 <$> NilEmpty.uint_of_string s.
Proof.
  induction k as [|k IH]; cbn [Py.zeros String.append Nat.iter].
  - destruct (NilEmpty.uint_of_string s); reflexivity.
  - cbn [NilEmpty.uint_of_string]. rewrite IH.
    destruct (NilEmpty.uint_of_string s); reflexivity.
Qed.

Lemma of_uint_zeros k d : Nat.of_uint (Nat.iter k Decimal.D0 d) = Nat.of_uint d.
Proof. induction k as [|k IH]; [reflexivity|exact IH]. Qed.

(** Reading back the digits of ['%0wd' % n] gives [n]. *)
Lemma fmt_0d_read w n :
  Nat.of_uint <$> NilEmpty.uint_of_string (Py.fmt_0d w n) = Some n.
Proof.
  unfold Py.fmt_0d, Py.fmt_d. rewrite uint_of_string_zeros, NilEmpty.usu.
  cbn [fmap option_fmap option_map]. rewrite of_uint_zeros, Unsigned.of_to.
  reflexivity.
Qed.

Lemma fmt_0d_inj w a b : Py.fmt_0d w a = Py.fmt_0d w b -> a = b.
Proof.
  intros H. pose proof (fmt_0d_read w a) as Ha. rewrite H, fmt_0d_read in Ha.
  congruence.
Qed.

Lemma htmlfile_name_inj tmpdir i j :
  htmlfile_name tmpdir i = htmlfile_name tmpdir j -> i = j.
Proof.
  unfold htmlfile_name. intros H. apply join_inj in H; try reflexivity.
  apply str_app_inv_head, str_app_inv_tail in H. apply (fmt_0d_inj 2), H.
Qed.

Lemma show_html_part_complete P tmpdir sf rw part t rw1 :
  show_html_part P tmpdir sf rw part = (t, Return rw1) ->
  exists data T,
    Email.get_payload_decoded part = Some data
    /\ rewrite_html P sf (bytes_decode P data) (embedded_parts rw)
       = ret (T, embedded_parts rw1)
    /\ t = [Ev_open (htmlfile_name tmpdir (next_index rw));
            Ev_write (htmlfile_name tmpdir (next_index rw)) (str_encode P T);
            Ev_popen (browser_cmd (first_browser rw)
                        (htmlfile_name tmpdir (next_index rw)))]
    /\ next_index rw1 = S (next_index rw)
    /\ first_browser rw1 = false.
Proof.
  intros H. pose proof H as H0. apply show_html_part_Return in H0.
  destruct H0 as (data & T & Hdata & Hrw). exists data, T.
  split; [exact Hdata|]. split; [exact Hrw|].
  unfold show_html_part in H. rewrite Hdata in H.
  unfold open_wb, fp_write, mysubprocess.call_bg in H.
  destruct (open_wb_ok P _); [|discriminate].
  cbn [emit bind ret] in H. rewrite Hrw in H. cbn [ret bind] in H.
  destruct (write_ok P _); [|discriminate].
  cbn [emit bind ret] in H.
  destruct (spawn_ok P _); [|discriminate].
  cbn [emit bind ret app] in H. injection H as <- <-. auto.
Qed.

Lemma calls_app t1 t2 : calls (t1 ++ t2) = (calls t1 ++ calls t2)%list.
Proof. apply omap_app. Qed.

Lemma show_html_parts_complete P tmpdir sf parts : forall rw t rw',
  for_each (show_html_part P tmpdir sf) parts rw = (t, Return rw') ->
  opened t = map (htmlfile_name tmpdir) (seq (next_index rw) (length parts))
  /\ popens t
     = match parts with
       | [] => []
       | _ :: parts' =>
           browser_cmd (first_browser rw) (htmlfile_name tmpdir (next_index rw))
           :: map (fun i => browser_cmd false (htmlfile_name tmpdir i))
                (seq (S (next_index rw)) (length parts'))
       end
  /\ calls t = []
  /\ next_index rw' = next_index rw + length parts.
Proof.
  induction parts as [|part parts IH]; intros rw t rw' Hrun.
  - cbn in Hrun. injection Hrun as <- <-. cbn. auto with arith.
  - apply for_each_cons_inv in Hrun.
    destruct Hrun as (t1 & rw1 & t2 & Hstep & Hrest & ->).
    apply show_html_part_complete in Hstep.
    destruct Hstep as (data & T & _ & _ & -> & Hidx & Hfirst).
    destruct (IH _ _ _ Hrest) as (Ho & Hp & Hc & Hn).
    rewrite Hidx in Ho, Hp, Hn. rewrite Hfirst in Hp.
    split; [|split; [|split]].
    + rewrite opened_app, Ho. reflexivity.
    + rewrite popens_app, Hp. destruct parts as [|q parts]; reflexivity.
    + rewrite calls_app, Hc. reflexivity.
    + rewrite Hn. cbn [length]. lia.
Qed.



(** ** The page that takes the place of a part *)

Lemma string_of_uint_allowed (d : Decimal.uint) c :
  Py.char_in c (NilEmpty.string_of_uint d) = true -> allowed_char c = true.
Proof.
  induction d; cbn [NilEmpty.string_of_uint Py.char_in]; try discriminate;
    intros H; apply orb_prop in H; destruct H as [H|H]; auto;
    apply Ascii.eqb_eq in H; subst c; reflexivity.
Qed.

Lemma fmt_0d_allowed w n c :
  Py.char_in c (Py.fmt_0d w n) = true -> allowed_char c = true.
Proof.
  unfold Py.fmt_0d. rewrite char_in_app. intros H. apply orb_prop in H.
  destruct H as [H|H]; [|apply (string_of_uint_allowed _ _ H)].
  induction (w - String.length (Py.fmt_d n)) as [|k IH]; [discriminate|].
  cbn [Py.zeros Py.char_in] in H. apply orb_prop in H. destruct H as [H|H]; auto.
  apply Ascii.eqb_eq in H. subst c. reflexivity.
Qed.

Lemma page_name_sanitized i :
  sanitize_filename ("viewhtml" +:+ Py.fmt_0d 2 i +:+ ".html")
  = "viewhtml" +:+ Py.fmt_0d 2 i +:+ ".html".
Proof.
  apply sanitize_allowed_id. intros c. rewrite !char_in_app. intros H.
  apply orb_prop in H. destruct H as [H|H].
  - cbn [Py.char_in] in H.
    repeat (apply orb_prop in H; destruct H as [H|H];
            [apply Ascii.eqb_eq in H; subst c; reflexivity|]).
    discriminate.
  - apply orb_prop in H. destruct H as [H|H]; [apply (fmt_0d_allowed _ _ _ H)|].
    cbn [Py.char_in] in H.
    repeat (apply orb_prop in H; destruct H as [H|H];
            [apply Ascii.eqb_eq in H; subst c; reflexivity|]).
    discriminate.
Qed.

Lemma extract_filenames_mono P tmpdir parts : forall st t st',
  for_each (extract_part P tmpdir) parts st = (t, Return st') ->
  filenames st ⊆ filenames st'.
Proof.
  induction parts as [|q parts IH]; intros st t st' Hrun.
  - cbn in Hrun. injection Hrun as <- <-. reflexivity.
  - apply for_each_cons_inv in Hrun.
    destruct Hrun as (t1 & st1 & t2 & Hstep & Hrest & ->).
    apply IH in Hrest. apply extract_part_Return in Hstep.
    destruct Hstep as [(_ & _ & ->)|(_ & _ & ->)]; [exact Hrest|].
    rewrite filenames_after in Hrest. set_solver.
Qed.

Lemma declared_name_in_use P tmpdir name parts : forall st t st' part,
  for_each (extract_part P tmpdir) parts st = (t, Return st') ->
  part ∈ parts ->
  Email.is_multipart part = false ->
  (forall cid counter, derive_filename P part cid counter = name) ->
  name ∈ filenames st'.
Proof.
  induction parts as [|q parts IH]; intros st t st' part Hrun Hin Hleaf Hname.
  - inversion Hin.
  - apply for_each_cons_inv in Hrun.
    destruct Hrun as (t1 & st1 & t2 & Hstep & Hrest & ->).
    apply elem_of_cons in Hin. destruct Hin as [<-|Hin]; [|eauto].
    apply extract_part_Return in Hstep.
    destruct Hstep as [(Hm & _)|(_ & _ & ->)]; [congruence|].
    apply extract_filenames_mono in Hrest. apply Hrest.
    rewrite filenames_after. unfold assign_filename. rewrite Hname.
    destruct (uniquify_spec (filenames st) (counter_after_id part (counter st)) name)
      as [[_ ->]|[Hused _]]; set_solver.
Qed.

Lemma page_disk tmpdir i j data cmd disk :
  foldl apply_event disk
    [Ev_open (htmlfile_name tmpdir i); Ev_write (htmlfile_name tmpdir i) data;
     Ev_popen cmd] !! htmlfile_name tmpdir j
  = if decide (i = j) then Some data else disk !! htmlfile_name tmpdir j.
Proof.
  cbn [foldl apply_event]. destruct (decide (i = j)) as [->|Hne].
  - rewrite lookup_alter_eq, lookup_insert_eq. reflexivity.
  - assert (htmlfile_name tmpdir i <> htmlfile_name tmpdir j)
      by (intros H; apply Hne, (htmlfile_name_inj tmpdir), H).
    rewrite lookup_alter_ne, lookup_insert_ne by assumption. reflexivity.
Qed.

Lemma show_html_parts_disk P tmpdir sf parts : forall rw t rw' disk,
  for_each (show_html_part P tmpdir sf) parts rw = (t, Return rw') ->
  forall k html_part,
    parts !! k = Some html_part ->
    exists data T e e',
      Email.get_payload_decoded html_part = Some data
      /\ rewrite_html P sf (bytes_decode P data) e = ret (T, e')
      /\ htmlfile_name tmpdir (next_index rw + k) ∈ opened t
      /\ foldl apply_event disk t !! htmlfile_name tmpdir (next_index rw + k)
         = Some (str_encode P T).
Proof.
  induction parts as [|part parts IH]; intros rw t rw' disk Hrun k html_part Hk.
  - discriminate.
  - apply for_each_cons_inv in Hrun.
    destruct Hrun as (t1 & rw1 & t2 & Hstep & Hrest & ->).
    apply show_html_part_complete in Hstep.
    destruct Hstep as (data & T & Hdata & Hrw & -> & Hidx & _).
    rewrite foldl_app, opened_app.
    destruct k as [|k].
    + injection Hk as <-. exists data, T, (embedded_parts rw), (embedded_parts rw1).
      split; [exact Hdata|]. split; [exact Hrw|].
      rewrite Nat.add_0_r. split; [apply elem_of_app; left; left|].
      assert (Hkeep : forall t' d0 rwa rwb,
                 for_each (show_html_part P tmpdir sf) parts rwa = (t', Return rwb) ->
                 next_index rw < next_index rwa ->
                 foldl apply_event d0 t' !! htmlfile_name tmpdir (next_index rw)
                 = d0 !! htmlfile_name tmpdir (next_index rw)).
      { clear. induction parts as [|q parts IHp]; intros t' d0 rwa rwb Hrun Hlt.
        - cbn in Hrun. injection Hrun as <- <-. reflexivity.
        - apply for_each_cons_inv in Hrun.
          destruct Hrun as (ta & rwc & tb & Hstep & Hrest & ->).
          apply show_html_part_complete in Hstep.
          destruct Hstep as (data & T & _ & _ & -> & Hidx & _).
          rewrite foldl_app.
          rewrite (IHp _ _ _ _ Hrest) by lia.
          rewrite page_disk. destruct (decide _); [lia|reflexivity]. }
      rewrite (Hkeep _ _ _ _ Hrest) by lia.
      rewrite page_disk. destruct (decide _); [reflexivity|congruence].
    + cbn [lookup list_lookup] in Hk.
      destruct (IH _ _ _ (foldl apply_event disk
                            [Ev_open (htmlfile_name tmpdir (next_index rw));
                             Ev_write (htmlfile_name tmpdir (next_index rw))
                               (str_encode P T);
                             Ev_popen (browser_cmd (first_browser rw)
                                         (htmlfile_name tmpdir (next_index rw)))])
                  Hrest k html_part Hk)
        as (data' & T' & e & e' & Hd & Hr & Ho & Hdisk).
      rewrite Hidx in Ho, Hdisk.
      replace (next_index rw + S k) with (S (next_index rw) + k) by lia.
      exists data', T', e, e'. split; [exact Hd|]. split; [exact Hr|].
      split; [apply elem_of_app; right; exact Ho|exact Hdisk].
Qed.

(** X10. The page of an HTML part can take the place of a part: when a leaf
    part declares the filename [viewhtmlNN.html] and the message has more
    than NN HTML parts, a file of that name is opened during the extraction
    and opened again for the page, and once the HTML phase is over it holds
    the rewritten text of the HTML part, whatever the extraction saved
    there. *)
Theorem rewritten_page_replaces_the_part_of_its_name
    P tmpdir msg t1 ex t2 rw part i :
  extract_parts P tmpdir msg = (t1, Return ex) ->
  show_html_parts P tmpdir (subfiles ex) (html_parts ex) = (t2, Return rw) ->
  part ∈ Email.walk msg ->
  Email.is_multipart part = false ->
  Email.get_filename part = Some ("viewhtml" +:+ Py.fmt_0d 2 i +:+ ".html") ->
  i < length (html_parts ex) ->
  htmlfile_name tmpdir i ∈ opened t1
  /\ htmlfile_name tmpdir i ∈ opened t2
  /\ exists html_part data T e e',
       html_parts ex !! i = Some html_part
       /\ Email.get_payload_decoded html_part = Some data
       /\ rewrite_html P (subfiles ex) (bytes_decode P data) e = ret (T, e')
       /\ disk_after (t1 ++ t2) !! htmlfile_name tmpdir i = Some (str_encode P T).
Proof.
  intros Hex Hrw Hin Hleaf Hfn Hi.
  assert (Hname : forall cid counter,
             derive_filename P part cid counter
             = "viewhtml" +:+ Py.fmt_0d 2 i +:+ ".html").
  { intros cid counter. unfold derive_filename. rewrite Hfn.
    change ("viewhtml" +:+ Py.fmt_0d 2 i +:+ ".html")
      with (String "v" ("iewhtml" +:+ Py.fmt_0d 2 i +:+ ".html")).
    apply page_name_sanitized. }
  pose proof (declared_name_in_use P tmpdir _ _ _ _ _ _ Hex Hin Hleaf Hname) as Huse.
  destruct (extract_index_inv P tmpdir _ _ _ _ Hex) as (_ & _ & Hnames).
  destruct (Hnames _ Huse) as [Hbad|Hopen]; [set_solver|].
  split; [exact Hopen|].
  destruct (lookup_lt_is_Some_2 (html_parts ex) i Hi) as [html_part Hk].
  destruct (show_html_parts_disk P tmpdir _ _ _ _ _ (foldl apply_event ∅ t1)
              Hrw i html_part Hk)
    as (data & T & e & e' & Hd & Hr & Ho & Hdisk).
  cbn [rewriter_init next_index Nat.add] in Ho, Hdisk.
  split; [exact Ho|].
  exists html_part, data, T, e, e'.
  unfold disk_after. rewrite foldl_app. auto.
Qed.

(** An instance: an attachment that declares [viewhtml00.html]. *)
Lemma rewritten_page_witness :
  exists t1 ex t2 rw,
    extract_parts (Samples.quiet MoreSamples.msg_page_clash) "/tmp/w"
      MoreSamples.msg_page_clash = (t1, Return ex)
    /\ show_html_parts (Samples.quiet MoreSamples.msg_page_clash) "/tmp/w"
         (subfiles ex) (html_parts ex) = (t2, Return rw)
    /\ written t1 = [("/tmp/w/part-001.html", "<p>hello</p>");
                     ("/tmp/w/viewhtml00.html", "mine")]
    /\ "/tmp/w/viewhtml00.html" ∈ opened t2
    /\ disk_after (t1 ++ t2) !! "/tmp/w/viewhtml00.html" = Some "<p>hello</p>".
Proof.
  destruct (extract_parts (Samples.quiet MoreSamples.msg_page_clash) "/tmp/w"
              MoreSamples.msg_page_clash) as [t1 [ex|]] eqn:Hex;
    try (vm_compute in Hex; discriminate).
  destruct (show_html_parts (Samples.quiet MoreSamples.msg_page_clash) "/tmp/w"
              (subfiles ex) (html_parts ex)) as [t2 [rw|]] eqn:Hrw;
    try (vm_compute in Hex; injection Hex as <- <-; vm_compute in Hrw; discriminate).
  exists t1, ex, t2, rw. split; [reflexivity|]. split; [exact Hrw|].
  destruct (rewritten_page_replaces_the_part_of_its_name
              _ _ _ _ _ _ _ MoreSamples.page_attachment 0 Hex Hrw)
    as (_ & Ho & _).
  - cbn. set_solver.
  - reflexivity.
  - reflexivity.
  - vm_compute in Hex. injection Hex as <- <-. cbn. lia.
  - split; [vm_compute in Hex; injection Hex as <- <-; reflexivity|].
    split; [exact Ho|].
    vm_compute in Hex. injection Hex as <- <-.
    vm_compute in Hrw. injection Hrw as <- <-. vm_compute. reflexivity.
Defined.

(** ** The attachments that are converted and shown *)

Lemma call_Return P arr t u :
  mysubprocess.call P arr = (t, Return u) -> t = [Ev_call arr].
Proof.
  unfold mysubprocess.call. destruct (spawn_ok P _); [|discriminate].
  intros [= <- _]. reflexivity.
Qed.

Lemma delayed_browser_Return P file t u :
  delayed_browser P file = (t, Return u) -> t = [Ev_popen (browser_cmd false file)].
Proof.
  unfold delayed_browser, mysubprocess.call_bg.
  destruct (spawn_ok P _); [|discriminate]. intros [= <- _]. reflexivity.
Qed.

Lemma call_then_browser_Return P arr file t u :
  (mysubprocess.call P arr >> delayed_browser P file) = (t, Return u) ->
  t = [Ev_call arr; Ev_popen (browser_cmd false file)].
Proof.
  intros H. apply bind_Return_inv in H.
  destruct H as (ta & a & tb & Ha & Hb & ->).
  apply call_Return in Ha. apply delayed_browser_Return in Hb. subst. reflexivity.
Qed.

(** The two ways in which the branch for [application] parts ends normally. *)
Lemma handle_application_Return P partfile part t u :
  handle_application P partfile part = (t, Return u) ->
  (is_word_subtype (Email.get_content_subtype part) = true
   /\ t = [Ev_call ["unoconv"; "-f"; "html"; "-T"; Prefs.UNOCONV_STARTUP_TIME;
                    "-o"; fst (PosixPath.splitext partfile) +:+ ".html"; partfile];
           Ev_popen (browser_cmd false
                       (fst (PosixPath.splitext partfile) +:+ ".html"))])
  \/ (Email.get_content_subtype part = "pdf"
      /\ t = [Ev_call ["pdftohtml"; "-s"; partfile];
              Ev_popen (browser_cmd false
                          (fst (PosixPath.splitext partfile) +:+ "-html.html"))]).
Proof.
  unfold handle_application, is_word_subtype.
  change Prefs.USE_WVHTML_FOR_DOC with false. rewrite andb_false_r.
  destruct (_ || _).
  - intros H. apply call_then_browser_Return in H. left. auto.
  - intros H. right. apply bind_Return_inv in H.
    destruct H as (ta & pf & tb & Ha & Hb & ->).
    unfold show_pdf in Hb.
    destruct (String.eqb_spec (Email.get_content_subtype part) "pdf") as [Hpdf|];
      [|discriminate].
    split; [exact Hpdf|].
    rewrite Hpdf in Ha. cbn in Ha. injection Ha as <- <-.
    rewrite bind_ret_l in Hb. change Prefs.CONVERT_PDF_TO_HTML with true in Hb.
    apply call_then_browser_Return in Hb. subst tb. reflexivity.
Qed.

Lemma handle_all_Return P (l : subfiles_t) : forall u t u',
  for_each (fun _ entry => handle_application P entry.2.1 entry.2.2) l u
  = (t, Return u') ->
  (forall entry, entry ∈ l ->
     is_word_subtype (Email.get_content_subtype entry.2.2)
     || String.eqb (Email.get_content_subtype entry.2.2) "pdf" = true)
  /\ length (popens t) = length l
  /\ length (calls t) = length l
  /\ opened t = [].
Proof.
  induction l as [|entry l IH]; intros u t u' Hrun.
  - cbn in Hrun. injection Hrun as <- <-.
    split; [intros e He; inversion He|]. auto.
  - apply for_each_cons_inv in Hrun.
    destruct Hrun as (ta & ua & tb & Hstep & Hrest & ->).
    destruct (IH _ _ _ Hrest) as (Hall & Hp & Hc & Ho).
    rewrite popens_app, calls_app, opened_app, !length_app, Hp, Hc, Ho.
    apply handle_application_Return in Hstep.
    split.
    { intros e He. apply elem_of_cons in He. destruct He as [->|He]; [|auto].
      destruct Hstep as [[-> _]|[-> _]]; [reflexivity|apply orb_true_r]. }
    destruct Hstep as [[_ ->]|[_ ->]]; auto.
Qed.

Lemma extract_complete P tmpdir parts : forall st t st',
  for_each (extract_part P tmpdir) parts st = (t, Return st') ->
  popens t = [] /\ calls t = []
  /\ length (opened t) = length (omap Email.get_payload_decoded parts).
Proof.
  induction parts as [|part parts IH]; intros st t st' Hrun.
  - cbn in Hrun. injection Hrun as <- <-. auto.
  - apply for_each_cons_inv in Hrun.
    destruct Hrun as (t1 & st1 & t2 & Hstep & Hrest & ->).
    destruct (IH _ _ _ Hrest) as (Hp & Hc & Ho).
    rewrite popens_app, calls_app, opened_app, Hp, Hc, length_app, Ho.
    destruct part as [i data|i ps].
    + apply extract_part_leaf_Return in Hstep. destruct Hstep as [-> _]. auto.
    + rewrite extract_part_container in Hstep by reflexivity.
      injection Hstep as <- <-. auto.
Qed.

(** X11. In a run that completes, every attachment of the index that is of
    main type [application] and was not embedded is a Word or OpenDocument
    text or a PDF; the viewer is started once for each HTML part and once
    for each such attachment; one conversion is run for each such
    attachment; and one file is opened for each leaf part and one for each
    HTML part. *)
Theorem complete_run_shows_each_part_once P tmpdir msg t1 ex t2 rw :
  extract_parts P tmpdir msg = (t1, Return ex) ->
  show_html_parts P tmpdir (subfiles ex) (html_parts ex) = (t2, Return rw) ->
  completes (view_message P tmpdir (Some msg)) = true ->
  let t := trace (view_message P tmpdir (Some msg)) in
  let shown := List.filter (to_handle (embedded_parts rw)) (subfiles ex) in
  (forall entry, entry ∈ shown ->
     is_word_subtype (Email.get_content_subtype entry.2.2)
     || String.eqb (Email.get_content_subtype entry.2.2) "pdf" = true)
  /\ length (popens t) = length (html_parts ex) + length shown
  /\ length (calls t) = length shown
  /\ length (opened t) = length (payloads msg) + length (html_parts ex).
Proof.
  intros Hex Hrw Hc t shown. subst t.
  rewrite view_message_Some, Hex in Hc |- *.
  rewrite bind_Return_l in Hc |- *. rewrite Hrw in Hc |- *.
  rewrite bind_Return_l in Hc |- *. rewrite dispatch_parts_filter in Hc |- *.
  fold shown in Hc |- *.
  cbn [trace result fst snd completes] in Hc |- *.
  destruct (for_each _ shown tt) as [t3 [u|]] eqn:Hd; try discriminate.
  cbn [trace fst].
  destruct (handle_all_Return P _ _ _ _ Hd) as (Hall & Hp3 & Hc3 & Ho3).
  destruct (extract_complete P tmpdir _ _ _ _ Hex) as (Hp1 & Hc1 & Ho1).
  destruct (show_html_parts_complete P tmpdir _ _ _ _ _ Hrw) as (Ho2 & Hp2 & Hc2 & _).
  split; [exact Hall|].
  rewrite !popens_app, !calls_app, !opened_app, !length_app.
  rewrite Hp1, Hc1, Hc2, Ho3, Hp3, Hc3, Ho1, Hp2, Ho2.
  rewrite length_map, length_seq. fold (payloads msg).
  repeat split; cbn [length]; try lia.
  destruct (html_parts ex) as [|p ps]; cbn [length]; [lia|].
  rewrite length_map, length_seq. lia.
Qed.

(** An instance: an HTML body, a Word document and a PDF. *)
Lemma complete_run_witness :
  length (popens (trace (view_message (Samples.quiet MoreSamples.msg_documents)
                           "/tmp/w" (Some MoreSamples.msg_documents)))) = 3
  /\ calls (trace (view_message (Samples.quiet MoreSamples.msg_documents)
                     "/tmp/w" (Some MoreSamples.msg_documents)))
     = [["unoconv"; "-f"; "html"; "-T"; "14"; "-o"; "/tmp/w/report.html";
         "/tmp/w/report.doc"];
        ["pdftohtml"; "-s"; "/tmp/w/paper.pdf"]].
Proof.
  destruct (extract_parts (Samples.quiet MoreSamples.msg_documents) "/tmp/w"
              MoreSamples.msg_documents) as [t1 [ex|]] eqn:Hex;
    try (vm_compute in Hex; discriminate).
  destruct (show_html_parts (Samples.quiet MoreSamples.msg_documents) "/tmp/w"
              (subfiles ex) (html_parts ex)) as [t2 [rw|]] eqn:Hrw;
    try (vm_compute in Hex; injection Hex as <- <-; vm_compute in Hrw; discriminate).
  destruct (complete_run_shows_each_part_once _ _ _ _ _ _ _ Hex Hrw)
    as (_ & Hp & _).
  - vm_compute. reflexivity.
  - split; [|vm_compute; reflexivity].
    rewrite Hp. vm_compute in Hex. injection Hex as <- <-.
    vm_compute in Hrw. injection Hrw as <- <-. vm_compute. reflexivity.
Defined.

(** ** The attachments that stop the run *)

(** X12. An attachment of the index that is of main type [application], was
    not embedded, and is neither a PDF nor a Word or OpenDocument text,
    stops the run with [NameError]: the name [pdf] in
    [partfile.endswith(pdf)] is bound nowhere. The viewer is not started for
    it; slides are converted to PDF first, and the PDF is never shown. *)
Theorem other_application_subtypes_raise_NameError
    P embedded u sfid partfile part :
  sfid ∉ embedded ->
  Email.get_content_maintype part = "application" ->
  String.eqb (Email.get_content_subtype part) "pdf" = false ->
  is_word_subtype (Email.get_content_subtype part) = false ->
  let run := dispatch_part P embedded u (sfid, (partfile, part)) in
  popens (trace run) = []
  /\ (forall v, result run <> Return v)
  /\ (is_presentation_subtype (Email.get_content_subtype part) = false ->
      run = ([], Raise NameError))
  /\ (is_presentation_subtype (Email.get_content_subtype part) = true ->
      run = if spawn_ok P "unoconv"
            then ([Ev_call ["unoconv"; "-f"; "pdf"; "-o";
                            fst (PosixPath.splitext partfile) +:+ ".pdf";
                            partfile]],
                  Raise NameError)
            else ([], Raise OSError)).
Proof.
  intros Hemb Hmain Hpdf Hword run. subst run.
  unfold dispatch_part. rewrite bool_decide_false by exact Hemb.
  rewrite Hmain. cbn [String.eqb Ascii.eqb Bool.eqb andb].
  unfold handle_application.
  change Prefs.USE_WVHTML_FOR_DOC with false. rewrite andb_false_r.
  unfold is_word_subtype in Hword. rewrite Hword.
  unfold convert_presentation, show_pdf, is_presentation_subtype.
  rewrite Hpdf. clear Hword.
  destruct (_ || _).
  - unfold mysubprocess.call. cbn [mysubprocess.program].
    destruct (spawn_ok P "unoconv"); cbn;
      (split; [reflexivity|]); (split; [discriminate|]);
      (split; [discriminate|reflexivity]).
  - cbn. split; [reflexivity|]. split; [discriminate|].
    split; [reflexivity|discriminate].
Qed.

(** An instance: an archive stops the run once it is saved. *)
Lemma other_application_witness :
  view_message (Samples.quiet MoreSamples.zip_with_id) "/tmp/w"
    (Some MoreSamples.zip_with_id)
  = ([Ev_open "/tmp/w/files.zip"; Ev_write "/tmp/w/files.zip" "ZIP"],
     Raise NameError)
  /\ dispatch_part (Samples.quiet MoreSamples.slides_with_id) [] tt
       ("s@x", ("/tmp/w/talk.ppt", MoreSamples.slides_with_id))
     = ([Ev_call ["unoconv"; "-f"; "pdf"; "-o"; "/tmp/w/talk.pdf";
                  "/tmp/w/talk.ppt"]],
        Raise NameError).
Proof.
  split; [vm_compute; reflexivity|].
  destruct (other_application_subtypes_raise_NameError
              (Samples.quiet MoreSamples.slides_with_id) [] tt
              "s@x" "/tmp/w/talk.ppt" MoreSamples.slides_with_id)
    as (_ & _ & _ & H).
  - set_solver.
  - reflexivity.
  - reflexivity.
  - reflexivity.
  - rewrite H by reflexivity. reflexivity.
Defined.

(** ** The messages of which nothing is shown *)

Lemma for_each_all_ret {A} (body : unit -> A -> io unit) (l : list A) :
  (forall x, x ∈ l -> body tt x = ret tt) -> for_each body l tt = ret tt.
Proof.
  induction l as [|x l IH]; intros H; [reflexivity|].
  cbn [for_each]. rewrite (H x) by left. rewrite bind_ret_l.
  apply IH. intros y Hy. apply H. right. exact Hy.
Qed.

Lemma trace_then_ret {A} (m : io A) : trace (m >> ret tt) = trace m.
Proof.
  destruct m as [t [a|]]; cbn; [apply app_nil_r|reflexivity..].
Qed.

Lemma extract_calls P tmpdir parts : forall st,
  calls (trace (for_each (extract_part P tmpdir) parts st)) = [].
Proof.
  induction parts as [|part parts IH]; intros st; [reflexivity|].
  cbn [for_each]. rewrite trace_bind, calls_app.
  assert (H : calls (trace (extract_part P tmpdir st part)) = []).
  { unfold extract_part. destruct (_ || _); [reflexivity|].
    unfold open_wb, fp_write.
    destruct (open_wb_ok P _); [|reflexivity].
    destruct (Email.get_payload_decoded part); [|reflexivity].
    destruct (write_ok P _); reflexivity. }
  rewrite H. destruct (result _); [apply IH|reflexivity..].
Qed.

(** X13. A message without HTML part, and whose parts of main type
    [application] carry no Content-ID, is saved and nothing else happens:
    the run is the extraction alone, the viewer is never started and no
    conversion is run. An image or a text attached to such a message is
    never shown. *)
Theorem message_without_html_is_only_saved P tmpdir msg :
  forallb (fun p => negb (can_be_shown p)) (leaves msg) = true ->
  view_message P tmpdir (Some msg) = (extract_parts P tmpdir msg >> ret tt)
  /\ popens (trace (view_message P tmpdir (Some msg))) = []
  /\ calls (trace (view_message P tmpdir (Some msg))) = [].
Proof.
  intros Hno. rewrite forallb_forall in Hno.
  assert (Hleaf : forall p, p ∈ Email.walk msg -> Email.is_multipart p = false ->
                            can_be_shown p = false).
  { intros p Hp Hl. apply negb_true_iff, Hno, list_elem_of_In, leaves_elem; assumption. }
  assert (Heq : view_message P tmpdir (Some msg)
                = (extract_parts P tmpdir msg >> ret tt)).
  { rewrite view_message_Some.
    destruct (extract_parts P tmpdir msg) as [t1 [ex|]] eqn:Hex; [|reflexivity..].
    assert (Hhtml : html_parts ex = []).
    { rewrite (extract_html_parts P tmpdir _ _ _ _ Hex). cbn [html_parts extractor_init app].
      apply existsb_filter_nil. apply not_true_is_false. intros H.
      apply existsb_exists in H. destruct H as (p & Hp & Hh).
      unfold is_html_leaf in Hh. apply andb_prop in Hh. destruct Hh as [Hl Hh].
      apply negb_true_iff in Hl.
      pose proof (Hleaf p (proj2 (list_elem_of_In _ _) Hp) Hl) as Hs.
      unfold can_be_shown in Hs. rewrite Hh in Hs. discriminate. }
    assert (Hdisp : forall emb, dispatch_parts P emb (subfiles ex) = ret tt).
    { intros emb. apply for_each_all_ret. intros [sfid [partfile part]] Hin.
      destruct (extract_subfiles P tmpdir _ _ _ _ Hex _ _ _ Hin)
        as [Hbad|(Hp & Hl & Hid & Hne)]; [inversion Hbad|].
      pose proof (Hleaf part Hp Hl) as Hs.
      unfold can_be_shown in Hs. apply orb_false_elim in Hs. destruct Hs as [_ Hs].
      rewrite Hid in Hs. destruct sfid as [|c s]; [congruence|].
      cbn [Py.truthy] in Hs. rewrite andb_true_r in Hs.
      unfold dispatch_part. rewrite Hs. destruct (bool_decide _); reflexivity. }
    assert (Hrest : (let* rw := show_html_parts P tmpdir (subfiles ex) (html_parts ex) in
                     dispatch_parts P (embedded_parts rw) (subfiles ex)) = ret tt).
    { rewrite Hhtml. unfold show_html_parts. cbn [for_each].
      rewrite bind_ret_l. apply Hdisp. }
    rewrite !bind_Return_l. cbn beta. rewrite Hrest. reflexivity. }
  split; [exact Heq|]. rewrite Heq.
  rewrite trace_then_ret.
  split.
  - apply extract_popens.
  - apply extract_calls.
Qed.

(** An instance: a text with an image attached. *)
Lemma message_without_html_witness :
  view_message (Samples.quiet MoreSamples.text_and_image) "/tmp/w"
    (Some MoreSamples.text_and_image)
  = ([Ev_open "/tmp/w/a.txt"; Ev_write "/tmp/w/a.txt" "A";
      Ev_open "/tmp/w/cidimg1.png"; Ev_write "/tmp/w/cidimg1.png" "PNG1"],
     Return tt)
  /\ popens (trace (view_message (Samples.quiet MoreSamples.text_and_image)
                      "/tmp/w" (Some MoreSamples.text_and_image))) = [].
Proof.
  split; [vm_compute; reflexivity|].
  apply (message_without_html_is_only_saved
           (Samples.quiet MoreSamples.text_and_image) "/tmp/w"
           MoreSamples.text_and_image).
  vm_compute. reflexivity.
Defined.

(** ** The file that a maildir is read from *)

(** The visible files of one triple of the walk. *)
Lemma first_in_walk_head w :
  first_in_walk w
  = head (flat_map (fun x : string * list string * list string =>
                      map (PosixPath.join x.1.1)
                        (List.filter (fun f => negb (Py.startswith f ".")) x.2))
            w).
Proof.
  induction w as [|[[root dirs] files] w IH]; [reflexivity|].
  cbn [first_in_walk flat_map fst snd]. rewrite IH. unfold first_non_dotfile.
  induction files as [|f files IHf]; [reflexivity|].
  cbn [find List.filter]. destruct (negb (Py.startswith f ".")); [reflexivity|].
  exact IHf.
Qed.

Lemma flat_map_flat_map {A B C} (f : B -> list C) (g : A -> list B) (l : list A) :
  flat_map f (flat_map g l) = flat_map (fun a => flat_map f (g a)) l.
Proof.
  induction l as [|a l IH]; [reflexivity|].
  cbn [flat_map]. rewrite flat_map_app, IH. reflexivity.
Qed.

Lemma flat_map_ext_Forall {A B} (f g : A -> list B) (l : list A) :
  Forall (fun a => f a = g a) l -> flat_map f l = flat_map g l.
Proof.
  induction 1 as [|a l Ha _ IH]; [reflexivity|].
  cbn [flat_map]. rewrite Ha, IH. reflexivity.
Qed.

Lemma walk_below_visible e : forall top,
  flat_map (fun x : string * list string * list string =>
              map (PosixPath.join x.1.1)
                (List.filter (fun f => negb (Py.startswith f ".")) x.2))
    (Os.walk_below top e)
  = visible_below top e.
Proof.
  induction e as [n|n es IH] using dirent_nested_ind; intros top; [reflexivity|].
  cbn [Os.walk_below visible_below flat_map fst snd].
  fold (visible_in (PosixPath.join top n) es). f_equal.
  rewrite flat_map_flat_map. apply flat_map_ext_Forall.
  eapply Forall_impl; [exact IH|]. intros e He. apply He.
Qed.

Lemma find_first_maildir_file_head P maildir :
  find_first_maildir_file P maildir = head (visible_files P maildir).
Proof.
  unfold find_first_maildir_file, visible_files, Os.walk.
  rewrite first_in_walk_head.
  destruct (directory P maildir) as [es|]; [|reflexivity].
  cbn [flat_map fst snd]. fold (visible_in maildir es). f_equal. f_equal.
  rewrite flat_map_flat_map. apply flat_map_ext_Forall.
  apply Forall_forall. intros e _. apply walk_below_visible.
Qed.

Lemma visible_in_nil root es :
  visible_in root es = [] ->
  forall n, File n ∈ es -> Py.startswith n "." = true.
Proof.
  unfold visible_in, Os.files_of. intros H n Hn.
  destruct (Py.startswith n ".") eqn:E; [reflexivity|]. exfalso.
  apply map_eq_nil in H.
  assert (Hin : In n (List.filter (fun f => negb (Py.startswith f "."))
                        (map Os.name_of
                           (List.filter (fun e => negb (Os.is_dir e)) es)))).
  { apply filter_In. split; [|rewrite E; reflexivity].
    apply in_map_iff. exists (File n). split; [reflexivity|].
    apply filter_In. split; [apply list_elem_of_In, Hn|reflexivity]. }
  rewrite H in Hin. exact Hin.
Qed.

Lemma flat_map_nil_elem {A B} (f : A -> list B) (l : list A) a :
  flat_map f l = [] -> a ∈ l -> f a = [].
Proof.
  induction l as [|x l IH]; intros H Ha; [inversion Ha|].
  cbn [flat_map] in H. apply app_eq_nil in H. destruct H as [Hx Hl].
  apply elem_of_cons in Ha. destruct Ha as [->|Ha]; auto.
Qed.

Lemma visible_nil_hidden root es :
  Forall (fun e => forall top, visible_below top e = [] -> Os.is_dir e = true ->
                               all_hidden e = true) es ->
  (visible_in root es ++ flat_map (visible_below root) es)%list = [] ->
  forallb all_hidden es = true.
Proof.
  intros IH H. apply app_eq_nil in H. destruct H as [Hfiles Hdirs].
  apply forallb_forall. intros e He. apply list_elem_of_In in He.
  destruct e as [n|n es'].
  - apply (visible_in_nil root es Hfiles n He).
  - rewrite Forall_forall in IH. apply (IH _ He root); [|reflexivity].
    apply (flat_map_nil_elem _ _ _ Hdirs He).
Qed.

Lemma visible_below_nil e : forall top,
  visible_below top e = [] -> Os.is_dir e = true -> all_hidden e = true.
Proof.
  induction e as [n|n es IH] using dirent_nested_ind; intros top H Hd;
    [discriminate|].
  cbn [visible_below] in H. cbn [all_hidden].
  apply (visible_nil_hidden _ _ IH H).
Qed.

Lemma load_message_maildir P f es path :
  f <> "" ->
  directory P f = Some es ->
  find_first_maildir_file P f = Some path ->
  load_message P f
  = match file_content P path with
    | None => raise OSError
    | Some data =>
        match text_decode P data with
        | None => raise UnicodeDecodeError
        | Some text => ret (Some (message_from_string P text))
        end
    end.
Proof.
  intros Hf Hdir Hfind. unfold load_message, Os.isdir, Os.listdir.
  destruct (String.eqb_spec f ""); [contradiction|]. cbn [negb].
  rewrite Hdir, Hfind.
  destruct es as [|e es]; [|reflexivity].
  unfold find_first_maildir_file, Os.walk in Hfind. rewrite Hdir in Hfind.
  discriminate.
Qed.

(** X14. For a maildir, [find_first_maildir_file] answers the first file
    whose name does not start with a dot, in the order of the walk: the
    files of a directory come before those of its subdirectories, and a
    directory whose name starts with a dot is searched like any other. It
    answers [None] exactly when there is no such file at any depth. The
    message of the maildir is that file, read as text and parsed by
    [email.message_from_string]: loading it ends with [OSError] when the
    file cannot be opened, and with [UnicodeDecodeError] when its bytes are
    no text. *)
Theorem find_first_maildir_file_is_first_visible P maildir es :
  directory P maildir = Some es ->
  find_first_maildir_file P maildir = head (visible_files P maildir)
  /\ (find_first_maildir_file P maildir = None <-> forallb all_hidden es = true)
  /\ (forall f, first_non_dotfile (Os.files_of es) = Some f ->
        find_first_maildir_file P maildir = Some (PosixPath.join maildir f))
  /\ (forall path, maildir <> "" ->
        find_first_maildir_file P maildir = Some path ->
        load_message P maildir
        = match file_content P path with
          | None => raise OSError
          | Some data =>
              match text_decode P data with
              | None => raise UnicodeDecodeError
              | Some text => ret (Some (message_from_string P text))
              end
          end).
Proof.
  intros Hdir. split; [apply find_first_maildir_file_head|].
  split; [|split].
  - split; [|apply find_first_maildir_file_hidden; exact Hdir].
    rewrite find_first_maildir_file_head. unfold visible_files. rewrite Hdir.
    intros H. apply (visible_nil_hidden maildir).
    + apply Forall_forall. intros e _ top. apply visible_below_nil.
    + destruct (_ ++ _)%list; [reflexivity|discriminate].
  - intros f Hf. unfold find_first_maildir_file, Os.walk. rewrite Hdir.
    cbn [first_in_walk]. rewrite Hf. reflexivity.
  - intros path Hne Hfind. apply (load_message_maildir P maildir es path); assumption.
Qed.

(** An instance: the first file lies in the directory [.cache]. *)
Lemma find_first_maildir_file_witness :
  find_first_maildir_file (MoreSamples.dotted_maildir Samples.single_html)
    "/tmp/mutttmpbox"
  = Some "/tmp/mutttmpbox/.cache/1"
  /\ visible_files (MoreSamples.dotted_maildir Samples.single_html)
       "/tmp/mutttmpbox"
     = ["/tmp/mutttmpbox/.cache/1"; "/tmp/mutttmpbox/cur/2"].
Proof.
  destruct (find_first_maildir_file_is_first_visible
              (MoreSamples.dotted_maildir Samples.single_html) "/tmp/mutttmpbox"
              [Dir ".cache" [File "1"]; Dir "cur" [File "2"]])
    as (H & _).
  - reflexivity.
  - split; [rewrite H|]; vm_compute; reflexivity.
Defined.

(** ** The HTML text that refers to no part *)






(** ** The script run as a program *)

Lemma stdin_path_not_empty tmpdir : String.eqb (tmpdir +:+ "/.stdin") "" = false.
Proof. destruct tmpdir; reflexivity. Qed.

Lemma view_stdin_copy P tmpdir data :
  view_html_message (with_file (stdin_consumed P) (tmpdir +:+ "/.stdin") data)
    (tmpdir +:+ "/.stdin") tmpdir
  = view_message P tmpdir (Some (bytes_parser_parse P data)).
Proof.
  unfold view_html_message, load_message.
  rewrite stdin_path_not_empty. cbn [negb].
  unfold Os.isdir. cbn [directory file_content with_file stdin_consumed].
  rewrite String.eqb_refl, bind_ret_l. reflexivity.
Qed.

(** X16. Run without argument, the program creates the file [.stdin] of the
    working directory, reads the standard input as text, writes that text to
    the file and then views the file. When the file cannot be created the
    run ends with [OSError] and nothing has happened. When the standard
    input is no text the run ends with [UnicodeDecodeError], and when the
    text cannot be encoded for the file with [UnicodeEncodeError]: in both
    cases the file has been created and nothing is written to it. When the
    writing fails the run ends with [OSError]. Otherwise the message viewed
    is the one that [BytesParser] makes of the bytes written, never the one
    of [email.message_from_string], and the run goes on as for that
    message. *)
Theorem main_without_argument_views_a_copy P text_encode tmpdir argv :
  length argv <= 1 ->
  let stdin := tmpdir +:+ "/.stdin" in
  (open_wb_ok P stdin = false ->
   main P text_encode tmpdir argv = ([], Raise OSError))
  /\ (open_wb_ok P stdin = true -> stdin_text P = None ->
      main P text_encode tmpdir argv
      = ([Ev_open stdin], Raise UnicodeDecodeError)
      /\ disk_after (trace (main P text_encode tmpdir argv)) !! stdin = Some "")
  /\ (forall text,
        open_wb_ok P stdin = true -> stdin_text P = Some text ->
        text_encode text = None ->
        main P text_encode tmpdir argv
        = ([Ev_open stdin], Raise UnicodeEncodeError)
        /\ disk_after (trace (main P text_encode tmpdir argv)) !! stdin = Some "")
  /\ (forall text data,
        open_wb_ok P stdin = true -> stdin_text P = Some text ->
        text_encode text = Some data -> write_ok P stdin = false ->
        main P text_encode tmpdir argv = ([Ev_open stdin], Raise OSError))
  /\ (forall text data,
        open_wb_ok P stdin = true -> stdin_text P = Some text ->
        text_encode text = Some data -> write_ok P stdin = true ->
        main P text_encode tmpdir argv
        = ((Ev_open stdin :: Ev_write stdin data
            :: trace (view_message P tmpdir (Some (bytes_parser_parse P data))))%list,
           result (view_message P tmpdir (Some (bytes_parser_parse P data))))).
Proof.
  intros Hlen stdin.
  assert (Hmain : main P text_encode tmpdir argv
                  = (open_wb P stdin >>
                     match stdin_text P with
                     | None => raise UnicodeDecodeError
                     | Some text =>
                         match text_encode text with
                         | None => raise UnicodeEncodeError
                         | Some data =>
                             fp_write P stdin data >>
                             view_message P tmpdir
                               (Some (bytes_parser_parse P data))
                         end
                     end)).
  { unfold main. destruct (Nat.ltb_spec 1 (length argv)) as [Hgt|_]; [lia|].
    fold stdin. destruct (stdin_text P) as [text|]; [|reflexivity].
    destruct (text_encode text) as [data|]; [|reflexivity].
    unfold stdin. rewrite view_stdin_copy. reflexivity. }
  rewrite Hmain. unfold open_wb, fp_write.
  split; [|split; [|split; [|split]]].
  - intros ->. reflexivity.
  - intros -> ->. split; [reflexivity|].
    cbn. apply lookup_insert_eq.
  - intros text -> -> ->. split; [reflexivity|].
    cbn. apply lookup_insert_eq.
  - intros text data -> -> -> ->. reflexivity.
  - intros text data -> -> -> ->. cbn [emit bind].
    destruct (view_message P tmpdir _) as [t o]. reflexivity.
Qed.

(** An instance: an HTML body piped to the program, and a standard input
    that is no text. *)
Lemma main_without_argument_witness :
  main (Samples.quiet Samples.single_html) Some "/tmp/w" ["viewhtmlmail"]
  = ([Ev_open "/tmp/w/.stdin"; Ev_write "/tmp/w/.stdin" "";
      Ev_open "/tmp/w/part-001.html";
      Ev_write "/tmp/w/part-001.html" "<p>hello</p>";
      Ev_open "/tmp/w/viewhtml00.html";
      Ev_write "/tmp/w/viewhtml00.html" "<p>hello</p>";
      Ev_popen (browser_cmd true "/tmp/w/viewhtml00.html")],
     Return tt)
  /\ main (MoreSamples.binary_stdin Samples.single_html) Some "/tmp/w"
       ["viewhtmlmail"]
     = ([Ev_open "/tmp/w/.stdin"], Raise UnicodeDecodeError).
Proof.
  split.
  - destruct (main_without_argument_views_a_copy
                (Samples.quiet Samples.single_html) Some "/tmp/w"
                ["viewhtmlmail"]) as (_ & _ & _ & _ & H).
    + cbn. lia.
    + rewrite (H "" "") by reflexivity. vm_compute. reflexivity.
  - destruct (main_without_argument_views_a_copy
                (MoreSamples.binary_stdin Samples.single_html) Some "/tmp/w"
                ["viewhtmlmail"]) as (_ & H & _).
    + cbn. lia.
    + destruct H as [H _]; [reflexivity..|exact H].
Defined.

Lemma bind_bind_ret {A B C} (m : io A) (b : B) (k : B -> io C) :
  bind (bind m (fun _ => ret b)) k = bind m (fun _ => k b).
Proof.
  destruct m as [t [a|e]]; cbn; [|reflexivity..].
  destruct (k b). rewrite app_nil_r. reflexivity.
Qed.

Lemma bind_ret_r_unit (m : io unit) : (m >> ret tt) = m.
Proof.
  destruct m as [t [[]|]]; cbn; [rewrite app_nil_r|..]; reflexivity.
Qed.

Lemma for_each_two {A S} (body : S -> A -> io S) x y s :
  (for_each body [x; y] s >> ret tt)
  = bind (body s x) (fun s' => body s' y >> ret tt).
Proof.
  cbn [for_each]. destruct (body s x) as [t [s'|e]]; cbn [bind]; [|reflexivity..].
  destruct (body s' y) as [t2 [s2|e]]; cbn; rewrite ?app_nil_r; reflexivity.
Qed.

Lemma view_message_first_page P tmpdir msg :
  completes (view_message P tmpdir (Some msg)) = true ->
  existsb is_html_leaf (Email.walk msg) = true ->
  exists ta T tb,
    trace (view_message P tmpdir (Some msg))
    = (ta ++ [Ev_open (htmlfile_name tmpdir 0);
              Ev_write (htmlfile_name tmpdir 0) T;
              Ev_popen (browser_cmd true (htmlfile_name tmpdir 0))] ++ tb)%list.
Proof.
  intros Hc Hhtml. rewrite view_message_Some in Hc |- *.
  destruct (extract_parts P tmpdir msg) as [t1 [ex|]] eqn:Hex; try discriminate.
  rewrite bind_Return_l in Hc |- *. cbn beta in Hc |- *.
  destruct (show_html_parts P tmpdir (subfiles ex) (html_parts ex))
    as [t2 [rw|]] eqn:Hrw; try discriminate.
  rewrite bind_Return_l. cbn [trace fst].
  pose proof (extract_html_parts P tmpdir _ _ _ _ Hex) as Hparts.
  cbn [html_parts extractor_init app] in Hparts.
  destruct (html_parts ex) as [|p ps] eqn:Hp.
  { symmetry in Hparts. apply existsb_filter_nil in Hparts. congruence. }
  unfold show_html_parts in Hrw. apply for_each_cons_inv in Hrw.
  destruct Hrw as (ta & rw1 & tb & Hstep & Hrest & ->).
  apply show_html_part_complete in Hstep.
  destruct Hstep as (data & T & _ & _ & -> & _).
  cbn [rewriter_init next_index first_browser].
  exists t1, (str_encode P T), (tb ++ trace (dispatch_parts P (embedded_parts rw) (subfiles ex)))%list.
  rewrite <- !app_assoc. reflexivity.
Qed.

(** X17. The messages given as arguments are viewed one after the other in
    the same working directory, and each of them starts again at
    [viewhtml00.html] with the first-call arguments: when two messages with
    an HTML part are viewed in a run that completes, the page of the first
    one is opened again, and so emptied, for the second one, after the
    viewer has been started on it without being waited for. *)
Theorem second_message_replaces_the_first_page
    P text_encode tmpdir prog f1 f2 m1 m2 :
  f1 <> "" ->
  load_message P f1 = ret (Some m1) ->
  load_message P f2 = ret (Some m2) ->
  existsb is_html_leaf (Email.walk m1) = true ->
  existsb is_html_leaf (Email.walk m2) = true ->
  completes (main P text_encode tmpdir [prog; f1; f2]) = true ->
  main P text_encode tmpdir [prog; f1; f2]
  = (view_message P tmpdir (Some m1) >> view_message P tmpdir (Some m2))
  /\ exists ta T1 tb T2 tc,
       trace (main P text_encode tmpdir [prog; f1; f2])
       = (ta ++ [Ev_open (htmlfile_name tmpdir 0);
                 Ev_write (htmlfile_name tmpdir 0) T1;
                 Ev_popen (browser_cmd true (htmlfile_name tmpdir 0))]
             ++ tb
             ++ [Ev_open (htmlfile_name tmpdir 0);
                 Ev_write (htmlfile_name tmpdir 0) T2;
                 Ev_popen (browser_cmd true (htmlfile_name tmpdir 0))]
             ++ tc)%list.
Proof.
  intros Hf1 Hl1 Hl2 Hh1 Hh2 Hc.
  assert (Hmain : main P text_encode tmpdir [prog; f1; f2]
                  = (view_message P tmpdir (Some m1) >>
                     view_message P tmpdir (Some m2))).
  { assert (Ha1 : view_argument tmpdir P f1
                  = (view_message P tmpdir (Some m1) >> ret P)).
    { unfold view_argument, view_html_message. rewrite Hl1, bind_ret_l.
      destruct (String.eqb_spec f1 ""); [contradiction|reflexivity]. }
    assert (Ha2 : (view_argument tmpdir P f2 >> ret tt)
                  = view_message P tmpdir (Some m2)).
    { unfold view_argument, view_html_message. rewrite Hl2, bind_ret_l.
      rewrite bind_bind_ret. apply bind_ret_r_unit. }
    unfold main. cbn [length Nat.ltb Nat.leb skipn].
    rewrite for_each_two, Ha1, bind_bind_ret. cbn beta. rewrite Ha2.
    reflexivity. }
  split; [exact Hmain|]. rewrite Hmain in Hc |- *.
  unfold completes in Hc. rewrite result_bind in Hc. rewrite trace_bind.
  destruct (result (view_message P tmpdir (Some m1))) as [[]|] eqn:Hr1;
    try discriminate.
  destruct (view_message_first_page P tmpdir m1) as (ta & T1 & tb & ->);
    [unfold completes; rewrite Hr1; reflexivity|exact Hh1|].
  destruct (view_message_first_page P tmpdir m2) as (tc & T2 & td & ->);
    [exact Hc|exact Hh2|].
  exists ta, T1, (tb ++ tc)%list, T2, td.
  rewrite <- !app_assoc. reflexivity.
Qed.

(** An instance: the same HTML body given twice. *)
Lemma second_message_witness :
  opened (trace (main (Samples.quiet Samples.single_html) Some "/tmp/w"
                   ["viewhtmlmail"; "a.eml"; "b.eml"]))
  = ["/tmp/w/part-001.html"; "/tmp/w/viewhtml00.html";
     "/tmp/w/part-001.html"; "/tmp/w/viewhtml00.html"].
Proof.
  destruct (second_message_replaces_the_first_page
              (Samples.quiet Samples.single_html) Some "/tmp/w"
              "viewhtmlmail" "a.eml" "b.eml" Samples.single_html Samples.single_html)
    as (H & _).
  - discriminate.
  - reflexivity.
  - reflexivity.
  - reflexivity.
  - reflexivity.
  - vm_compute. reflexivity.
  - rewrite H. vm_compute. reflexivity.
Defined.

(** ** The names that the script makes up *)

Lemma startswith_app (a b pre : string) :
  Py.startswith a pre = true -> Py.startswith (a +:+ b) pre = true.
Proof.
  revert a. induction pre as [|c pre IH]; intros a H; [apply startswith_nil|].
  destruct a as [|x a]; [discriminate|].
  cbn [Py.startswith String.append] in *. apply andb_prop in H.
  destruct H as [-> H]. cbn [andb]. apply IH, H.
Qed.

Lemma startswith_self_app (pre b : string) : Py.startswith (pre +:+ b) pre = true.
Proof.
  induction pre as [|c pre IH]; [apply startswith_nil|].
  cbn [Py.startswith String.append]. rewrite Ascii.eqb_refl. exact IH.
Qed.

(** A character of [p] that lies inside a prefix of [p] is a character of
    that prefix. *)
Lemma drop_inside_prefix (pre : string) : forall p d c rest,
  Py.startswith p pre = true ->
  d < String.length pre ->
  Py.drop d p = String c rest ->
  Py.char_in c pre = true.
Proof.
  induction pre as [|a pre IH]; intros p d c rest Hp Hd Hdrop;
    [cbn in Hd; lia|].
  destruct p as [|x p]; [discriminate|].
  cbn [Py.startswith] in Hp. apply andb_prop in Hp. destruct Hp as [Hx Hp].
  apply Ascii.eqb_eq in Hx. subst x.
  destruct d as [|d].
  - cbn [Py.drop] in Hdrop. injection Hdrop as -> _.
    cbn [Py.char_in]. rewrite Ascii.eqb_refl. reflexivity.
  - cbn [Py.drop] in Hdrop. cbn [String.length] in Hd.
    cbn [Py.char_in]. rewrite (IH p d c rest Hp) by (lia || assumption).
    apply orb_true_r.
Qed.

Lemma startswith_take (pre : string) : forall p d,
  Py.startswith p pre = true ->
  String.length pre <= d ->
  Py.startswith (Py.take d p) pre = true.
Proof.
  induction pre as [|a pre IH]; intros p d Hp Hd; [apply startswith_nil|].
  destruct p as [|x p]; [discriminate|].
  destruct d as [|d]; [cbn in Hd; lia|].
  cbn [Py.startswith Py.take] in *. apply andb_prop in Hp.
  destruct Hp as [-> Hp]. cbn [andb]. apply IH; [exact Hp|cbn in Hd; lia].
Qed.

Lemma splitext_keeps_prefix p pre :
  Py.startswith p pre = true ->
  Py.char_in "." pre = false ->
  Py.startswith (fst (PosixPath.splitext p)) pre = true.
Proof.
  intros Hp Hdot. unfold PosixPath.splitext.
  destruct (Py.rfind PosixPath.extsep p) as [d|] eqn:Hd; [|exact Hp].
  destruct (_ && _); [|exact Hp]. cbn [fst].
  apply startswith_take; [exact Hp|].
  apply rfind_Some in Hd. destruct Hd as (rest & Hdrop & _).
  destruct (Nat.le_gt_cases (String.length pre) d) as [Hle|Hlt]; [exact Hle|].
  pose proof (drop_inside_prefix pre p d _ rest Hp Hlt Hdrop) as Hin.
  unfold PosixPath.extsep in Hin. congruence.
Qed.

Lemma uniquify_keeps_prefix (fs : gset string) counter filename pre :
  Py.startswith filename pre = true ->
  Py.char_in "." pre = false ->
  Py.startswith (snd (uniquify fs counter filename)) pre = true.
Proof.
  intros Hp Hdot.
  destruct (uniquify_spec fs counter filename) as [[_ ->]|(_ & n & _ & -> & _)];
    [exact Hp|].
  cbn [snd]. unfold numbered. apply startswith_app.
  apply splitext_keeps_prefix; assumption.
Qed.

(** X18. A part that declares no filename is always saved under a name that
    starts with [cid], when it has an identifier, or with [part-]: also
    after the renaming of a name in use. Such a name is never empty and never
    starts with a dot; only a declared filename can give a hidden file, the
    empty name or [..]. *)
Theorem made_up_names_are_ordinary P st part :
  Py.truthy (Email.get_filename part) = false ->
  let name := snd (assign_filename P st part) in
  Py.startswith name
    (if Py.truthy (content_id_of part) then "cid" else "part-") = true
  /\ name <> ""
  /\ Py.startswith name "." = false.
Proof.
  intros Hfn name.
  assert (Hpre : Py.startswith name
                   (if Py.truthy (content_id_of part) then "cid" else "part-")
                 = true).
  { subst name. unfold assign_filename. apply uniquify_keeps_prefix.
    - unfold derive_filename.
      destruct (Email.get_filename part) as [[|c fn]|]; try discriminate Hfn;
        destruct (content_id_of part) as [[|c' cid]|]; cbn [Py.truthy];
        try apply (startswith_self_app "part-");
        rewrite sanitize_app; apply (startswith_self_app "cid").
    - destruct (Py.truthy (content_id_of part)); reflexivity. }
  split; [exact Hpre|].
  destruct (Py.truthy (content_id_of part));
    destruct name as [|x name']; try discriminate;
    (split; [discriminate|]);
    cbn [Py.startswith] in Hpre |- *; apply andb_prop in Hpre;
    destruct Hpre as [Hx _]; apply Ascii.eqb_eq in Hx; subst x; reflexivity.
Qed.

(** An instance: the third image of the name [cidimg1.png]. *)
Lemma made_up_names_witness :
  snd (assign_filename (Samples.quiet Samples.png1)
         {| counter := 1; filenames := {[ "cidimg1.png"; "cidimg1-1.png" ]};
            subfiles := []; html_parts := [] |}
         Samples.png1)
  = "cidimg1-2.png"
  /\ Py.startswith
       (snd (assign_filename (Samples.quiet Samples.png1)
               {| counter := 1; filenames := {[ "cidimg1.png"; "cidimg1-1.png" ]};
                  subfiles := []; html_parts := [] |}
               Samples.png1))
       "." = false.
Proof.
  split; [vm_compute; reflexivity|].
  apply (made_up_names_are_ordinary (Samples.quiet Samples.png1)
           {| counter := 1; filenames := {[ "cidimg1.png"; "cidimg1-1.png" ]};
              subfiles := []; html_parts := [] |}
           Samples.png1).
  reflexivity.
Defined.

(** ** The viewer that cannot be started *)

Lemma call_bg_no_viewer P args file :
  spawn_ok P Prefs.BROWSER = false ->
  mysubprocess.call_bg P ([Prefs.BROWSER] ++ args ++ ["file://" +:+ file])%list
  = raise OSError.
Proof.
  intros H. unfold mysubprocess.call_bg. cbn [app mysubprocess.program].
  rewrite H. reflexivity.
Qed.

Lemma delayed_browser_no_viewer P file :
  spawn_ok P Prefs.BROWSER = false -> delayed_browser P file = raise OSError.
Proof. intros H. unfold delayed_browser. apply call_bg_no_viewer, H. Qed.

Lemma call_then_browser_no_viewer P arr file :
  spawn_ok P Prefs.BROWSER = false ->
  popens (trace (mysubprocess.call P arr >> delayed_browser P file)) = [].
Proof.
  intros H. rewrite trace_bind, popens_app, call_popens, delayed_browser_no_viewer by exact H.
  destruct (result _); reflexivity.
Qed.

Lemma handle_application_no_viewer P partfile part :
  spawn_ok P Prefs.BROWSER = false ->
  popens (trace (handle_application P partfile part)) = [].
Proof.
  intros H. unfold handle_application.
  destruct (_ && _); [apply call_then_browser_no_viewer, H|].
  destruct (_ || _); [apply call_then_browser_no_viewer, H|].
  rewrite trace_bind, popens_app, convert_presentation_popens.
  destruct (result _) as [pf|]; [|reflexivity..].
  unfold show_pdf. rewrite trace_bind, popens_app.
  destruct (String.eqb _ "pdf"); cbn [trace result fst snd ret raise popens omap app];
    [|reflexivity].
  destruct Prefs.CONVERT_PDF_TO_HTML;
    [apply call_then_browser_no_viewer, H|].
  rewrite delayed_browser_no_viewer by exact H. reflexivity.
Qed.

Lemma dispatch_parts_no_viewer P emb sf :
  spawn_ok P Prefs.BROWSER = false -> forall u,
  popens (trace (for_each (dispatch_part P emb) sf u)) = [].
Proof.
  intros H. induction sf as [|[sfid [partfile part]] sf IH]; intros u; [reflexivity|].
  cbn [for_each]. rewrite trace_bind, popens_app.
  assert (Hd : popens (trace (dispatch_part P emb u (sfid, (partfile, part)))) = []).
  { unfold dispatch_part. destruct (bool_decide _); [reflexivity|].
    destruct (String.eqb _ _); [apply handle_application_no_viewer, H|reflexivity]. }
  rewrite Hd. destruct (result _); [apply IH|reflexivity..].
Qed.

Lemma show_html_parts_no_viewer P tmpdir sf parts :
  spawn_ok P Prefs.BROWSER = false -> forall rw,
  popens (trace (for_each (show_html_part P tmpdir sf) parts rw)) = []
  /\ (parts <> [] ->
      forall rw', result (for_each (show_html_part P tmpdir sf) parts rw)
                  <> Return rw').
Proof.
  intros H. destruct parts as [|part parts]; intros rw.
  { split; [reflexivity|congruence]. }
  cbn [for_each]. rewrite trace_bind, result_bind.
  destruct (show_html_part_popens P tmpdir sf rw part) as [[Hp Hr]|(Hp & _ & _)].
  - rewrite popens_app, Hp.
    destruct (result (show_html_part P tmpdir sf rw part)) as [rw1|] eqn:E.
    + exfalso. apply (Hr rw1). reflexivity.
    + split; [reflexivity|]. intros _ rw'. discriminate.
  - exfalso.
    assert (Hin : Ev_popen (browser_cmd (first_browser rw)
                              (htmlfile_name tmpdir (next_index rw)))
                  ∈ trace (show_html_part P tmpdir sf rw part)).
    { assert (Hin' : browser_cmd (first_browser rw)
                       (htmlfile_name tmpdir (next_index rw))
                     ∈ popens (trace (show_html_part P tmpdir sf rw part)))
        by (rewrite Hp; left).
      unfold popens in Hin'. apply list_elem_of_omap in Hin'.
      destruct Hin' as (ev & Hev & Heq). destruct ev; try discriminate.
      injection Heq as ->. exact Hev. }
    clear Hp. unfold show_html_part in Hin.
    rewrite call_bg_no_viewer in Hin by exact H.
    rewrite !trace_bind in Hin.
    unfold open_wb, fp_write in Hin.
    destruct (open_wb_ok P _); cbn [trace result fst snd emit raise app] in Hin;
      [|inversion Hin].
    destruct (Email.get_payload_decoded part) as [data|];
      cbn [trace result fst snd ret raise app] in Hin.
    2:{ apply list_elem_of_singleton in Hin. discriminate. }
    pose proof (rewrite_html_trace P sf (bytes_decode P data) (embedded_parts rw)) as Ht.
    destruct (rewrite_html P sf (bytes_decode P data) (embedded_parts rw))
      as [t [[h e]|x]]; cbn [trace fst] in Ht; subst t;
      cbn [trace result fst snd app] in Hin.
    2: apply list_elem_of_singleton in Hin; discriminate.
    rewrite !trace_bind in Hin.
    destruct (write_ok P _); cbn [trace result fst snd emit raise app] in Hin.
    + apply elem_of_cons in Hin. destruct Hin as [Hin|Hin]; [discriminate|].
      apply list_elem_of_singleton in Hin. discriminate.
    + apply list_elem_of_singleton in Hin. discriminate.
Qed.

Lemma show_html_parts_calls P tmpdir sf parts : forall rw,
  calls (trace (for_each (show_html_part P tmpdir sf) parts rw)) = [].
Proof.
  assert (Hone : forall rw part,
             calls (trace (show_html_part P tmpdir sf rw part)) = []).
  { intros rw part.
    pose proof (show_html_part_events P tmpdir sf rw part) as Hev.
    induction (trace (show_html_part P tmpdir sf rw part)) as [|ev t IH];
      [reflexivity|].
    change (ev :: t) with ([ev] ++ t)%list. rewrite calls_app.
    rewrite IH by (intros ev' Hin; apply Hev; right; exact Hin).
    destruct (Hev ev (list_elem_of_here _ _)) as [->|[[d ->]| ->]]; reflexivity. }
  induction parts as [|part parts IH]; intros rw; [reflexivity|].
  cbn [for_each]. rewrite trace_bind, calls_app, Hone.
  destruct (result _); [apply IH|reflexivity..].
Qed.

(** X19. When the viewer cannot be started, no call of it appears in the
    run; the run of a message with an HTML part never completes, and no
    attachment is converted in it. *)
Theorem viewer_that_cannot_start_stops_the_run P tmpdir msg :
  spawn_ok P Prefs.BROWSER = false ->
  popens (trace (view_message P tmpdir (Some msg))) = []
  /\ (existsb is_html_leaf (Email.walk msg) = true ->
      completes (view_message P tmpdir (Some msg)) = false
      /\ calls (trace (view_message P tmpdir (Some msg))) = []).
Proof.
  intros H. rewrite view_message_Some.
  destruct (extract_parts P tmpdir msg) as [t1 [ex|]] eqn:Hex.
  2: cbn [bind trace fst]; fold (trace (extract_parts P tmpdir msg));
       pose proof (extract_popens P tmpdir (Email.walk msg) extractor_init) as Hp;
       pose proof (extract_calls P tmpdir (Email.walk msg) extractor_init) as Hc;
       unfold extract_parts in Hex; rewrite Hex in Hp, Hc;
       split; [exact Hp|intros _; split; [reflexivity|exact Hc]].
  destruct (extract_complete P tmpdir _ _ _ _ Hex) as (Hp1 & Hc1 & _).
  pose proof (extract_html_parts P tmpdir _ _ _ _ Hex) as Hparts.
  cbn [html_parts extractor_init app] in Hparts.
  rewrite bind_Return_l. cbn beta. cbn [trace fst completes result snd].
  rewrite popens_app, calls_app, Hp1, Hc1. cbn [app].
  destruct (show_html_parts_no_viewer P tmpdir (subfiles ex) (html_parts ex) H
              rewriter_init) as [Hp2 Hr2].
  fold (show_html_parts P tmpdir (subfiles ex) (html_parts ex)) in Hp2, Hr2.
  pose proof (show_html_parts_calls P tmpdir (subfiles ex) (html_parts ex)
                rewriter_init) as Hc2.
  fold (show_html_parts P tmpdir (subfiles ex) (html_parts ex)) in Hc2.
  rewrite trace_bind, result_bind, popens_app, calls_app, Hp2, Hc2.
  split.
  - destruct (result (show_html_parts P tmpdir (subfiles ex) (html_parts ex)));
      [|reflexivity..].
    apply dispatch_parts_no_viewer, H.
  - intros Hhtml.
    assert (Hne : html_parts ex <> []).
    { rewrite Hparts. intros Hnil. apply existsb_filter_nil in Hnil. congruence. }
    specialize (Hr2 Hne).
    destruct (show_html_parts P tmpdir (subfiles ex) (html_parts ex))
      as [t2 [rw|]] eqn:Hrw; cbn [result snd trace fst] in *.
    + exfalso. apply (Hr2 rw). reflexivity.
    + split; reflexivity.
Qed.

(** An instance: an HTML body on a platform without the viewer. *)
Lemma viewer_that_cannot_start_witness :
  view_message (MoreSamples.no_viewer Samples.single_html) "/tmp/w"
    (Some Samples.single_html)
  = ([Ev_open "/tmp/w/part-001.html";
      Ev_write "/tmp/w/part-001.html" "<p>hello</p>";
      Ev_open "/tmp/w/viewhtml00.html";
      Ev_write "/tmp/w/viewhtml00.html" "<p>hello</p>"],
     Raise OSError)
  /\ popens (trace (view_message (MoreSamples.no_viewer Samples.single_html)
                      "/tmp/w" (Some Samples.single_html))) = [].
Proof.
  split; [vm_compute; reflexivity|].
  destruct (viewer_that_cannot_start_stops_the_run
              (MoreSamples.no_viewer Samples.single_html) "/tmp/w"
              Samples.single_html) as [H _]; [reflexivity|exact H].
Defined.
